(** * Workflow execution context cache (package [execution], file cache.go)

    A shallow embedding of the cache facade of the history service:
    [GetOrCreateCurrentWorkflowExecution], [GetAndCreateWorkflowExecution],
    [GetOrCreateWorkflowExecution], [getOrCreateWorkflowExecutionInternal],
    [validateWorkflowExecutionInfo], [makeReleaseFunc] and
    [getCurrentExecutionWithRetry].

    The Go code is stateful and talks to collaborators (the pinned LRU map,
    the workflow [Context] objects, storage, the domain cache, the metrics
    client, the clock).  The embedding threads an explicit [World] through a
    small state monad, records every call made to a collaborator in a trace,
    and takes the answers of the collaborators the source does not define
    from an [Env] record.  Other goroutines and the passing of time act on
    the world at the points where the code touches shared state. *)

From Stdlib Require Import String Ascii List ZArith Bool Arith Lia.
Import ListNotations.
Local Open Scope string_scope.
Local Open Scope list_scope.

(** ** Plain data of the packages the facade imports *)

Module types.

(** [types.WorkflowExecution] *)
Record WorkflowExecution : Type := mkWorkflowExecution
  { WorkflowID : string;
    RunID : string }.

(** Go [error] values.  [BadRequestError] is the one the facade builds
    itself; the others are produced by collaborators and are opaque to the
    facade: the map's capacity error and the errors of storage, of the
    entry lock and of the retry executor, told apart by a number. *)
Inductive error : Type :=
| BadRequestError (Message : string)
| CapacityExhausted
| OtherError (code : nat).

End types.

Module definition.

(** [definition.WorkflowIdentifier], the key of the map. *)
Record WorkflowIdentifier : Type := NewWorkflowIdentifier
  { DomainID : string;
    WorkflowID : string;
    RunID : string }.

Definition eqb (a b : WorkflowIdentifier) : bool :=
  String.eqb (DomainID a) (DomainID b)
  && String.eqb (WorkflowID a) (WorkflowID b)
  && String.eqb (RunID a) (RunID b).

End definition.

Module persistence.

Record GetCurrentExecutionRequest : Type := mkGetCurrentExecutionRequest
  { DomainID : string;
    WorkflowID : string }.

Record GetCurrentExecutionResponse : Type := mkGetCurrentExecutionResponse
  { RunID : string }.

End persistence.

Module metrics.

(** The metric scopes the file names; any other caller scope is
    [OtherScope n].  In Go they are distinct [int] constants. *)
Inductive scope : Type :=
| HistoryCacheGetOrCreateCurrentScope
| HistoryCacheGetAndCreateScope
| HistoryCacheGetOrCreateScope
| HistoryCacheGetCurrentExecutionScope
| TimerActiveTaskDeleteHistoryEventScope
| HistoryRespondDecisionTaskCompletedScope
| PersistenceUpdateWorkflowExecutionScope
| TimerActiveTaskActivityTimeoutScope
| OtherScope (n : nat).

Inductive metric : Type :=
| CacheRequests
| CacheLatency
| CacheFailures
| CacheMissCounter
| AcquireLockFailedCounter
| LockWaitLatency
| LockHoldLatency.

End metrics.

(** A workflow [Context] is a heap object; the embedding names it by its
    address.  A nil [Context] is [None : option Context]. *)
Definition Context : Type := nat.

(** A [context.Context]: the instant at which its [Done] channel closes,
    if ever ([context.Background()] is never done). *)
Record GoContext : Type := mkGoContext { doneAt : option Z }.

Definition Background : GoContext := mkGoContext None.

Definition isDone (ctx : GoContext) (now : Z) : bool :=
  match doneAt ctx with
  | Some t => (t <=? now)%Z
  | None => false
  end.

(** [time.Duration] values, in nanoseconds. *)
Definition Millisecond : Z := 1000000%Z.

(** ** The pinned LRU map with TTL (package [cache]) *)

Module cache.

Import definition.

(** The options of [cache.New] the facade sets. *)
Record Options : Type := mkOptions
  { InitialCapacity : nat;
    TTL : Z;
    Pin : bool;
    MaxCount : nat }.

(** Modelled from the spec: an entry is a pair of key and value carrying
    a pin count and an insertion timestamp. *)
Record entry : Type := mkEntry
  { key : WorkflowIdentifier;
    value : Context;
    refCount : nat;
    createTime : Z }.

(** Modelled from the spec: the map, kept as the list of its entries, most
    recently used first. *)
Definition lru : Type := list entry.

Fixpoint find (k : WorkflowIdentifier) (l : lru) : option entry :=
  match l with
  | [] => None
  | e :: l' => if eqb k (key e) then Some e else find k l'
  end.

Fixpoint remove (k : WorkflowIdentifier) (l : lru) : lru :=
  match l with
  | [] => []
  | e :: l' => if eqb k (key e) then remove k l' else e :: remove k l'
  end.

Definition replace (k : WorkflowIdentifier) (e' : entry) (l : lru) : lru :=
  map (fun e => if eqb k (key e) then e' else e) l.

Definition pin (e : entry) : entry :=
  mkEntry (key e) (value e) (S (refCount e)) (createTime e).

Definition unpin (e : entry) : entry :=
  mkEntry (key e) (value e) (Nat.pred (refCount e)) (createTime e).

(** Modelled from the spec: an entry is TTL-expired when its age exceeds
    the TTL. *)
Definition expired (o : Options) (now : Z) (e : entry) : bool :=
  (TTL o <? now - createTime e)%Z.

(** Modelled from the spec: eviction drops the least recently used entry
    among the unpinned ones. *)
Fixpoint evict (l : lru) : option lru :=
  match l with
  | [] => None
  | e :: l' =>
      match evict l' with
      | Some l'' => Some (e :: l'')
      | None => if Nat.eqb (refCount e) 0 then Some l' else None
      end
  end.

(** Modelled from the spec: the map of package common/cache is not part
    of the sources at hand.  [Get]: if the entry is present and not
    TTL-expired, increment its pin count, touch it and return its value;
    otherwise return absent; an expired entry with pin count 0 is removed
    on encounter, an expired entry still pinned stays but is not a hit. *)
Definition Get (o : Options) (now : Z) (k : WorkflowIdentifier) (l : lru)
  : lru * option Context :=
  match find k l with
  | None => (l, None)
  | Some e =>
      if expired o now e
      then (if Nat.eqb (refCount e) 0 then remove k l else l, None)
      else (pin e :: remove k l, Some (value e))
  end.

(** Modelled from the spec: [PutIfNotExist] inserts [(k, v)] if no entry
    exists for [k], or returns the existing entry; in both cases the
    returned entry is pinned once more and touched.  It fails with the
    capacity error if inserting would exceed [MaxCount] and no unpinned
    entry can be evicted. *)
Definition PutIfNotExist (o : Options) (now : Z) (k : WorkflowIdentifier)
    (v : Context) (l : lru) : lru * (Context + types.error) :=
  match find k l with
  | Some e => (pin e :: remove k l, inl (value e))
  | None =>
      if Nat.ltb (length l) (MaxCount o)
      then (mkEntry k v 1 now :: l, inl v)
      else match evict l with
           | Some l' => (mkEntry k v 1 now :: l', inl v)
           | None => (l, inr types.CapacityExhausted)
           end
  end.

(** Modelled from the spec: [Release] decrements the pin count of the
    entry for [k], if any; when the count reaches 0 and the entry is
    TTL-expired or the map is over capacity, the entry is removed. *)
Definition Release (o : Options) (now : Z) (k : WorkflowIdentifier)
    (l : lru) : lru :=
  match find k l with
  | None => l
  | Some e =>
      let e' := unpin e in
      if Nat.eqb (refCount e') 0 && (expired o now e' || Nat.ltb (MaxCount o) (length l))
      then remove k l
      else replace k e' l
  end.

(** Pin count of a key; an absent key has none. *)
Definition pins (k : WorkflowIdentifier) (l : lru) : nat :=
  match find k l with
  | Some e => refCount e
  | None => 0
  end.

Definition keys (l : lru) : list WorkflowIdentifier := map key l.
Definition values (l : lru) : list Context := map value l.

End cache.

(** ** The world the facade runs in *)

(** Calls made by the facade to its collaborators, in program order. *)
Inductive event : Type :=
| EvNewContext (c : Context) (domainID : string)
    (execution : types.WorkflowExecution)
| EvGet (k : definition.WorkflowIdentifier) (r : option Context)
| EvPutIfNotExist (k : definition.WorkflowIdentifier) (v : Context)
    (r : Context + types.error)
| EvRelease (k : definition.WorkflowIdentifier)
| EvLock (c : Context) (r : option types.error)
| EvUnlock (c : Context)
| EvClear (c : Context)
| EvGetCurrentExecution (request : persistence.GetCurrentExecutionRequest)
    (r : persistence.GetCurrentExecutionResponse + types.error)
| EvGetDomainName (domainID : string) (r : string + types.error)
| EvIncCounter (s : metrics.scope) (m : metrics.metric)
| EvStartTimer (s : metrics.scope) (domainTag : option string)
    (m : metrics.metric)
| EvStopTimer (s : metrics.scope) (domainTag : option string)
    (m : metrics.metric)
| EvRecordTimer (s : metrics.scope) (domainTag : option string)
    (m : metrics.metric) (d : Z)
| EvSleep (d : Z).

(** What other goroutines and the clock may do between two steps of the
    facade: let time pass, or run one map operation of their own (a racer
    inserting under a key first creates its own [Context]). *)
Inductive EnvOp : Type :=
| Tick (d : N)
| RacerGet (k : definition.WorkflowIdentifier)
| RacerPut (k : definition.WorkflowIdentifier)
| RacerRelease (k : definition.WorkflowIdentifier).

Record World : Type := mkWorld
  { entries : cache.lru;          (* content of the embedded cache.Cache *)
    clock : Z;                    (* current instant *)
    heap : list (string * types.WorkflowExecution);
                                  (* Context objects, by address *)
    cells : list Z;               (* int32 status cells of release closures *)
    trace : list event;
    yields : nat;                 (* scheduling points passed so far *)
    lockCalls : nat;              (* calls to Context.Lock so far *)
    storageCalls : nat }.         (* calls to GetCurrentExecution so far *)

Definition set_entries (l : cache.lru) (w : World) : World :=
  mkWorld l (clock w) (heap w) (cells w) (trace w) (yields w) (lockCalls w)
    (storageCalls w).
Definition set_clock (t : Z) (w : World) : World :=
  mkWorld (entries w) t (heap w) (cells w) (trace w) (yields w) (lockCalls w)
    (storageCalls w).
Definition set_heap (h : list (string * types.WorkflowExecution)) (w : World)
  : World :=
  mkWorld (entries w) (clock w) h (cells w) (trace w) (yields w) (lockCalls w)
    (storageCalls w).
Definition set_cells (s : list Z) (w : World) : World :=
  mkWorld (entries w) (clock w) (heap w) s (trace w) (yields w) (lockCalls w)
    (storageCalls w).
Definition set_trace (t : list event) (w : World) : World :=
  mkWorld (entries w) (clock w) (heap w) (cells w) t (yields w) (lockCalls w)
    (storageCalls w).
Definition set_yields (n : nat) (w : World) : World :=
  mkWorld (entries w) (clock w) (heap w) (cells w) (trace w) n (lockCalls w)
    (storageCalls w).
Definition set_lockCalls (n : nat) (w : World) : World :=
  mkWorld (entries w) (clock w) (heap w) (cells w) (trace w) (yields w) n
    (storageCalls w).
Definition set_storageCalls (n : nat) (w : World) : World :=
  mkWorld (entries w) (clock w) (heap w) (cells w) (trace w) (yields w)
    (lockCalls w) n.

(** Behaviour of the collaborators the file does not define. *)
Record Env : Type := mkEnv
  { (* uuid.Parse(s) != nil *)
    uuid_Parse : string -> bool;
    (* persistence.IsTransientError *)
    IsTransientError : types.error -> bool;
    (* retries the persistence retry policy allows after the first attempt *)
    MaxRetries : nat;
    (* executionManager.GetCurrentExecution, answer of the n-th call *)
    GetCurrentExecution :
      nat -> GoContext -> persistence.GetCurrentExecutionRequest ->
      persistence.GetCurrentExecutionResponse + types.error;
    (* shard.GetDomainCache().GetDomainName *)
    GetDomainName : string -> string + types.error;
    (* Context.Lock(ctx), outcome of the n-th call; None is success *)
    Lock : nat -> Context -> GoContext -> option types.error;
    (* what the other goroutines and the clock do at the n-th scheduling
       point *)
    interference : nat -> list EnvOp }.

(** The [Cache] struct: the options its embedded map was built with and the
    test hook; the map's content is [entries] of the world, the other fields
    are collaborators. *)
Record Cache : Type := mkCache
  { opts : cache.Options;
    disabled : bool }.

Record Config : Type := mkConfig
  { HistoryCacheInitialSize : nat;
    HistoryCacheTTL : Z;
    HistoryCacheMaxSize : nat }.

Definition NewCache (config : Config) : Cache :=
  mkCache
    (cache.mkOptions (HistoryCacheInitialSize config) (HistoryCacheTTL config)
       true (HistoryCacheMaxSize config))
    false.

Definition cacheNotReleased : Z := 0%Z.
Definition cacheReleased : Z := 1%Z.

(** ** State monad *)

Definition M (A : Type) : Type := World -> A * World.

Definition ret {A : Type} (a : A) : M A := fun w => (a, w).

Definition bind {A B : Type} (m : M A) (k : A -> M B) : M B :=
  fun w => let (a, w') := m w in k a w'.

Declare Scope monad_scope.
Delimit Scope monad_scope with monad.
Notation "x <- m ;; k" := (bind m (fun x => k))
  (at level 61, m at next level, right associativity) : monad_scope.
Notation "' pat <- m ;; k" :=
  (bind m (fun x => match x with pat => k end))
  (at level 61, pat pattern, m at next level, right associativity)
  : monad_scope.
Notation "m ;; k" := (bind m (fun _ => k))
  (at level 61, right associativity) : monad_scope.
Local Open Scope monad_scope.

Definition emit (ev : event) : M unit :=
  fun w => (tt, set_trace (trace w ++ [ev]) w).

(** A Go [if] without [else] around a statement. *)
Definition when (b : bool) (m : M unit) : M unit :=
  if b then m else ret tt.

(** ** Primitive operations *)

Section Facade.

Variable E : Env.

(** One action of the environment on the world.  A racer's operations are
    not recorded in the trace of the facade. *)
Definition runEnvOp (o : cache.Options) (w : World) (op : EnvOp) : World :=
  match op with
  | Tick d => set_clock (clock w + Z.of_N d) w
  | RacerGet k =>
      set_entries (fst (cache.Get o (clock w) k (entries w))) w
  | RacerPut k =>
      let v := length (heap w) in
      let execution :=
        types.mkWorkflowExecution (definition.WorkflowID k)
          (definition.RunID k) in
      set_entries
        (fst (cache.PutIfNotExist o (clock w) k v (entries w)))
        (set_heap (heap w ++ [(definition.DomainID k, execution)]) w)
  | RacerRelease k =>
      set_entries (cache.Release o (clock w) k (entries w)) w
  end.

(** A scheduling point: the environment runs its next batch of actions. *)
Definition envStep (c : Cache) (w : World) : World :=
  fold_left (runEnvOp (opts c)) (interference E (yields w))
    (set_yields (S (yields w)) w).

Definition yield (c : Cache) : M unit := fun w => (tt, envStep c w).

(** [NewContext(domainID, execution, shard, executionManager, logger)]:
    pure construction of a new object. *)
Definition NewContext (domainID : string)
    (execution : types.WorkflowExecution) : M Context :=
  fun w =>
    let a := length (heap w) in
    (a, set_trace (trace w ++ [EvNewContext a domainID execution])
          (set_heap (heap w ++ [(domainID, execution)]) w)).

(** [c.Get(key).(Context)] *)
Definition cacheGet (c : Cache) (k : definition.WorkflowIdentifier)
  : M (option Context) :=
  yield c ;;
  fun w =>
    let (l, r) := cache.Get (opts c) (clock w) k (entries w) in
    (r, set_trace (trace w ++ [EvGet k r]) (set_entries l w)).

(** [c.PutIfNotExist(key, value)] *)
Definition cachePutIfNotExist (c : Cache)
    (k : definition.WorkflowIdentifier) (v : Context)
  : M (Context + types.error) :=
  yield c ;;
  fun w =>
    let (l, r) := cache.PutIfNotExist (opts c) (clock w) k v (entries w) in
    (r, set_trace (trace w ++ [EvPutIfNotExist k v r]) (set_entries l w)).

(** [c.Release(key)] *)
Definition cacheRelease (c : Cache) (k : definition.WorkflowIdentifier)
  : M unit :=
  yield c ;;
  fun w =>
    (tt, set_trace (trace w ++ [EvRelease k])
           (set_entries (cache.Release (opts c) (clock w) k (entries w)) w)).

(** [context.Lock(ctx)]; the caller may be suspended for any time. *)
Definition contextLock (c : Cache) (x : Context) (ctx : GoContext)
  : M (option types.error) :=
  yield c ;;
  fun w =>
    let r := Lock E (lockCalls w) x ctx in
    (r, set_trace (trace w ++ [EvLock x r])
          (set_lockCalls (S (lockCalls w)) w)).

Definition contextUnlock (x : Context) : M unit := emit (EvUnlock x).

Definition contextClear (x : Context) : M unit := emit (EvClear x).

(** [time.Now()] *)
Definition timeNow (c : Cache) : M Z :=
  yield c ;; fun w => (clock w, w).

(** [time.Since(start)] *)
Definition timeSince (c : Cache) (start : Z) : M Z :=
  now <- timeNow c ;; ret (now - start)%Z.

(** [time.Sleep(d)] *)
Definition timeSleep (d : Z) : M unit :=
  fun w =>
    (tt, set_trace (trace w ++ [EvSleep d]) (set_clock (clock w + d) w)).

(** A fresh [int32] variable captured by a closure. *)
Definition newCell (v : Z) : M nat :=
  fun w => (length (cells w), set_cells (cells w ++ [v]) w).

Fixpoint store (a : nat) (v : Z) (s : list Z) : list Z :=
  match s, a with
  | [], _ => []
  | _ :: s', O => v :: s'
  | x :: s', S a' => x :: store a' v s'
  end.

(** [atomic.CompareAndSwapInt32(&cell, old, new)] *)
Definition CompareAndSwapInt32 (a : nat) (old new : Z) : M bool :=
  fun w =>
    match nth_error (cells w) a with
    | Some v =>
        if (v =? old)%Z then (true, set_cells (store a new (cells w)) w)
        else (false, w)
    | None => (false, w)
    end.

(** [executionManager.GetCurrentExecution(ctx, request)] *)
Definition executionManagerGetCurrentExecution (c : Cache) (ctx : GoContext)
    (request : persistence.GetCurrentExecutionRequest)
  : M (persistence.GetCurrentExecutionResponse + types.error) :=
  yield c ;;
  fun w =>
    let r := GetCurrentExecution E (storageCalls w) ctx request in
    (r, set_trace (trace w ++ [EvGetCurrentExecution request r])
          (set_storageCalls (S (storageCalls w)) w)).

(** [shard.GetDomainCache().GetDomainName(domainID)] *)
Definition shardGetDomainName (domainID : string)
  : M (string + types.error) :=
  let r := GetDomainName E domainID in
  emit (EvGetDomainName domainID r) ;; ret r.

(** [sw := StartTimer(...); defer sw.Stop()] around the rest of a
    function body. *)
Definition withTimer {A : Type} (s : metrics.scope)
    (domainTag : option string) (m : metrics.metric) (body : M A) : M A :=
  emit (EvStartTimer s domainTag m) ;;
  r <- body ;;
  emit (EvStopTimer s domainTag m) ;;
  ret r.

Definition IncCounter (s : metrics.scope) (m : metrics.metric) : M unit :=
  emit (EvIncCounter s m).

(** ** The retry executor (package [backoff]) *)

(** Modelled from the spec: [ThrottleRetry.Do] of package common/backoff
    is not part of the sources at hand.  It runs the operation; a success
    or an error the predicate does not flag as transient is returned at
    once; a transient error is retried after a backoff wait, for a bounded
    number of attempts; cancellation of the surrounding scope aborts
    further attempts.  The operation is a closure: [S] is the variable it
    captures and assigns.  When the attempts are exhausted or the scope is
    cancelled the error of the last attempt is returned. *)
Fixpoint retryDo {S : Type} (retries : nat) (c : Cache) (ctx : GoContext)
    (op : S -> M (S * option types.error)) (s : S)
  : M (S * option types.error) :=
  '(s', err) <- op s ;;
  match err with
  | None => ret (s', None)
  | Some e =>
      if negb (IsTransientError E e) then ret (s', Some e)
      else
        match retries with
        | O => ret (s', Some e)
        | Datatypes.S n =>
            now <- timeNow c ;;
            if isDone ctx now then ret (s', Some e)
            else retryDo n c ctx op s'
        end
  end.

(** ** Release handles *)

(** A value recovered from a panic. *)
Definition PanicValue : Type := string.

(** The variables captured by the closure [makeReleaseFunc] returns;
    [r_status] is the address of its [status] variable. *)
Record releaseEnv : Type := mkReleaseEnv
  { r_key : definition.WorkflowIdentifier;
    r_context : Context;
    r_forceClearContext : bool;
    r_callerScope : metrics.scope;
    r_domainName : string;
    r_status : nat;
    r_start : Z }.

(** A non-nil [ReleaseFunc]: the package's no-op, or a closure. *)
Inductive ReleaseFunc : Type :=
| NoopReleaseFn
| releaseClosure (r : releaseEnv).

Definition makeReleaseFunc (c : Cache) (key : definition.WorkflowIdentifier)
    (context : Context) (forceClearContext : bool)
    (callerScope : metrics.scope) (domainName : string) : M ReleaseFunc :=
  status <- newCell cacheNotReleased ;;
  start <- timeNow c ;;
  ret (releaseClosure
         (mkReleaseEnv key context forceClearContext callerScope domainName
            status start)).

(** The chain of caller-scope tests taken when the domain is the
    canary. *)
Definition canaryDelay (callerScope : metrics.scope) : M unit :=
  match callerScope with
  | metrics.TimerActiveTaskDeleteHistoryEventScope => ret tt
  | metrics.HistoryCacheGetOrCreateCurrentScope => ret tt
  | metrics.HistoryRespondDecisionTaskCompletedScope =>
      timeSleep (18 * Millisecond)
  | metrics.PersistenceUpdateWorkflowExecutionScope =>
      timeSleep (14 * Millisecond)
  | metrics.TimerActiveTaskActivityTimeoutScope =>
      timeSleep (5 * Millisecond)
  | _ => ret tt
  end.

Definition isSome {A : Type} (o : option A) : bool :=
  match o with Some _ => true | None => false end.

(** The body of a release function called with [err].  The body of the
    closure is one deferred function; [rec] is what [recover()] returns
    inside it, and the result is the value the body panics with, if it
    does ([panic(rec)]).  What [recover()] returns there when the program
    runs is [recover] below: see [invokeReleaseFunc]. *)
Definition callReleaseFunc (c : Cache) (f : ReleaseFunc)
    (err : option types.error) (rec : option PanicValue)
  : M (option PanicValue) :=
  match f with
  | NoopReleaseFn => ret rec
  | releaseClosure r =>
      swapped <- CompareAndSwapInt32 (r_status r) cacheNotReleased
                   cacheReleased ;;
      if swapped then
        match rec with
        | Some v =>
            contextClear (r_context r) ;;
            contextUnlock (r_context r) ;;
            held <- timeSince c (r_start r) ;;
            emit (EvRecordTimer (r_callerScope r) (Some (r_domainName r))
                    metrics.LockHoldLatency held) ;;
            cacheRelease c (r_key r) ;;
            ret (Some v)
        | None =>
            when (isSome err || r_forceClearContext r)
              (contextClear (r_context r)) ;;
            when (String.eqb (r_domainName r) "cadence-canary")
              (canaryDelay (r_callerScope r)) ;;
            contextUnlock (r_context r) ;;
            held <- timeSince c (r_start r) ;;
            emit (EvRecordTimer (r_callerScope r) (Some (r_domainName r))
                    metrics.LockHoldLatency held) ;;
            cacheRelease c (r_key r) ;;
            ret None
        end
      else ret rec
  end.

(** Who deferred the function that calls [recover()]: the function that
    is panicking, so that the panic itself runs the deferred function, or
    any other function, whose deferred functions run when it returns. *)
Inductive deferrer : Type :=
| ThePanickingFunction
| AnotherFunction.

(** [recover()], called by a deferred function: it returns the value of
    the panic in flight only when the panic itself runs that deferred
    function; in every other call it returns nil. *)
Definition recover (by_ : deferrer) (panicking : option PanicValue)
  : option PanicValue :=
  match by_ with
  | ThePanickingFunction => panicking
  | AnotherFunction => None
  end.

(** A call [f(err)] of a release function while [panicking] is in flight
    in the caller (a panic of the locked region, when the caller releases
    in a deferred function).  The handle does nothing but defer its one
    function: it cannot panic before it returns, and its deferred function
    runs on that return, so [recover()] is called by a function that the
    handle, not the panicking function, deferred.  The result is the panic
    in flight when the call is over: the one the body raised, or else the
    caller's, which nothing recovered. *)
Definition invokeReleaseFunc (c : Cache) (f : ReleaseFunc)
    (err : option types.error) (panicking : option PanicValue)
  : M (option PanicValue) :=
  raised <- callReleaseFunc c f err (recover AnotherFunction panicking) ;;
  ret (match raised with
       | Some v => Some v
       | None => panicking
       end).

(** ** The facade *)

Definition getCurrentExecutionWithRetry (c : Cache) (ctx : GoContext)
    (request : persistence.GetCurrentExecutionRequest)
  : M (option persistence.GetCurrentExecutionResponse
       * option types.error) :=
  IncCounter metrics.HistoryCacheGetCurrentExecutionScope
    metrics.CacheRequests ;;
  withTimer metrics.HistoryCacheGetCurrentExecutionScope None
    metrics.CacheLatency
    (let op := fun _ : option persistence.GetCurrentExecutionResponse =>
       r <- executionManagerGetCurrentExecution c ctx request ;;
       match r with
       | inl response => ret (Some response, None)
       | inr err => ret (None, Some err)
       end in
     '(response, err) <- retryDo (MaxRetries E) c ctx op None ;;
     match err with
     | Some e =>
         IncCounter metrics.HistoryCacheGetCurrentExecutionScope
           metrics.CacheFailures ;;
         ret (None, Some e)
     | None => ret (response, None)
     end).

(** [response.RunID]; the response is never nil where it is read
    ([getCurrentExecutionWithRetry_response] below). *)
Definition responseRunID
    (response : option persistence.GetCurrentExecutionResponse) : string :=
  match response with
  | Some r => persistence.RunID r
  | None => ""
  end.

(** The function writes through its [execution] pointer: the embedding
    returns the execution as the caller sees it afterwards. *)
Definition validateWorkflowExecutionInfo (c : Cache) (ctx : GoContext)
    (domainID : string) (execution : types.WorkflowExecution)
  : M (types.WorkflowExecution * option types.error) :=
  if String.eqb (types.WorkflowID execution) "" then
    ret (execution,
         Some (types.BadRequestError
                 "Can't load workflow execution.  WorkflowId not set."))
  else if String.eqb (types.RunID execution) "" then
    '(response, err) <-
      getCurrentExecutionWithRetry c ctx
        (persistence.mkGetCurrentExecutionRequest domainID
           (types.WorkflowID execution)) ;;
    match err with
    | Some e => ret (execution, Some e)
    | None =>
        ret (types.mkWorkflowExecution (types.WorkflowID execution)
               (responseRunID response), None)
    end
  else if negb (uuid_Parse E (types.RunID execution)) then
    ret (execution, Some (types.BadRequestError "RunID is not valid UUID."))
  else ret (execution, None).

Definition getOrCreateWorkflowExecutionInternal (c : Cache)
    (ctx : GoContext) (domainID : string)
    (execution : types.WorkflowExecution) (scope : metrics.scope)
    (forceClearContext : bool) (callerScope : metrics.scope)
  : M (option Context * option ReleaseFunc * option types.error) :=
  if disabled c then
    x <- NewContext domainID execution ;;
    ret (Some x, Some NoopReleaseFn, None)
  else
    let key :=
      definition.NewWorkflowIdentifier domainID
        (types.WorkflowID execution) (types.RunID execution) in
    cached <- cacheGet c key ;;
    found <-
      match cached with
      | Some workflowCtx => ret (inl workflowCtx)
      | None =>
          IncCounter scope metrics.CacheMissCounter ;;
          workflowCtx <- NewContext domainID execution ;;
          elem <- cachePutIfNotExist c key workflowCtx ;;
          match elem with
          | inr err =>
              IncCounter scope metrics.CacheFailures ;; ret (inr err)
          | inl workflowCtx' => ret (inl workflowCtx')
          end
      end ;;
    match found with
    | inr err => ret (None, None, Some err)
    | inl workflowCtx =>
        name <- shardGetDomainName domainID ;;
        let domainName :=
          match name with inl n => n | inr _ => "" end in
        withTimer callerScope (Some domainName) metrics.LockWaitLatency
          (locked <- contextLock c workflowCtx ctx ;;
           match locked with
           | Some err =>
               cacheRelease c key ;;
               IncCounter scope metrics.CacheFailures ;;
               IncCounter scope metrics.AcquireLockFailedCounter ;;
               ret (None, None, Some err)
           | None =>
               releaseFunc <-
                 makeReleaseFunc c key workflowCtx forceClearContext
                   callerScope domainName ;;
               ret (Some workflowCtx, Some releaseFunc, None)
           end)
    end.

Definition GetOrCreateCurrentWorkflowExecution (c : Cache)
    (ctx : GoContext) (domainID : string) (workflowID : string)
  : M (option Context * option ReleaseFunc * option types.error) :=
  let scope := metrics.HistoryCacheGetOrCreateCurrentScope in
  IncCounter scope metrics.CacheRequests ;;
  withTimer scope None metrics.CacheLatency
    (let runID := "" in
     let execution := types.mkWorkflowExecution workflowID runID in
     getOrCreateWorkflowExecutionInternal c ctx domainID execution scope
       true scope).

Definition GetOrCreateWorkflowExecution (c : Cache) (ctx : GoContext)
    (domainID : string) (execution : types.WorkflowExecution)
    (callerScope : metrics.scope)
  : M (option Context * option ReleaseFunc * option types.error) :=
  let scope := metrics.HistoryCacheGetOrCreateScope in
  IncCounter scope metrics.CacheRequests ;;
  withTimer scope None metrics.CacheLatency
    ('(execution', err) <-
       validateWorkflowExecutionInfo c ctx domainID execution ;;
     match err with
     | Some e =>
         IncCounter scope metrics.CacheFailures ;; ret (None, None, Some e)
     | None =>
         getOrCreateWorkflowExecutionInternal c ctx domainID execution'
           scope false callerScope
     end).

Definition GetOrCreateWorkflowExecutionForBackground (c : Cache)
    (domainID : string) (execution : types.WorkflowExecution)
  : M (option Context * option ReleaseFunc * option types.error) :=
  GetOrCreateWorkflowExecution c Background domainID execution
    metrics.HistoryCacheGetOrCreateScope.

Definition GetOrCreateWorkflowExecutionWithTimeout (c : Cache)
    (domainID : string) (execution : types.WorkflowExecution)
    (timeout : Z) (callerScope : metrics.scope)
  : M (option Context * option ReleaseFunc * option types.error) :=
  now <- timeNow c ;;
  GetOrCreateWorkflowExecution c (mkGoContext (Some (now + timeout)%Z))
    domainID execution callerScope.

Definition GetAndCreateWorkflowExecution (c : Cache) (ctx : GoContext)
    (domainID : string) (execution : types.WorkflowExecution)
  : M (option Context * option Context * option ReleaseFunc * bool
       * option types.error) :=
  let scope := metrics.HistoryCacheGetAndCreateScope in
  IncCounter scope metrics.CacheRequests ;;
  withTimer scope None metrics.CacheLatency
    ('(execution', err) <-
       validateWorkflowExecutionInfo c ctx domainID execution ;;
     match err with
     | Some e =>
         IncCounter scope metrics.CacheFailures ;;
         ret (None, None, None, false, Some e)
     | None =>
         let key :=
           definition.NewWorkflowIdentifier domainID
             (types.WorkflowID execution') (types.RunID execution') in
         contextFromCache <- cacheGet c key ;;
         locked <-
           match contextFromCache with
           | Some x =>
               lockErr <- contextLock c x ctx ;;
               match lockErr with
               | Some e =>
                   cacheRelease c key ;;
                   IncCounter metrics.HistoryCacheGetAndCreateScope
                     metrics.CacheFailures ;;
                   IncCounter metrics.HistoryCacheGetAndCreateScope
                     metrics.AcquireLockFailedCounter ;;
                   ret (inr e)
               | None =>
                   f <- makeReleaseFunc c key x false
                          metrics.HistoryCacheGetAndCreateScope "" ;;
                   ret (inl f)
               end
           | None =>
               IncCounter metrics.HistoryCacheGetAndCreateScope
                 metrics.CacheMissCounter ;;
               ret (inl NoopReleaseFn)
           end ;;
         match locked with
         | inr e => ret (None, None, None, false, Some e)
         | inl releaseFunc =>
             contextFromDB <- NewContext domainID execution' ;;
             ret (contextFromCache, Some contextFromDB, Some releaseFunc,
                  isSome contextFromCache, None)
         end
     end).

End Facade.

(** ** Vocabulary of the statements *)

(** The world before anything ran: an empty map at instant 0. *)
Definition emptyWorld : World := mkWorld [] 0%Z [] [] [] 0 0 0.

(** The events a computation added to the trace. *)
Definition newEvents (w w' : World) : list event :=
  skipn (length (trace w)) (trace w').

(** The calls of the release protocol: [Clear], [Unlock] and the map's
    [Release]. *)
Definition isProtocol (ev : event) : bool :=
  match ev with
  | EvClear _ | EvUnlock _ | EvRelease _ => true
  | _ => false
  end.

Definition protocol (t : list event) : list event := filter isProtocol t.

(** Events that construct a [Context] or change the map. *)
Definition isMapOrNew (ev : event) : bool :=
  match ev with
  | EvNewContext _ _ _ | EvGet _ _ | EvPutIfNotExist _ _ _ | EvRelease _ =>
      true
  | _ => false
  end.

Definition isTick (op : EnvOp) : bool :=
  match op with Tick _ => true | _ => false end.

(** The environment only lets time pass: no other goroutine touches the
    map. *)
Definition quiet (E : Env) : Prop :=
  forall n, forallb isTick (interference E n) = true.

(** Invariant I1 with the shape of the heap: the map holds at most one entry
    per key, and every cached value is an allocated [Context]. *)
Definition Inv (w : World) : Prop :=
  NoDup (cache.keys (entries w))
  /\ Forall (fun x => x < length (heap w)) (cache.values (entries w)).

(** A handle that has not run yet: its status cell still holds
    [cacheNotReleased]. *)
Definition notReleased (w : World) (r : releaseEnv) : Prop :=
  nth_error (cells w) (r_status r) = Some cacheNotReleased.

(** Calling a release function again and again. *)
Fixpoint callReleaseFuncTimes (E : Env) (c : Cache) (f : ReleaseFunc)
    (args : list (option types.error * option PanicValue)) (w : World)
  : World :=
  match args with
  | [] => w
  | (err, rec) :: args' =>
      callReleaseFuncTimes E c f args' (snd (callReleaseFunc E c f err rec w))
  end.

(** The storage calls among some events: request and answer. *)
Fixpoint storageLog (t : list event)
  : list (persistence.GetCurrentExecutionRequest
          * (persistence.GetCurrentExecutionResponse + types.error)) :=
  match t with
  | [] => []
  | EvGetCurrentExecution request r :: t' => (request, r) :: storageLog t'
  | _ :: t' => storageLog t'
  end.

(** The log of a resolution through the retry executor: the same request
    again and again, all answers but the last being errors. *)
Definition retryLog (request : persistence.GetCurrentExecutionRequest)
    (es : list types.error)
    (final : persistence.GetCurrentExecutionResponse + types.error)
  : list (persistence.GetCurrentExecutionRequest
          * (persistence.GetCurrentExecutionResponse + types.error)) :=
  map (pair request) (map inr es ++ [final]).

Definition transient (E : Env) (es : list types.error) : Prop :=
  Forall (fun e => IsTransientError E e = true) es.

(** A sample environment to run the model on: run ids in the canonical
    8-4-4-4-12 form, storage that fails twice with a transient error before
    it answers ["r9"], a lock that is granted. *)
Definition isHexDigit (a : Ascii.ascii) : bool :=
  let n := Ascii.nat_of_ascii a in
  (Nat.leb 48 n && Nat.leb n 57) || (Nat.leb 65 n && Nat.leb n 70)
  || (Nat.leb 97 n && Nat.leb n 102).

Fixpoint canonicalFrom (i : nat) (s : string) : bool :=
  match s with
  | EmptyString => Nat.eqb i 36
  | String a s' =>
      (if Nat.eqb i 8 || Nat.eqb i 13 || Nat.eqb i 18 || Nat.eqb i 23
       then Ascii.eqb a "-"%char else isHexDigit a)
      && canonicalFrom (S i) s'
  end.

Definition canonicalUUID (s : string) : bool := canonicalFrom 0 s.

Definition sampleEnv : Env :=
  mkEnv canonicalUUID
    (fun e => match e with types.OtherError 1 => true | _ => false end)
    3
    (fun n _ _ =>
       if Nat.ltb n 2 then inr (types.OtherError 1)
       else inl (persistence.mkGetCurrentExecutionResponse "r9"))
    (fun _ => inl "d1-name")
    (fun _ _ _ => None)
    (fun _ => [Tick 5]).

Definition sampleCache : Cache := NewCache (mkConfig 16 1000%Z 2).

Definition sampleRunID : string := "0f8fad5b-d9cb-469f-a165-70867728950e".

(** The messages of the two [BadRequestError]s of validation. *)
Definition workflowIDNotSet : string :=
  "Can't load workflow execution.  WorkflowId not set.".

Definition runIDNotUUID : string := "RunID is not valid UUID.".

(** What a failed validation leaves behind: the request counter, the latency
    timer and the failure counter of the scope, and nothing else. *)
Definition failedValidation (s : metrics.scope) (w : World) : World :=
  set_trace
    (trace w
     ++ [EvIncCounter s metrics.CacheRequests;
         EvStartTimer s None metrics.CacheLatency;
         EvIncCounter s metrics.CacheFailures;
         EvStopTimer s None metrics.CacheLatency]) w.

(** The sleeps of the canary branch of a release, as trace events. *)
Definition canarySleeps (domainName : string) (callerScope : metrics.scope)
  : list event :=
  if String.eqb domainName "cadence-canary" then
    match callerScope with
    | metrics.HistoryRespondDecisionTaskCompletedScope =>
        [EvSleep (18 * Millisecond)]
    | metrics.PersistenceUpdateWorkflowExecutionScope =>
        [EvSleep (14 * Millisecond)]
    | metrics.TimerActiveTaskActivityTimeoutScope =>
        [EvSleep (5 * Millisecond)]
    | _ => []
    end
  else [].

(** The [Clear] a first, fault-free release performs, if any. *)
Definition clearIf (b : bool) (x : Context) : list event :=
  if b then [EvClear x] else [].

(** [f] is the handle of an acquisition of [x] under key [k], made with the
    given force-clear mode, and it has not run yet in [w]. *)
Definition acquired (w : World) (f : ReleaseFunc) (x : Context)
    (k : definition.WorkflowIdentifier) (force : bool) : Prop :=
  exists r : releaseEnv,
    f = releaseClosure r /\ r_context r = x /\ r_key r = k
    /\ r_forceClearContext r = force /\ notReleased w r.

(** The key [getOrCreateWorkflowExecutionInternal] and
    [GetAndCreateWorkflowExecution] form from their arguments. *)
Definition keyOf (domainID : string) (execution : types.WorkflowExecution)
  : definition.WorkflowIdentifier :=
  definition.NewWorkflowIdentifier domainID (types.WorkflowID execution)
    (types.RunID execution).

(** A sample acquisition of the current run of workflow ["w1"], on the empty
    world, and its handle. *)
Definition sampleCurrentKey : definition.WorkflowIdentifier :=
  definition.NewWorkflowIdentifier "d1" "w1" "".

Definition sampleHandle : ReleaseFunc :=
  releaseClosure
    (mkReleaseEnv sampleCurrentKey 0 true
       metrics.HistoryCacheGetOrCreateCurrentScope "d1-name" 0 20).

Definition sampleAcquiredWorld : World :=
  snd (GetOrCreateCurrentWorkflowExecution sampleEnv sampleCache Background
         "d1" "w1" emptyWorld).

(** The events of run-id resolution: storage calls and metrics. *)
Definition isResolution (ev : event) : bool :=
  match ev with
  | EvGetCurrentExecution _ _ | EvIncCounter _ _ | EvStartTimer _ _ _
  | EvStopTimer _ _ _ => true
  | _ => false
  end.

(** What validation may do to the world: add resolution events to the
    trace, let the environment act; it leaves the status cells alone, keeps
    the invariant, and changes neither map nor heap when the environment is
    quiet. *)
Definition resolved (E : Env) (w w' : World) : Prop :=
  (exists t, trace w' = trace w ++ t /\ forallb isResolution t = true)
  /\ cells w' = cells w
  /\ lockCalls w' = lockCalls w
  /\ (Inv w -> Inv w')
  /\ length (heap w) <= length (heap w')
  /\ (quiet E -> entries w' = entries w /\ heap w' = heap w).

(** An environment in which every attempt to lock fails with error 7 (the
    caller's scope is cancelled first), and a world in which the key of
    run [sampleRunID] of workflow ["w1"] is cached. *)
Definition cancelledEnv : Env :=
  mkEnv canonicalUUID (IsTransientError sampleEnv) 3
    (GetCurrentExecution sampleEnv) (GetDomainName sampleEnv)
    (fun _ _ _ => Some (types.OtherError 7))
    (fun _ => [Tick 5]).

Definition sampleExecution : types.WorkflowExecution :=
  types.mkWorkflowExecution "w1" sampleRunID.

Definition sampleKey : definition.WorkflowIdentifier :=
  definition.NewWorkflowIdentifier "d1" "w1" sampleRunID.

Definition sampleCachedWorld : World :=
  snd (GetOrCreateWorkflowExecution sampleEnv sampleCache Background "d1"
         sampleExecution metrics.HistoryCacheGetOrCreateScope emptyWorld).

(** Calls a client of the cache can make, and a sequence of them run from a
    world. *)
Inductive call : Type :=
| CallGetOrCreateCurrent (ctx : GoContext) (domainID workflowID : string)
| CallGetOrCreate (ctx : GoContext) (domainID : string)
    (execution : types.WorkflowExecution) (callerScope : metrics.scope)
| CallGetAndCreate (ctx : GoContext) (domainID : string)
    (execution : types.WorkflowExecution)
| CallRelease (f : ReleaseFunc) (err : option types.error)
    (rec : option PanicValue).

Definition runCall (E : Env) (c : Cache) (w : World) (cl : call) : World :=
  match cl with
  | CallGetOrCreateCurrent ctx domainID workflowID =>
      snd (GetOrCreateCurrentWorkflowExecution E c ctx domainID workflowID w)
  | CallGetOrCreate ctx domainID execution callerScope =>
      snd (GetOrCreateWorkflowExecution E c ctx domainID execution
             callerScope w)
  | CallGetAndCreate ctx domainID execution =>
      snd (GetAndCreateWorkflowExecution E c ctx domainID execution w)
  | CallRelease f err rec => snd (callReleaseFunc E c f err rec w)
  end.

Definition runCalls (E : Env) (c : Cache) (cls : list call) (w : World)
  : World :=
  fold_left (runCall E c) cls w.

(** An environment with a racer: between the facade's [Get] and its
    [PutIfNotExist] (the second scheduling point) another goroutine inserts
    its own [Context] under [sampleKey]. *)
Definition racerEnv : Env :=
  mkEnv canonicalUUID (IsTransientError sampleEnv) 3
    (GetCurrentExecution sampleEnv) (GetDomainName sampleEnv)
    (fun _ _ _ => None)
    (fun n => if Nat.eqb n 1 then [RacerPut sampleKey] else []).

(** The keys of the map operations among some events. *)
Fixpoint mapKeys (t : list event) : list definition.WorkflowIdentifier :=
  match t with
  | [] => []
  | EvGet k _ :: t' => k :: mapKeys t'
  | EvPutIfNotExist k _ _ :: t' => k :: mapKeys t'
  | EvRelease k :: t' => k :: mapKeys t'
  | _ :: t' => mapKeys t'
  end.

(** The acquisition of [sampleKey] on the empty world while the racer
    runs. *)
Definition racerRun
  : option Context * option ReleaseFunc * option types.error * World :=
  getOrCreateWorkflowExecutionInternal racerEnv sampleCache Background "d1"
    sampleExecution metrics.HistoryCacheGetOrCreateScope false
    (metrics.OtherScope 3) emptyWorld.

(** The closure [op] of [getCurrentExecutionWithRetry], which assigns its
    captured [response]. *)
Definition storageOp (E : Env) (c : Cache) (ctx : GoContext)
    (request : persistence.GetCurrentExecutionRequest)
    (_ : option persistence.GetCurrentExecutionResponse)
  : M (option persistence.GetCurrentExecutionResponse
       * option types.error) :=
  bind (executionManagerGetCurrentExecution E c ctx request)
    (fun r =>
       match r with
       | inl response => ret (Some response, None)
       | inr err => ret (None, Some err)
       end).

(** What a run of the retry executor over the storage call yields: the
    response or the error of the last attempt. *)
Definition outcome
    (final : persistence.GetCurrentExecutionResponse + types.error)
  : option persistence.GetCurrentExecutionResponse * option types.error :=
  match final with
  | inl response => (Some response, None)
  | inr err => (None, Some err)
  end.

(** Some events concern one execution only: their map operations are on its
    key, the [Context]s they construct are for it, and they contain no
    storage call. *)
Definition actsOn (domainID : string) (execution : types.WorkflowExecution)
    (t : list event) : Prop :=
  Forall (eq (keyOf domainID execution)) (mapKeys t)
  /\ storageLog t = []
  /\ forall y d e, In (EvNewContext y d e) t -> d = domainID /\ e = execution.

(** The execution after validation: the workflow id it had, with the run id
    of the response when one was fetched. *)
Definition resolvedExecution (execution : types.WorkflowExecution)
    (final : persistence.GetCurrentExecutionResponse + types.error)
  : types.WorkflowExecution * option types.error :=
  match final with
  | inl response =>
      (types.mkWorkflowExecution (types.WorkflowID execution)
         (persistence.RunID response), None)
  | inr err => (execution, Some err)
  end.

(** What a call with an empty run id does when its workflow id is set: it
    first resolves the current run ([pre]: the request of the call, sent
    through the retry executor, only transient errors being retried), and
    then either fails with the error of the last attempt, having touched
    neither map nor [Context], or proceeds ([rest]) on the execution that
    carries the run id of the response. *)
Definition resolvesThenActs (E : Env) (c : Cache) (domainID : string)
    (execution : types.WorkflowExecution) (events : list event)
    (err : option types.error) : Prop :=
  exists es final pre rest,
    events = pre ++ rest
    /\ forallb isResolution pre = true
    /\ storageLog pre
       = retryLog
           (persistence.mkGetCurrentExecutionRequest domainID
              (types.WorkflowID execution)) es final
    /\ transient E es
    /\ length es <= MaxRetries E
    /\ match final with
       | inr e => err = Some e /\ filter isMapOrNew events = []
       | inl response =>
           actsOn domainID
             (types.mkWorkflowExecution (types.WorkflowID execution)
                (persistence.RunID response)) rest
           /\ (disabled c = false -> mapKeys rest <> [])
       end.

(** A sample call with an empty run id, resolved to ["r9"] at the third
    attempt. *)
Definition sampleResolvedWorld : World :=
  snd (GetOrCreateWorkflowExecution sampleEnv sampleCache Background "d1"
         (types.mkWorkflowExecution "w1" "") (metrics.OtherScope 1)
         emptyWorld).

(** Sample maps: two keys, options with room for two entries and a TTL of
    100. *)
Definition keyA : definition.WorkflowIdentifier :=
  definition.NewWorkflowIdentifier "d1" "wA" "rA".
Definition keyB : definition.WorkflowIdentifier :=
  definition.NewWorkflowIdentifier "d1" "wB" "rB".
Definition keyC : definition.WorkflowIdentifier :=
  definition.NewWorkflowIdentifier "d1" "wC" "rC".
Definition twoEntries : cache.Options := cache.mkOptions 2 100 true 2.

(** The world after the sample acquisition of [sampleKey] has been released
    without error. *)
Definition sampleReleasedWorld : World :=
  snd (callReleaseFunc sampleEnv sampleCache
         (releaseClosure
            (mkReleaseEnv sampleKey 0 false
               metrics.HistoryCacheGetOrCreateScope "d1-name" 0 20))
         None None sampleCachedWorld).

(** ** Vocabulary for the paths of a call *)

(** Equality of metric scopes and names, to count metric events. *)
Definition scope_eq_dec (a b : metrics.scope) : {a = b} + {a <> b}.
Proof. decide equality; apply Nat.eq_dec. Defined.

Definition metric_eq_dec (a b : metrics.metric) : {a = b} + {a <> b}.
Proof. decide equality. Defined.

Definition isCounter (s : metrics.scope) (m : metrics.metric) (ev : event)
  : bool :=
  match ev with
  | EvIncCounter s' m' =>
      (if scope_eq_dec s s' then true else false)
      && (if metric_eq_dec m m' then true else false)
  | _ => false
  end.

(** How many times a counter was incremented. *)
Definition countCounter (s : metrics.scope) (m : metrics.metric)
    (t : list event) : nat :=
  length (filter (isCounter s m) t).

Definition isLock (ev : event) : bool :=
  match ev with EvLock _ _ => true | _ => false end.

Definition isNewContext (ev : event) : bool :=
  match ev with EvNewContext _ _ _ => true | _ => false end.

(** The label [getOrCreateWorkflowExecutionInternal] derives from the
    domain cache: the domain name, or the empty string when the lookup
    fails. *)
Definition domainLabel (E : Env) (domainID : string) : string :=
  match GetDomainName E domainID with inl n => n | inr _ => "" end.

(** The variables a handle captured. *)
Definition captures (r : releaseEnv) (k : definition.WorkflowIdentifier)
    (x : Context) (force : bool) (callerScope : metrics.scope)
    (domainName : string) : Prop :=
  r_key r = k /\ r_context r = x /\ r_forceClearContext r = force
  /\ r_callerScope r = callerScope /\ r_domainName r = domainName.

(** The events around a [Lock] in the internal acquisition: the domain
    lookup, the lock-wait timer, the lock, and what follows its outcome. *)
Definition lockEvents (E : Env) (domainID : string)
    (k : definition.WorkflowIdentifier) (scope callerScope : metrics.scope)
    (x : Context) (r : option types.error) : list event :=
  [EvGetDomainName domainID (GetDomainName E domainID);
   EvStartTimer callerScope (Some (domainLabel E domainID))
     metrics.LockWaitLatency;
   EvLock x r]
  ++ match r with
     | Some _ =>
         [EvRelease k;
          EvIncCounter scope metrics.CacheFailures;
          EvIncCounter scope metrics.AcquireLockFailedCounter]
     | None => []
     end
  ++ [EvStopTimer callerScope (Some (domainLabel E domainID))
        metrics.LockWaitLatency].

(** The six ways through [getOrCreateWorkflowExecutionInternal], each with
    the events it adds and the result it returns: bypass; hit, then lock or
    lock failure; miss and insertion, then lock or lock failure; miss and
    a map that refuses the insertion. *)
Inductive internalRun (E : Env) (c : Cache) (domainID : string)
    (execution : types.WorkflowExecution) (scope : metrics.scope)
    (force : bool) (callerScope : metrics.scope)
  : list event ->
    option Context * option ReleaseFunc * option types.error -> Prop :=
| RunBypass (y : Context) :
    disabled c = true ->
    internalRun E c domainID execution scope force callerScope
      [EvNewContext y domainID execution]
      (Some y, Some NoopReleaseFn, None)
| RunHit (x : Context) (r : releaseEnv) :
    disabled c = false ->
    captures r (keyOf domainID execution) x force callerScope
      (domainLabel E domainID) ->
    internalRun E c domainID execution scope force callerScope
      (EvGet (keyOf domainID execution) (Some x)
       :: lockEvents E domainID (keyOf domainID execution) scope callerScope
            x None)
      (Some x, Some (releaseClosure r), None)
| RunHitLockFailed (x : Context) (err : types.error) :
    disabled c = false ->
    internalRun E c domainID execution scope force callerScope
      (EvGet (keyOf domainID execution) (Some x)
       :: lockEvents E domainID (keyOf domainID execution) scope callerScope
            x (Some err))
      (None, None, Some err)
| RunMiss (y x : Context) (r : releaseEnv) :
    disabled c = false ->
    captures r (keyOf domainID execution) x force callerScope
      (domainLabel E domainID) ->
    internalRun E c domainID execution scope force callerScope
      (EvGet (keyOf domainID execution) None
       :: EvIncCounter scope metrics.CacheMissCounter
       :: EvNewContext y domainID execution
       :: EvPutIfNotExist (keyOf domainID execution) y (inl x)
       :: lockEvents E domainID (keyOf domainID execution) scope callerScope
            x None)
      (Some x, Some (releaseClosure r), None)
| RunMissLockFailed (y x : Context) (err : types.error) :
    disabled c = false ->
    internalRun E c domainID execution scope force callerScope
      (EvGet (keyOf domainID execution) None
       :: EvIncCounter scope metrics.CacheMissCounter
       :: EvNewContext y domainID execution
       :: EvPutIfNotExist (keyOf domainID execution) y (inl x)
       :: lockEvents E domainID (keyOf domainID execution) scope callerScope
            x (Some err))
      (None, None, Some err)
| RunRefused (y : Context) (err : types.error) :
    disabled c = false ->
    internalRun E c domainID execution scope force callerScope
      [EvGet (keyOf domainID execution) None;
       EvIncCounter scope metrics.CacheMissCounter;
       EvNewContext y domainID execution;
       EvPutIfNotExist (keyOf domainID execution) y (inr err);
       EvIncCounter scope metrics.CacheFailures]
      (None, None, Some err).

(** A result of the three-valued entry points: a [Context] with its
    release function, or an error alone. *)
Definition wellFormed
    (res : option Context * option ReleaseFunc * option types.error)
  : Prop :=
  (exists x f, res = (Some x, Some f, None))
  \/ (exists e, res = (None, None, Some e)).

(** The events of [getCurrentExecutionWithRetry]: request counter, latency
    timer, the storage calls, the failure counter when the last call
    failed. *)
Definition currentExecutionEvents
    (request : persistence.GetCurrentExecutionRequest)
    (es : list types.error)
    (final : persistence.GetCurrentExecutionResponse + types.error)
  : list event :=
  [EvIncCounter metrics.HistoryCacheGetCurrentExecutionScope
     metrics.CacheRequests;
   EvStartTimer metrics.HistoryCacheGetCurrentExecutionScope None
     metrics.CacheLatency]
  ++ map (EvGetCurrentExecution request) (map inr es ++ [final])
  ++ match final with
     | inr _ =>
         [EvIncCounter metrics.HistoryCacheGetCurrentExecutionScope
            metrics.CacheFailures]
     | inl _ => []
     end
  ++ [EvStopTimer metrics.HistoryCacheGetCurrentExecutionScope None
        metrics.CacheLatency].

(** Events that belong to the resolution of the current run: storage calls
    and the metrics of its own scope. *)
Definition isCurrentExecutionEvent (ev : event) : bool :=
  match ev with
  | EvGetCurrentExecution _ _ => true
  | EvIncCounter metrics.HistoryCacheGetCurrentExecutionScope _ => true
  | EvStartTimer metrics.HistoryCacheGetCurrentExecutionScope None _ => true
  | EvStopTimer metrics.HistoryCacheGetCurrentExecutionScope None _ => true
  | _ => false
  end.

(** The request counter and latency timer that open a call of an entry
    point, and the stop that closes it. *)
Definition opening (s : metrics.scope) : list event :=
  [EvIncCounter s metrics.CacheRequests;
   EvStartTimer s None metrics.CacheLatency].

Definition closing (s : metrics.scope) : list event :=
  [EvStopTimer s None metrics.CacheLatency].

(** The five ways through [validateWorkflowExecutionInfo], each with the
    events it adds and what it returns: the execution as the caller sees it
    afterwards, and the error. *)
Inductive validationRun (E : Env) (domainID : string)
    (execution : types.WorkflowExecution)
  : list event -> types.WorkflowExecution * option types.error -> Prop :=
| ValidNoWorkflowID :
    types.WorkflowID execution = "" ->
    validationRun E domainID execution []
      (execution, Some (types.BadRequestError workflowIDNotSet))
| ValidResolved (es : list types.error)
    (response : persistence.GetCurrentExecutionResponse) :
    types.WorkflowID execution <> "" ->
    types.RunID execution = "" ->
    transient E es -> length es <= MaxRetries E ->
    validationRun E domainID execution
      (currentExecutionEvents
         (persistence.mkGetCurrentExecutionRequest domainID
            (types.WorkflowID execution)) es (inl response))
      (types.mkWorkflowExecution (types.WorkflowID execution)
         (persistence.RunID response), None)
| ValidUnresolved (es : list types.error) (e : types.error) :
    types.WorkflowID execution <> "" ->
    types.RunID execution = "" ->
    transient E es -> length es <= MaxRetries E ->
    validationRun E domainID execution
      (currentExecutionEvents
         (persistence.mkGetCurrentExecutionRequest domainID
            (types.WorkflowID execution)) es (inr e))
      (execution, Some e)
| ValidBadRunID :
    types.WorkflowID execution <> "" ->
    types.RunID execution <> "" ->
    uuid_Parse E (types.RunID execution) = false ->
    validationRun E domainID execution []
      (execution, Some (types.BadRequestError runIDNotUUID))
| ValidGiven :
    types.WorkflowID execution <> "" ->
    types.RunID execution <> "" ->
    uuid_Parse E (types.RunID execution) = true ->
    validationRun E domainID execution [] (execution, None).

(** The three ways through [GetAndCreateWorkflowExecution] once validation
    has passed (events up to the final stop of the latency timer). *)
Inductive getAndCreateRun (domainID : string)
    (execution : types.WorkflowExecution)
  : list event ->
    option Context * option Context * option ReleaseFunc * bool
    * option types.error -> Prop :=
| GetAndCreateHit (x y : Context) (r : releaseEnv) :
    captures r (keyOf domainID execution) x false
      metrics.HistoryCacheGetAndCreateScope "" ->
    getAndCreateRun domainID execution
      [EvGet (keyOf domainID execution) (Some x);
       EvLock x None;
       EvNewContext y domainID execution]
      (Some x, Some y, Some (releaseClosure r), true, None)
| GetAndCreateLockFailed (x : Context) (err : types.error) :
    getAndCreateRun domainID execution
      [EvGet (keyOf domainID execution) (Some x);
       EvLock x (Some err);
       EvRelease (keyOf domainID execution);
       EvIncCounter metrics.HistoryCacheGetAndCreateScope
         metrics.CacheFailures;
       EvIncCounter metrics.HistoryCacheGetAndCreateScope
         metrics.AcquireLockFailedCounter]
      (None, None, None, false, Some err)
| GetAndCreateMiss (y : Context) :
    getAndCreateRun domainID execution
      [EvGet (keyOf domainID execution) None;
       EvIncCounter metrics.HistoryCacheGetAndCreateScope
         metrics.CacheMissCounter;
       EvNewContext y domainID execution]
      (None, Some y, Some NoopReleaseFn, false, None).

(** ** Vocabulary for lock discipline *)

(** The [Context] [x] was obtained from the map under key [k]: found by
    [Get], or returned by [PutIfNotExist]. *)
Definition obtained (t : list event) (k : definition.WorkflowIdentifier)
    (x : Context) : Prop :=
  In (EvGet k (Some x)) t
  \/ exists y, In (EvPutIfNotExist k y (inl x)) t.

(** A call that locks at most once, never unlocks or clears, and gives a
    pin back only for a [Context] it obtained under that key and whose
    [Lock] failed with the error it returns. *)
Definition disciplined (t : list event) (err : option types.error) : Prop :=
  length (filter isLock t) <= 1
  /\ match err with
     | None => protocol t = []
     | Some e =>
         protocol t = []
         \/ exists x k,
              protocol t = [EvRelease k]
              /\ In (EvLock x (Some e)) t
              /\ obtained t k x
     end.

(** The steps [getOrCreateWorkflowExecutionInternal] takes once it holds a
    [Context]: the lookup of the domain name, the lock-wait timer and the
    [Lock]. *)
Definition isLockPhase (ev : event) : bool :=
  match ev with
  | EvGetDomainName _ _ | EvLock _ _ => true
  | EvStartTimer _ (Some _) metrics.LockWaitLatency => true
  | EvStopTimer _ (Some _) metrics.LockWaitLatency => true
  | _ => false
  end.

(** A map filled with pinned entries: the current runs of workflows ["w1"]
    and ["w2"] acquired and not released, in a cache with room for two; and
    the world after a refused acquisition of a third. *)
Definition sampleFullWorld : World :=
  runCalls sampleEnv sampleCache
    [CallGetOrCreateCurrent Background "d1" "w1";
     CallGetOrCreateCurrent Background "d1" "w2"] emptyWorld.

Definition sampleRefusedWorld : World :=
  snd (GetOrCreateCurrentWorkflowExecution sampleEnv sampleCache Background
         "d1" "w3" sampleFullWorld).

(** The world after a second acquisition of [sampleKey], a hit. *)
Definition sampleHitWorld : World :=
  snd (GetOrCreateWorkflowExecution sampleEnv sampleCache Background "d1"
         sampleExecution (metrics.OtherScope 1) sampleCachedWorld).

(** The sample cache with the test hook set, and a call through it. *)
Definition disabledCache : Cache := mkCache (opts sampleCache) true.

Definition sampleBypassWorld : World :=
  snd (GetOrCreateWorkflowExecution sampleEnv disabledCache Background "d1"
         sampleExecution (metrics.OtherScope 1) emptyWorld).

(** ** Vocabulary for release handles *)

Definition isSleep (ev : event) : bool :=
  match ev with EvSleep _ => true | _ => false end.

(** The time spent in [time.Sleep] among some events. *)
Fixpoint sleepTime (t : list event) : Z :=
  match t with
  | [] => 0%Z
  | EvSleep d :: t' => (d + sleepTime t')%Z
  | _ :: t' => sleepTime t'
  end.

Definition canaryDomain : string := "cadence-canary".

(** A handle made for the canary domain by a caller that completes
    decision tasks, and a world in which it has not run. *)
Definition canaryHandle : releaseEnv :=
  mkReleaseEnv sampleKey 0 false
    metrics.HistoryRespondDecisionTaskCompletedScope canaryDomain 0 20.

Definition canaryReleasedWorld : World :=
  snd (callReleaseFunc sampleEnv sampleCache (releaseClosure canaryHandle)
         None None sampleCachedWorld).

(** The handle of the acquisition that made [sampleCachedWorld], and the one
    of the hit that made [sampleHitWorld]. *)
Definition sampleFirstHandle : releaseEnv :=
  mkReleaseEnv sampleKey 0 false metrics.HistoryCacheGetOrCreateScope
    "d1-name" 0 20.

Definition sampleSecondHandle : releaseEnv :=
  mkReleaseEnv sampleKey 0 false (metrics.OtherScope 1) "d1-name" 1 35.

(** What a call does to the status cells of the handles: a call that
    returns a closure gave it a fresh cell, holding [cacheNotReleased];
    any other call left the cells as they were. *)
Definition extends (w w' : World) (f : option ReleaseFunc) : Prop :=
  match f with
  | Some (releaseClosure r) =>
      r_status r = length (cells w)
      /\ cells w' = cells w ++ [cacheNotReleased]
  | _ => cells w' = cells w
  end.

(** An execution whose run id is still to be resolved. *)
Definition unresolved (execution : types.WorkflowExecution) : Prop :=
  types.WorkflowID execution <> "" /\ types.RunID execution = "".

(** The metric events of [getCurrentExecutionWithRetry] are of this
    scope. *)
Definition currentExecutionScope : metrics.scope :=
  metrics.HistoryCacheGetCurrentExecutionScope.

(** ** Vocabulary for the accuracy of the metrics *)

Definition isGetMiss (ev : event) : bool :=
  match ev with EvGet _ None => true | _ => false end.

Definition isLockFailure (ev : event) : bool :=
  match ev with EvLock _ (Some _) => true | _ => false end.

(** The counters of scope [s] agree with what happened: one miss counted
    for each [Get] that found nothing, one lock failure for each [Lock]
    that failed; and at most one [Context] was constructed. *)
Definition accurate (s : metrics.scope) (t : list event) : Prop :=
  countCounter s metrics.CacheMissCounter t = length (filter isGetMiss t)
  /\ countCounter s metrics.AcquireLockFailedCounter t
     = length (filter isLockFailure t)
  /\ length (filter isNewContext t) <= 1.

(** * Properties *)

(** ** Keys, traces and the environment *)

Lemma definition_eqb_eq (a b : definition.WorkflowIdentifier) :
  definition.eqb a b = true <-> a = b.
Proof.
  destruct a as [d1 w1 r1], b as [d2 w2 r2]; unfold definition.eqb; cbn.
  rewrite !andb_true_iff, !String.eqb_eq.
  split.
  - intros [[-> ->] ->]; reflexivity.
  - intros H; injection H as -> -> ->; auto.
Qed.

Lemma definition_eqb_refl (a : definition.WorkflowIdentifier) :
  definition.eqb a a = true.
Proof. apply definition_eqb_eq; reflexivity. Qed.

Lemma definition_eqb_neq (a b : definition.WorkflowIdentifier) :
  definition.eqb a b = false <-> a <> b.
Proof.
  rewrite <- definition_eqb_eq.
  destruct (definition.eqb a b); split; congruence.
Qed.

Lemma newEvents_app (w w' : World) (t : list event) :
  trace w' = trace w ++ t -> newEvents w w' = t.
Proof.
  unfold newEvents; intros ->.
  rewrite skipn_app, skipn_all, Nat.sub_diag; reflexivity.
Qed.

Section EnvFacts.

Variable E : Env.
Variable c : Cache.

(** A property of worlds that no action of the environment breaks is
    kept across a scheduling point. *)
Lemma envStep_ind (P : World -> Prop) :
  (forall w n, P w -> P (set_yields n w)) ->
  (forall w op, P w -> P (runEnvOp (opts c) w op)) ->
  forall w, P w -> P (envStep E c w).
Proof.
  intros Hy Hop w Hw; unfold envStep.
  generalize (set_yields (S (yields w)) w) (Hy w (S (yields w)) Hw).
  induction (interference E (yields w)) as [|op ops IH]; cbn; auto.
Qed.

Lemma envStep_trace (w : World) : trace (envStep E c w) = trace w.
Proof.
  apply (envStep_ind (fun w' => trace w' = trace w)); auto.
  intros w' [] H; exact H.
Qed.

Lemma envStep_cells (w : World) : cells (envStep E c w) = cells w.
Proof.
  apply (envStep_ind (fun w' => cells w' = cells w)); auto.
  intros w' [] H; exact H.
Qed.

Lemma envStep_lockCalls (w : World) :
  lockCalls (envStep E c w) = lockCalls w.
Proof.
  apply (envStep_ind (fun w' => lockCalls w' = lockCalls w)); auto.
  intros w' [] H; exact H.
Qed.

Lemma envStep_storageCalls (w : World) :
  storageCalls (envStep E c w) = storageCalls w.
Proof.
  apply (envStep_ind (fun w' => storageCalls w' = storageCalls w)); auto.
  intros w' [] H; exact H.
Qed.

Lemma envStep_heap_le (w : World) :
  length (heap w) <= length (heap (envStep E c w)).
Proof.
  apply (envStep_ind (fun w' => length (heap w) <= length (heap w')));
    auto.
  intros w' [] H; cbn; try exact H.
  rewrite length_app; cbn; lia.
Qed.

(** When the environment is quiet, only the clock and the count of
    scheduling points move. *)
Lemma envStep_quiet (w : World) :
  quiet E ->
  entries (envStep E c w) = entries w /\ heap (envStep E c w) = heap w.
Proof.
  intros Hq; unfold envStep.
  specialize (Hq (yields w)).
  generalize (set_yields (S (yields w)) w)
    (conj (eq_refl (entries w)) (eq_refl (heap w))
     : entries (set_yields (S (yields w)) w) = entries w
       /\ heap (set_yields (S (yields w)) w) = heap w).
  induction (interference E (yields w)) as [|op ops IH]; cbn; auto.
  cbn in Hq; apply andb_true_iff in Hq as [Hop Hops].
  intros w0 H0; apply IH; auto.
  destruct op; try discriminate; exact H0.
Qed.

End EnvFacts.

(** ** C7: validation failures *)

Lemma validate_BadRequest (E : Env) (c : Cache) (ctx : GoContext)
    (domainID : string) (execution : types.WorkflowExecution) (w : World) :
  types.WorkflowID execution = ""
  \/ (types.RunID execution <> ""
      /\ uuid_Parse E (types.RunID execution) = false) ->
  validateWorkflowExecutionInfo E c ctx domainID execution w
  = (execution,
     Some (types.BadRequestError
             (if String.eqb (types.WorkflowID execution) ""
              then workflowIDNotSet else runIDNotUUID)), w).
Proof.
  intros H; unfold validateWorkflowExecutionInfo.
  destruct (String.eqb (types.WorkflowID execution) "") eqn:Hw;
    [reflexivity|].
  destruct H as [H|[Hr Hu]].
  - apply String.eqb_eq in H; congruence.
  - apply String.eqb_neq in Hr; rewrite Hr, Hu; reflexivity.
Qed.

(** C7. A call to [GetOrCreateWorkflowExecution] or
    [GetAndCreateWorkflowExecution] with an empty workflow id, or with a run
    id that is not empty and that [uuid.Parse] rejects, fails with a
    [BadRequestError] (the workflow id is tested first; the message for the
    run id is [runIDNotUUID]); no [Context] and no release function are
    returned, no [Context] is constructed and the map is not touched: the
    world changes by three metric calls only. *)
Theorem C7_invalid_input_rejected (E : Env) (c : Cache) (ctx : GoContext)
    (domainID : string) (execution : types.WorkflowExecution)
    (callerScope : metrics.scope) (w : World) :
  types.WorkflowID execution = ""
  \/ (types.RunID execution <> ""
      /\ uuid_Parse E (types.RunID execution) = false) ->
  exists msg : string,
    (types.WorkflowID execution <> "" -> msg = runIDNotUUID)
    /\ GetOrCreateWorkflowExecution E c ctx domainID execution callerScope w
       = (None, None, Some (types.BadRequestError msg),
          failedValidation metrics.HistoryCacheGetOrCreateScope w)
    /\ GetAndCreateWorkflowExecution E c ctx domainID execution w
       = (None, None, None, false, Some (types.BadRequestError msg),
          failedValidation metrics.HistoryCacheGetAndCreateScope w)
    /\ (forall s : metrics.scope,
          entries (failedValidation s w) = entries w
          /\ heap (failedValidation s w) = heap w
          /\ filter isMapOrNew (newEvents w (failedValidation s w)) = []).
Proof.
  intros H.
  pose proof (validate_BadRequest E c ctx domainID execution) as Hv.
  exists (if String.eqb (types.WorkflowID execution) ""
          then workflowIDNotSet else runIDNotUUID).
  split; [|split; [|split]].
  - intros Hne; apply String.eqb_neq in Hne; rewrite Hne; reflexivity.
  - unfold GetOrCreateWorkflowExecution, withTimer, IncCounter, bind, emit.
    rewrite Hv by exact H.
    unfold failedValidation, ret; cbn.
    rewrite <- !app_assoc; reflexivity.
  - unfold GetAndCreateWorkflowExecution, withTimer, IncCounter, bind, emit.
    rewrite Hv by exact H.
    unfold failedValidation, ret; cbn.
    rewrite <- !app_assoc; reflexivity.
  - intros s; repeat split.
    erewrite newEvents_app by reflexivity; reflexivity.
Qed.

Lemma C7_witness :
  ("w1" <> "" /\ canonicalUUID "not-a-uuid" = false)
  /\ exists msg : string,
       GetOrCreateWorkflowExecution sampleEnv sampleCache Background "d1"
         (types.mkWorkflowExecution "w1" "not-a-uuid")
         (metrics.OtherScope 7) emptyWorld
       = (None, None, Some (types.BadRequestError msg),
          failedValidation metrics.HistoryCacheGetOrCreateScope emptyWorld)
       /\ GetAndCreateWorkflowExecution sampleEnv sampleCache Background
            "d1" (types.mkWorkflowExecution "w1" "not-a-uuid") emptyWorld
          = (None, None, None, false, Some (types.BadRequestError msg),
             failedValidation metrics.HistoryCacheGetAndCreateScope
               emptyWorld).
Proof.
  assert (Hu : canonicalUUID "not-a-uuid" = false) by reflexivity.
  assert (Hr : "not-a-uuid" <> "") by discriminate.
  split; [split; [discriminate|exact Hu]|].
  destruct (C7_invalid_input_rejected sampleEnv sampleCache Background "d1"
              (types.mkWorkflowExecution "w1" "not-a-uuid")
              (metrics.OtherScope 7) emptyWorld
              (or_intror (conj Hr Hu)))
    as (msg & _ & H1 & H2 & _).
  exists msg; split; [exact H1|exact H2].
Defined.

(** ** Release handles *)

Lemma store_nth_error (a : nat) (v x : Z) (s : list Z) :
  nth_error s a = Some x -> nth_error (store a v s) a = Some v.
Proof.
  revert a; induction s as [|y s IH]; intros [|a]; cbn;
    try discriminate; auto.
Qed.

Lemma protocol_app (t1 t2 : list event) :
  protocol (t1 ++ t2) = protocol t1 ++ protocol t2.
Proof. apply filter_app. Qed.

Lemma protocol_canarySleeps (d : string) (s : metrics.scope) :
  protocol (canarySleeps d s) = [].
Proof.
  unfold canarySleeps; destruct (String.eqb d "cadence-canary");
    [destruct s|]; reflexivity.
Qed.

Lemma In_clearIf (b : bool) (x : Context) :
  In (EvClear x) (clearIf b x) <-> b = true.
Proof. destruct b; cbn; intuition congruence. Qed.

Lemma In_canarySleeps (d : string) (s : metrics.scope) (x : Context) :
  ~ In (EvClear x) (canarySleeps d s).
Proof.
  unfold canarySleeps; destruct (String.eqb d "cadence-canary");
    [destruct s|]; cbn; intuition discriminate.
Qed.

Lemma protocol_clearIf (b : bool) (x : Context) :
  protocol (clearIf b x) = clearIf b x.
Proof. destruct b; reflexivity. Qed.

Ltac run_release :=
  unfold bind, when, ret, emit, contextClear, contextUnlock, timeSince,
    timeNow, cacheRelease, yield, canaryDelay, timeSleep.

Ltac trace_norm :=
  cbn; rewrite ?envStep_trace; cbn; rewrite ?envStep_trace; cbn;
  rewrite <- ?app_assoc; cbn [app].

(** The first call of a handle when [recover()] returns nil. *)
Lemma callReleaseFunc_first (E : Env) (c : Cache) (r : releaseEnv)
    (err : option types.error) (w w' : World) (p : option PanicValue) :
  notReleased w r ->
  callReleaseFunc E c (releaseClosure r) err None w = (p, w') ->
  p = None
  /\ exists held : Z,
       trace w'
       = trace w
         ++ clearIf (isSome err || r_forceClearContext r) (r_context r)
         ++ canarySleeps (r_domainName r) (r_callerScope r)
         ++ [EvUnlock (r_context r);
             EvRecordTimer (r_callerScope r) (Some (r_domainName r))
               metrics.LockHoldLatency held;
             EvRelease (r_key r)].
Proof.
  intros H; unfold notReleased in H.
  unfold callReleaseFunc, CompareAndSwapInt32, bind at 1.
  rewrite H; cbn [cacheNotReleased Z.eqb].
  unfold clearIf, canarySleeps; run_release.
  destruct (isSome err || r_forceClearContext r);
    destruct (String.eqb (r_domainName r) "cadence-canary");
    [destruct (r_callerScope r)| |destruct (r_callerScope r)|];
    cbn; intros Heq; injection Heq as <- <-;
    (split; [reflexivity|]); eexists; trace_norm; reflexivity.
Qed.

(** The first call of a handle when [recover()] returns a value. *)
Lemma callReleaseFunc_panic (E : Env) (c : Cache) (r : releaseEnv)
    (err : option types.error) (v : PanicValue) (w w' : World)
    (p : option PanicValue) :
  notReleased w r ->
  callReleaseFunc E c (releaseClosure r) err (Some v) w = (p, w') ->
  p = Some v
  /\ exists held : Z,
       trace w'
       = trace w
         ++ [EvClear (r_context r);
             EvUnlock (r_context r);
             EvRecordTimer (r_callerScope r) (Some (r_domainName r))
               metrics.LockHoldLatency held;
             EvRelease (r_key r)].
Proof.
  intros H; unfold notReleased in H.
  unfold callReleaseFunc, CompareAndSwapInt32, bind at 1.
  rewrite H; cbn [cacheNotReleased Z.eqb].
  run_release; cbn; intros Heq; injection Heq as <- <-.
  split; [reflexivity|].
  eexists; trace_norm; reflexivity.
Qed.

(** The status cells after a call: the handle's own cell is set when the
    swap succeeds, and nothing else changes. *)
Lemma callReleaseFunc_cells (E : Env) (c : Cache) (r : releaseEnv)
    (err : option types.error) (rec : option PanicValue) (w : World) :
  cells (snd (callReleaseFunc E c (releaseClosure r) err rec w))
  = match nth_error (cells w) (r_status r) with
    | Some v =>
        if (v =? cacheNotReleased)%Z
        then store (r_status r) cacheReleased (cells w) else cells w
    | None => cells w
    end.
Proof.
  unfold callReleaseFunc, CompareAndSwapInt32, bind at 1.
  destruct (nth_error (cells w) (r_status r)) as [v|]; [|reflexivity].
  destruct (v =? cacheNotReleased)%Z; [|reflexivity].
  run_release.
  destruct rec; [cbn; rewrite ?envStep_cells; cbn; rewrite ?envStep_cells;
                 reflexivity|].
  destruct (isSome err || r_forceClearContext r);
    destruct (String.eqb (r_domainName r) "cadence-canary");
    [destruct (r_callerScope r)| |destruct (r_callerScope r)|];
    cbn; rewrite ?envStep_cells; cbn; rewrite ?envStep_cells; reflexivity.
Qed.

(** Once a handle has been called, calling it again does nothing. *)
Lemma callReleaseFunc_again (E : Env) (c : Cache) (f : ReleaseFunc)
    (err err' : option types.error) (rec rec' : option PanicValue)
    (w : World) :
  callReleaseFunc E c f err' rec' (snd (callReleaseFunc E c f err rec w))
  = (rec', snd (callReleaseFunc E c f err rec w)).
Proof.
  destruct f as [|r]; [reflexivity|].
  pose proof (callReleaseFunc_cells E c r err rec w) as Hc.
  set (w1 := snd (callReleaseFunc E c (releaseClosure r) err rec w)) in *.
  unfold callReleaseFunc at 1, CompareAndSwapInt32, bind.
  rewrite Hc.
  destruct (nth_error (cells w) (r_status r)) as [v|] eqn:Hn.
  - destruct (v =? cacheNotReleased)%Z eqn:Hv.
    + rewrite (store_nth_error _ _ _ _ Hn); reflexivity.
    + rewrite Hn, Hv; reflexivity.
  - rewrite Hn; reflexivity.
Qed.

(** ** Acquisitions and their handles *)

Ltac run_facade :=
  cbv beta iota zeta delta
    [getOrCreateWorkflowExecutionInternal GetOrCreateCurrentWorkflowExecution
     GetOrCreateWorkflowExecution GetAndCreateWorkflowExecution
     bind ret cacheGet cachePutIfNotExist NewContext IncCounter emit
     withTimer contextLock cacheRelease makeReleaseFunc newCell timeNow
     shardGetDomainName yield].

Lemma nth_error_snoc {A : Type} (l : list A) (a : A) :
  nth_error (l ++ [a]) (length l) = Some a.
Proof. rewrite nth_error_app2, Nat.sub_diag by lia; reflexivity. Qed.

Lemma makeReleaseFunc_acquired (E : Env) (c : Cache)
    (k : definition.WorkflowIdentifier) (x : Context) (force : bool)
    (callerScope : metrics.scope) (domainName : string)
    (w w' : World) (f : ReleaseFunc) :
  makeReleaseFunc E c k x force callerScope domainName w = (f, w') ->
  acquired w' f x k force.
Proof.
  run_facade; intros Heq; injection Heq as <- <-.
  eexists; repeat split.
  unfold notReleased; cbn; rewrite envStep_cells; cbn.
  apply nth_error_snoc.
Qed.

Lemma internal_acquired (E : Env) (c : Cache) (ctx : GoContext)
    (domainID : string) (execution : types.WorkflowExecution)
    (scope callerScope : metrics.scope) (force : bool) (w w' : World)
    (x : Context) (f : ReleaseFunc) :
  disabled c = false ->
  getOrCreateWorkflowExecutionInternal E c ctx domainID execution scope force
    callerScope w = (Some x, Some f, None, w') ->
  acquired w' f x (keyOf domainID execution) force.
Proof.
  intros Hd; run_facade; rewrite Hd.
  destruct (cache.Get _ _ _ _) as [l1 [x1|]].
  - destruct (Lock E _ _ _); cbn; intros Heq; inversion Heq; subst;
      clear Heq.
    eexists; repeat split.
    unfold notReleased; cbn; rewrite envStep_cells; cbn.
    apply nth_error_snoc.
  - destruct (cache.PutIfNotExist _ _ _ _ _) as [l2 [x2|e2]];
      [|discriminate].
    destruct (Lock E _ _ _); cbn; intros Heq; inversion Heq; subst;
      clear Heq.
    eexists; repeat split.
    unfold notReleased; cbn; rewrite !envStep_cells; cbn.
    rewrite !envStep_cells; cbn; rewrite !envStep_cells.
    apply nth_error_snoc.
Qed.

(** [GetOrCreateCurrentWorkflowExecution] is the internal acquisition with
    an empty run id in force-clear mode, between two metric calls. *)
Lemma GetOrCreateCurrent_internal (E : Env) (c : Cache) (ctx : GoContext)
    (domainID workflowID : string) (w : World) :
  GetOrCreateCurrentWorkflowExecution E c ctx domainID workflowID w
  = let scope := metrics.HistoryCacheGetOrCreateCurrentScope in
    let (res, w1) :=
      getOrCreateWorkflowExecutionInternal E c ctx domainID
        (types.mkWorkflowExecution workflowID "") scope true scope
        (set_trace
           (trace w
            ++ [EvIncCounter scope metrics.CacheRequests;
                EvStartTimer scope None metrics.CacheLatency]) w) in
    (res,
     set_trace (trace w1 ++ [EvStopTimer scope None metrics.CacheLatency])
       w1).
Proof.
  unfold GetOrCreateCurrentWorkflowExecution, withTimer, IncCounter, bind,
    emit, ret; cbn.
  rewrite <- app_assoc; reflexivity.
Qed.

Lemma GetOrCreate_acquired (E : Env) (c : Cache) (ctx : GoContext)
    (domainID : string) (execution : types.WorkflowExecution)
    (callerScope : metrics.scope) (w w' : World) (x : Context)
    (f : ReleaseFunc) :
  disabled c = false ->
  GetOrCreateWorkflowExecution E c ctx domainID execution callerScope w
  = (Some x, Some f, None, w') ->
  exists k, acquired w' f x k false.
Proof.
  intros Hd.
  cbv beta iota zeta delta
    [GetOrCreateWorkflowExecution bind ret IncCounter emit withTimer].
  destruct (validateWorkflowExecutionInfo _ _ _ _ _ _)
    as [[ex' [e|]] wv]; [discriminate|].
  destruct (getOrCreateWorkflowExecutionInternal _ _ _ _ _ _ _ _ _)
    as [res w1] eqn:Hi.
  intros [= -> <-].
  apply internal_acquired in Hi; [|exact Hd].
  eexists; exact Hi.
Qed.

Lemma GetAndCreate_acquired (E : Env) (c : Cache) (ctx : GoContext)
    (domainID : string) (execution : types.WorkflowExecution)
    (w w' : World) (x : Context) (fresh : option Context)
    (f : ReleaseFunc) (hit : bool) :
  GetAndCreateWorkflowExecution E c ctx domainID execution w
  = (Some x, fresh, Some f, hit, None, w') ->
  exists k, acquired w' f x k false.
Proof.
  run_facade.
  destruct (validateWorkflowExecutionInfo _ _ _ _ _ _)
    as [[ex' [e|]] wv]; [discriminate|].
  destruct (cache.Get _ _ _ _) as [l1 [x1|]]; [|discriminate].
  destruct (Lock _ _ _ _); [discriminate|].
  intros [= <- _ <- _ <-].
  eexists; eexists; repeat split.
  unfold notReleased; cbn; rewrite envStep_cells; cbn.
  apply nth_error_snoc.
Qed.

(** C2. On its first call without a panic in flight, the handle of an
    acquisition calls [Clear] if and only if the caller passed a non-nil
    error or the handle was made in force-clear mode, then [Unlock], then
    the map's [Release] of its key.  The handles of acquisitions are made in
    the mode the internal acquisition is given: force-clear for
    [GetOrCreateCurrentWorkflowExecution], whose handle therefore calls
    [Clear] exactly once, before the pin is released, whatever the error
    argument; not force-clear for [GetOrCreateWorkflowExecution] and
    [GetAndCreateWorkflowExecution]. *)
Theorem C2_release_protocol (E : Env) (c : Cache) :
  (forall ctx domainID execution scope callerScope force w w' x f,
      disabled c = false ->
      getOrCreateWorkflowExecutionInternal E c ctx domainID execution scope
        force callerScope w = (Some x, Some f, None, w') ->
      acquired w' f x (keyOf domainID execution) force)
  /\ (forall ctx domainID workflowID w w' x f,
        disabled c = false ->
        GetOrCreateCurrentWorkflowExecution E c ctx domainID workflowID w
        = (Some x, Some f, None, w') ->
        exists k, acquired w' f x k true)
  /\ (forall ctx domainID execution callerScope w w' x f,
        disabled c = false ->
        GetOrCreateWorkflowExecution E c ctx domainID execution callerScope
          w = (Some x, Some f, None, w') ->
        exists k, acquired w' f x k false)
  /\ (forall ctx domainID execution w w' x fresh f hit,
        GetAndCreateWorkflowExecution E c ctx domainID execution w
        = (Some x, fresh, Some f, hit, None, w') ->
        exists k, acquired w' f x k false)
  /\ (forall w f x k force err p w',
        acquired w f x k force ->
        callReleaseFunc E c f err None w = (p, w') ->
        p = None
        /\ protocol (newEvents w w')
           = clearIf (isSome err || force) x ++ [EvUnlock x; EvRelease k]
        /\ (In (EvClear x) (newEvents w w')
            <-> err <> None \/ force = true)
        /\ (force = true ->
            protocol (newEvents w w')
            = [EvClear x; EvUnlock x; EvRelease k])).
Proof.
  split; [|split; [|split; [|split]]].
  - intros; eapply internal_acquired; eauto.
  - intros ctx domainID workflowID w w' x f Hd.
    rewrite GetOrCreateCurrent_internal; cbv zeta.
    destruct (getOrCreateWorkflowExecutionInternal _ _ _ _ _ _ _ _ _)
      as [res w1] eqn:Hi.
    intros Heq; injection Heq as -> <-.
    apply internal_acquired in Hi; [|exact Hd].
    eexists; exact Hi.
  - intros; eapply GetOrCreate_acquired; eauto.
  - intros; eapply GetAndCreate_acquired; eauto.
  - intros w f x k force err p w' (r & -> & <- & <- & <- & Hn) Hcall.
    destruct (callReleaseFunc_first _ _ _ _ _ _ _ Hn Hcall)
      as [-> [held Ht]].
    apply newEvents_app in Ht.
    assert (Hp : protocol (newEvents w w')
                 = clearIf (isSome err || r_forceClearContext r)
                     (r_context r)
                   ++ [EvUnlock (r_context r); EvRelease (r_key r)]).
    { rewrite Ht, !protocol_app, protocol_clearIf, protocol_canarySleeps.
      reflexivity. }
    split; [reflexivity|split; [exact Hp|split]].
    + rewrite Ht, !in_app_iff, In_clearIf.
      assert (Hb : isSome err || r_forceClearContext r = true
                   <-> err <> None \/ r_forceClearContext r = true).
      { rewrite orb_true_iff; destruct err; cbn; intuition congruence. }
      rewrite <- Hb; split; [|tauto].
      intros [H|[H|H]]; [exact H| |].
      * exfalso; exact (In_canarySleeps _ _ _ H).
      * cbn in H; intuition discriminate.
    + intros Hf; rewrite Hp, Hf, orb_true_r; reflexivity.
Qed.

Lemma C2_witness :
  disabled sampleCache = false
  /\ GetOrCreateCurrentWorkflowExecution sampleEnv sampleCache Background
       "d1" "w1" emptyWorld
     = (Some 0, Some sampleHandle, None, sampleAcquiredWorld)
  /\ exists k,
       protocol
         (newEvents sampleAcquiredWorld
            (snd (callReleaseFunc sampleEnv sampleCache sampleHandle None
                    None sampleAcquiredWorld)))
       = [EvClear 0; EvUnlock 0; EvRelease k].
Proof.
  assert (Hrun : GetOrCreateCurrentWorkflowExecution sampleEnv sampleCache
                   Background "d1" "w1" emptyWorld
                 = (Some 0, Some sampleHandle, None, sampleAcquiredWorld))
    by (vm_compute; reflexivity).
  split; [reflexivity|split; [exact Hrun|]].
  destruct (C2_release_protocol sampleEnv sampleCache)
    as (_ & H2 & _ & _ & H5).
  destruct (H2 Background "d1" "w1" emptyWorld sampleAcquiredWorld 0
              sampleHandle eq_refl Hrun) as [k Hk].
  exists k.
  destruct (callReleaseFunc sampleEnv sampleCache sampleHandle None None
              sampleAcquiredWorld) as [p w'] eqn:Hcall.
  exact (proj2 (proj2 (proj2 (H5 _ _ _ _ _ _ _ _ Hk Hcall))) eq_refl).
Defined.

(** The body of a handle raises no panic of its own when [recover()]
    returns nil. *)
Lemma callReleaseFunc_raises_nothing (E : Env) (c : Cache) (f : ReleaseFunc)
    (err : option types.error) (w : World) :
  fst (callReleaseFunc E c f err None w) = None.
Proof.
  destruct f as [|r]; [reflexivity|].
  unfold callReleaseFunc, CompareAndSwapInt32, bind at 1.
  destruct (nth_error (cells w) (r_status r)) as [v|]; [|reflexivity].
  destruct (v =? cacheNotReleased)%Z; [|reflexivity].
  run_release.
  destruct (isSome err || r_forceClearContext r);
    destruct (String.eqb (r_domainName r) "cadence-canary");
    [destruct (r_callerScope r)| |destruct (r_callerScope r)|];
    reflexivity.
Qed.

(** A call of a handle while a panic is in flight does what the call does
    when none is, and leaves the panic in flight. *)
Lemma invokeReleaseFunc_eq (E : Env) (c : Cache) (f : ReleaseFunc)
    (err : option types.error) (panicking : option PanicValue) (w : World) :
  invokeReleaseFunc E c f err panicking w
  = (panicking, snd (callReleaseFunc E c f err None w)).
Proof.
  unfold invokeReleaseFunc, recover, bind, ret.
  pose proof (callReleaseFunc_raises_nothing E c f err w) as H.
  destruct (callReleaseFunc E c f err None w) as [raised w1].
  cbn [fst snd] in *; rewrite H; reflexivity.
Qed.

(** C4.  The code does not do what the claim says.  [recover()] is called
    by the function the handle itself defers, which runs on the handle's
    own return, so it returns nil whatever panic the locked region raised,
    and the branch that clears, unlocks, releases and panics again is never
    taken.  The handle of the acquisition that made [sampleCachedWorld] is
    not in force-clear mode; called with a nil error while the panic
    ["boom"] of the locked region is in flight, it calls [Unlock], records
    the hold time and calls the map's [Release] of its key, without any
    [Clear], exactly as when no panic is in flight; the panic goes on. *)
Theorem C4_panic_is_not_recovered :
  notReleased sampleCachedWorld sampleFirstHandle
  /\ invokeReleaseFunc sampleEnv sampleCache
       (releaseClosure sampleFirstHandle) None (Some "boom")
       sampleCachedWorld
     = (Some "boom", sampleReleasedWorld)
  /\ newEvents sampleCachedWorld sampleReleasedWorld
     = [EvUnlock 0;
        EvRecordTimer metrics.HistoryCacheGetOrCreateScope (Some "d1-name")
          metrics.LockHoldLatency 5;
        EvRelease sampleKey]
  /\ ~ In (EvClear 0) (newEvents sampleCachedWorld sampleReleasedWorld).
Proof.
  split; [reflexivity|split; [vm_compute; reflexivity|]].
  assert (Ht : newEvents sampleCachedWorld sampleReleasedWorld
               = [EvUnlock 0;
                  EvRecordTimer metrics.HistoryCacheGetOrCreateScope
                    (Some "d1-name") metrics.LockHoldLatency 5;
                  EvRelease sampleKey]) by (vm_compute; reflexivity).
  split; [exact Ht|].
  rewrite Ht; cbn; intuition discriminate.
Qed.

(** C5. A release function is single-shot: once it has been called, every
    further call returns at once and leaves the whole world as it is (no
    [Clear], [Unlock], [Release] or metric), so calling it any number of
    times, with any arguments, has the effect of the first call alone. *)
Theorem C5_release_idempotent (E : Env) (c : Cache) (f : ReleaseFunc)
    (err : option types.error) (rec : option PanicValue)
    (args : list (option types.error * option PanicValue)) (w : World) :
  (forall err' rec',
      callReleaseFunc E c f err' rec' (snd (callReleaseFunc E c f err rec w))
      = (rec', snd (callReleaseFunc E c f err rec w)))
  /\ callReleaseFuncTimes E c f ((err, rec) :: args) w
     = snd (callReleaseFunc E c f err rec w).
Proof.
  split.
  - intros; apply callReleaseFunc_again.
  - cbn [callReleaseFuncTimes].
    induction args as [|[err' rec'] args IH]; [reflexivity|].
    cbn [callReleaseFuncTimes].
    rewrite callReleaseFunc_again; exact IH.
Qed.

(** ** The map: one entry per key, values allocated *)

Section LruFacts.

Import cache.

Implicit Types (k : definition.WorkflowIdentifier) (l : lru) (e : entry).

Lemma find_Some k l e : find k l = Some e -> In e l /\ key e = k.
Proof.
  induction l as [|e0 l IH]; cbn; [discriminate|].
  destruct (definition.eqb k (key e0)) eqn:Hk.
  - intros [= <-]; apply definition_eqb_eq in Hk; auto.
  - intros H; destruct (IH H); auto.
Qed.

Lemma find_None k l : find k l = None <-> ~ In k (keys l).
Proof.
  induction l as [|e0 l IH]; cbn; [tauto|].
  destruct (definition.eqb k (key e0)) eqn:Hk.
  - apply definition_eqb_eq in Hk; split; [discriminate|].
    intros H; exfalso; apply H; left; congruence.
  - apply definition_eqb_neq in Hk; rewrite IH; intuition congruence.
Qed.

Lemma In_remove k l e : In e (remove k l) <-> In e l /\ key e <> k.
Proof.
  induction l as [|e0 l IH]; cbn; [tauto|].
  destruct (definition.eqb k (key e0)) eqn:Hk.
  - apply definition_eqb_eq in Hk; rewrite IH.
    intuition (subst; congruence).
  - apply definition_eqb_neq in Hk; cbn; rewrite IH.
    intuition (subst; congruence).
Qed.

Lemma In_keys_remove k k' l :
  In k' (keys (remove k l)) <-> In k' (keys l) /\ k' <> k.
Proof.
  unfold keys; rewrite !in_map_iff; split.
  - intros (e & <- & He); apply In_remove in He as [He Hk]; eauto.
  - intros [(e & <- & He) Hk]; exists e; split; auto.
    apply In_remove; auto.
Qed.

Lemma NoDup_keys_remove k l : NoDup (keys l) -> NoDup (keys (remove k l)).
Proof.
  unfold keys; induction l as [|e0 l IH]; cbn; [auto|].
  intros H; inversion H as [|? ? Hn Hl]; subst.
  destruct (definition.eqb k (key e0)); [auto|].
  cbn; constructor; [|auto].
  intros Hin; apply In_keys_remove in Hin as [Hin _]; auto.
Qed.

Lemma values_remove k l : incl (values (remove k l)) (values l).
Proof.
  intros x; unfold values; rewrite !in_map_iff.
  intros (e & <- & He); apply In_remove in He as [He _]; eauto.
Qed.

Lemma keys_replace k e' l :
  key e' = k -> keys (replace k e' l) = keys l.
Proof.
  intros He; unfold keys, replace; rewrite map_map.
  apply map_ext; intros e.
  destruct (definition.eqb k (key e)) eqn:Hk; [|reflexivity].
  apply definition_eqb_eq in Hk; congruence.
Qed.

Lemma values_replace k e e' l :
  In e l -> value e' = value e -> incl (values (replace k e' l)) (values l).
Proof.
  intros He Hv x; unfold values, replace; rewrite map_map, !in_map_iff.
  intros (e0 & <- & H0).
  destruct (definition.eqb k (key e0)); [exists e|exists e0]; auto.
Qed.

(** [evict] takes exactly one unpinned entry out. *)
Lemma evict_Some l l' :
  evict l = Some l' ->
  exists l1 e l2,
    l = l1 ++ e :: l2 /\ l' = l1 ++ l2 /\ refCount e = 0.
Proof.
  revert l'; induction l as [|e0 l IH]; cbn; [discriminate|].
  intros l'; destruct (evict l) as [l''|].
  - intros [= <-]; destruct (IH _ eq_refl) as (l1 & e & l2 & -> & -> & H).
    exists (e0 :: l1), e, l2; auto.
  - destruct (Nat.eqb (refCount e0) 0) eqn:H0; [|discriminate].
    intros [= <-]; apply Nat.eqb_eq in H0.
    exists [], e0, l; auto.
Qed.

Lemma NoDup_keys_evict l l' :
  evict l = Some l' -> NoDup (keys l) -> NoDup (keys l').
Proof.
  intros H; apply evict_Some in H as (l1 & e & l2 & -> & -> & _).
  unfold keys; rewrite !map_app; cbn; apply NoDup_remove_1.
Qed.

Lemma values_evict l l' : evict l = Some l' -> incl (values l') (values l).
Proof.
  intros H; apply evict_Some in H as (l1 & e & l2 & -> & -> & _).
  unfold values; rewrite !map_app; cbn.
  intros x; rewrite !in_app_iff; cbn; tauto.
Qed.

Lemma In_keys_evict l l' k :
  evict l = Some l' -> In k (keys l') -> In k (keys l).
Proof.
  intros H; apply evict_Some in H as (l1 & e & l2 & -> & -> & _).
  unfold keys; rewrite !map_app; cbn; rewrite !in_app_iff; cbn; tauto.
Qed.

(** [Get], [PutIfNotExist] and [Release] keep one entry per key. *)
Lemma NoDup_keys_Get o now k l :
  NoDup (keys l) -> NoDup (keys (fst (Get o now k l))).
Proof.
  intros H; unfold Get.
  destruct (find k l) as [e|] eqn:Hf; [|exact H].
  destruct (expired o now e).
  - destruct (Nat.eqb (refCount e) 0); cbn;
      [apply NoDup_keys_remove|]; exact H.
  - cbn; constructor; [|apply NoDup_keys_remove; exact H].
    apply find_Some in Hf as [_ <-].
    intros Hin; apply In_keys_remove in Hin as [_ Hne]; auto.
Qed.

Lemma NoDup_keys_PutIfNotExist o now k v l :
  NoDup (keys l) -> NoDup (keys (fst (PutIfNotExist o now k v l))).
Proof.
  intros H; unfold PutIfNotExist.
  destruct (find k l) as [e|] eqn:Hf.
  - cbn; constructor; [|apply NoDup_keys_remove; exact H].
    apply find_Some in Hf as [_ <-].
    intros Hin; apply In_keys_remove in Hin as [_ Hne]; auto.
  - apply find_None in Hf.
    destruct (Nat.ltb (length l) (MaxCount o)).
    + cbn; constructor; auto.
    + destruct (evict l) as [l'|] eqn:He; [|exact H].
      cbn; constructor; [|eapply NoDup_keys_evict; eauto].
      intros Hin; apply Hf; eapply In_keys_evict; eauto.
Qed.

Lemma NoDup_keys_Release o now k l :
  NoDup (keys l) -> NoDup (keys (Release o now k l)).
Proof.
  intros H; unfold Release.
  destruct (find k l) as [e|] eqn:Hf; [|exact H].
  destruct (_ && _).
  - apply NoDup_keys_remove; exact H.
  - rewrite keys_replace; [exact H|].
    apply find_Some in Hf as [_ Hk]; exact Hk.
Qed.

(** Only [PutIfNotExist] adds a value, and only the one it is given. *)
Lemma values_Get o now k l : incl (values (fst (Get o now k l))) (values l).
Proof.
  unfold Get.
  destruct (find k l) as [e|] eqn:Hf; [|apply incl_refl].
  apply find_Some in Hf as [He _].
  destruct (expired o now e).
  - destruct (Nat.eqb (refCount e) 0); cbn;
      [apply values_remove|apply incl_refl].
  - cbn; intros x [<-|Hx]; [apply in_map; exact He|].
    apply (values_remove k); exact Hx.
Qed.

Lemma Get_Some o now k l x :
  snd (Get o now k l) = Some x -> In x (values l).
Proof.
  unfold Get.
  destruct (find k l) as [e|] eqn:Hf; [|discriminate].
  apply find_Some in Hf as [He _].
  destruct (expired o now e); [discriminate|].
  cbn; intros [= <-]; apply in_map; exact He.
Qed.

Lemma values_PutIfNotExist o now k v l :
  incl (values (fst (PutIfNotExist o now k v l))) (v :: values l).
Proof.
  unfold PutIfNotExist.
  destruct (find k l) as [e|] eqn:Hf.
  - apply find_Some in Hf as [He _].
    cbn; intros x [<-|Hx]; right; [apply in_map; exact He|].
    apply (values_remove k); exact Hx.
  - destruct (Nat.ltb (length l) (MaxCount o)).
    + cbn; apply incl_refl.
    + destruct (evict l) as [l'|] eqn:He; [|cbn; apply incl_tl, incl_refl].
      cbn; intros x [<-|Hx]; [left; reflexivity|right].
      eapply values_evict; eauto.
Qed.

Lemma values_Release o now k l : incl (values (Release o now k l)) (values l).
Proof.
  unfold Release.
  destruct (find k l) as [e|] eqn:Hf; [|apply incl_refl].
  apply find_Some in Hf as [He _].
  destruct (_ && _); [apply values_remove|].
  eapply values_replace; eauto.
Qed.

End LruFacts.

(** ** The map: pin counts *)

Section PinFacts.

Import cache.

Implicit Types (k : definition.WorkflowIdentifier) (l : lru) (e : entry).

Lemma unpin_pin e : unpin (pin e) = e.
Proof. destruct e; reflexivity. Qed.

Lemma find_remove_same k l : find k (remove k l) = None.
Proof.
  apply find_None; intros H; apply In_keys_remove in H as [_ H]; auto.
Qed.

Lemma find_remove_other k k' l :
  k' <> k -> find k' (remove k l) = find k' l.
Proof.
  intros Hne; induction l as [|e0 l IH]; cbn; [reflexivity|].
  destruct (definition.eqb k (key e0)) eqn:Hk.
  - apply definition_eqb_eq in Hk; subst k.
    apply definition_eqb_neq in Hne; rewrite Hne; exact IH.
  - cbn; rewrite IH; reflexivity.
Qed.

Lemma remove_absent k l : find k l = None -> remove k l = l.
Proof.
  induction l as [|e0 l IH]; cbn; [reflexivity|].
  destruct (definition.eqb k (key e0)); [discriminate|].
  intros H; rewrite IH; auto.
Qed.

Lemma replace_absent k e' l : find k l = None -> replace k e' l = l.
Proof.
  induction l as [|e0 l IH]; cbn; [reflexivity|].
  destruct (definition.eqb k (key e0)); [discriminate|].
  intros H; unfold replace in IH; rewrite IH; auto.
Qed.

Lemma pins_remove k k' l :
  pins k' (remove k l) = if definition.eqb k' k then 0 else pins k' l.
Proof.
  unfold pins; destruct (definition.eqb k' k) eqn:Hk.
  - apply definition_eqb_eq in Hk; subst; rewrite find_remove_same; auto.
  - apply definition_eqb_neq in Hk; rewrite find_remove_other; auto.
Qed.

Lemma pins_cons k' e l :
  pins k' (e :: l)
  = if definition.eqb k' (key e) then refCount e else pins k' l.
Proof. unfold pins; cbn; destruct (definition.eqb k' (key e)); auto. Qed.

Lemma find_app k l1 l2 :
  find k (l1 ++ l2)
  = match find k l1 with Some e => Some e | None => find k l2 end.
Proof.
  induction l1 as [|e0 l1 IH]; cbn; [reflexivity|].
  destruct (definition.eqb k (key e0)); auto.
Qed.

(** Evicting an unpinned entry changes no pin count. *)
Lemma pins_evict k' l l' :
  NoDup (keys l) -> evict l = Some l' -> pins k' l' = pins k' l.
Proof.
  intros Hnd H; apply evict_Some in H as (l1 & e & l2 & -> & -> & H0).
  unfold pins; rewrite !find_app; cbn.
  destruct (find k' l1) as [e1|] eqn:H1; [reflexivity|].
  destruct (definition.eqb k' (key e)) eqn:Hk; [|reflexivity].
  apply definition_eqb_eq in Hk; subst k'.
  unfold keys in Hnd; rewrite map_app in Hnd; cbn in Hnd.
  apply NoDup_remove_2 in Hnd.
  destruct (find (key e) l2) as [e2|] eqn:H2; [|auto].
  exfalso; apply Hnd, in_or_app; right.
  apply find_Some in H2 as [Hin <-]; apply in_map; exact Hin.
Qed.

(** Releasing the pin just taken on an existing entry, at any instant,
    restores every pin count. *)
Lemma pins_Release_pinned o t2 k k' l e :
  find k l = Some e ->
  pins k' (Release o t2 k (pin e :: remove k l)) = pins k' l.
Proof.
  intros Hf; pose proof (find_Some _ _ _ Hf) as [_ Hk].
  assert (Hkk : pins k l = refCount e) by (unfold pins; rewrite Hf; auto).
  unfold Release; cbn [find pin key].
  rewrite Hk, definition_eqb_refl.
  replace (mkEntry k (value e) (S (refCount e)) (createTime e))
    with (pin e) by (rewrite <- Hk; reflexivity).
  rewrite unpin_pin.
  destruct (_ && _) eqn:Hb.
  - apply andb_true_iff in Hb as [H0 _]; apply Nat.eqb_eq in H0.
    cbn [remove pin key]; rewrite Hk, definition_eqb_refl.
    rewrite (remove_absent k (remove k l)) by apply find_remove_same.
    rewrite pins_remove.
    destruct (definition.eqb k' k) eqn:Hk'; [|reflexivity].
    apply definition_eqb_eq in Hk'; subst k'; lia.
  - unfold replace; cbn [map pin key]; rewrite Hk, definition_eqb_refl.
    change (map (fun e0 => if definition.eqb k (key e0) then e else e0)
              (remove k l)) with (replace k e (remove k l)).
    rewrite replace_absent by apply find_remove_same.
    rewrite pins_cons, pins_remove, Hk.
    destruct (definition.eqb k' k) eqn:Hk'; [|reflexivity].
    apply definition_eqb_eq in Hk'; subst k'; lia.
Qed.

(** Releasing the pin of an entry just inserted restores every pin
    count. *)
Lemma pins_Release_new o t1 t2 k k' v l :
  find k l = None ->
  pins k' (Release o t2 k (mkEntry k v 1 t1 :: l)) = pins k' l.
Proof.
  intros Hf.
  assert (Hkk : pins k l = 0) by (unfold pins; rewrite Hf; auto).
  unfold Release; cbn [find key]; rewrite definition_eqb_refl.
  destruct (_ && _) eqn:Hb.
  - cbn [remove key]; rewrite definition_eqb_refl.
    rewrite remove_absent by exact Hf; reflexivity.
  - unfold replace; cbn [map key]; rewrite definition_eqb_refl.
    change (map (fun e0 => if definition.eqb k (key e0)
                           then unpin (mkEntry k v 1 t1) else e0) l)
      with (replace k (unpin (mkEntry k v 1 t1)) l).
    rewrite replace_absent by exact Hf.
    rewrite pins_cons; cbn [key unpin refCount Nat.pred].
    destruct (definition.eqb k' k) eqn:Hk'; [|reflexivity].
    apply definition_eqb_eq in Hk'; subst k'; lia.
Qed.

(** A pin taken by a hit of [Get] and given back by [Release]. *)
Lemma pins_Get_Release o t1 t2 k k' l l1 x :
  Get o t1 k l = (l1, Some x) ->
  pins k' (Release o t2 k l1) = pins k' l.
Proof.
  unfold Get; destruct (find k l) as [e|] eqn:Hf; [|discriminate].
  destruct (expired o t1 e); [discriminate|].
  intros [= <- _]; apply pins_Release_pinned; exact Hf.
Qed.

(** A miss of [Get] changes no pin count. *)
Lemma pins_Get_miss o t1 k k' l l1 :
  Get o t1 k l = (l1, None) -> pins k' l1 = pins k' l.
Proof.
  unfold Get; destruct (find k l) as [e|] eqn:Hf.
  - destruct (expired o t1 e); [|discriminate].
    destruct (Nat.eqb (refCount e) 0) eqn:H0; intros [= <-];
      [|reflexivity].
    apply Nat.eqb_eq in H0; rewrite pins_remove.
    destruct (definition.eqb k' k) eqn:Hk'; [|reflexivity].
    apply definition_eqb_eq in Hk'; subst k'.
    unfold pins; rewrite Hf; auto.
  - intros [= <-]; reflexivity.
Qed.

(** A pin taken by a successful [PutIfNotExist] and given back. *)
Lemma pins_PutIfNotExist_Release o t1 t2 k k' v l l1 x :
  NoDup (keys l) ->
  PutIfNotExist o t1 k v l = (l1, inl x) ->
  pins k' (Release o t2 k l1) = pins k' l.
Proof.
  intros Hnd; unfold PutIfNotExist.
  destruct (find k l) as [e|] eqn:Hf.
  - intros [= <- _]; apply pins_Release_pinned; exact Hf.
  - destruct (Nat.ltb (length l) (MaxCount o)).
    + intros [= <- _]; apply pins_Release_new; exact Hf.
    + destruct (evict l) as [l'|] eqn:He; [|discriminate].
      intros [= <- _].
      rewrite pins_Release_new.
      * apply pins_evict; auto.
      * apply find_None; intros Hin; apply find_None in Hf; apply Hf.
        eapply In_keys_evict; eauto.
Qed.

End PinFacts.

(** ** The invariant across the environment's actions *)

Lemma Forall_incl {A : Type} (P : A -> Prop) (l l' : list A) :
  incl l' l -> Forall P l -> Forall P l'.
Proof.
  rewrite !Forall_forall; intros Hi H x Hx; apply H, Hi, Hx.
Qed.

Lemma Forall_lt_le (l : list nat) (n m : nat) :
  n <= m -> Forall (fun x => x < n) l -> Forall (fun x => x < m) l.
Proof. intros Hle; apply Forall_impl; intros; lia. Qed.

Lemma Inv_runEnvOp (o : cache.Options) (w : World) (op : EnvOp) :
  Inv w -> Inv (runEnvOp o w op).
Proof.
  intros [Hnd Hv]; destruct op as [d|k|k|k]; cbn.
  - split; assumption.
  - split; cbn.
    + apply NoDup_keys_Get; exact Hnd.
    + eapply Forall_incl; [apply values_Get|exact Hv].
  - split; cbn.
    + apply NoDup_keys_PutIfNotExist; exact Hnd.
    + rewrite length_app; cbn.
      eapply Forall_incl; [apply values_PutIfNotExist|].
      constructor; [lia|].
      eapply Forall_lt_le; [|exact Hv]; lia.
  - split; cbn.
    + apply NoDup_keys_Release; exact Hnd.
    + eapply Forall_incl; [apply values_Release|exact Hv].
Qed.

Lemma Inv_envStep (E : Env) (c : Cache) (w : World) :
  Inv w -> Inv (envStep E c w).
Proof.
  apply envStep_ind; [intros w0 n H; exact H|].
  intros w0 op; apply Inv_runEnvOp.
Qed.

(** ** Run-id resolution frames the world *)

Section Frame.

Variable E : Env.
Variable c : Cache.
Variable R : World -> World -> Prop.

Hypothesis R_refl : forall w, R w w.
Hypothesis R_trans : forall w1 w2 w3, R w1 w2 -> R w2 w3 -> R w1 w3.
Hypothesis R_yield : forall w, R w (envStep E c w).
Hypothesis R_emit :
  forall w ev,
    isResolution ev = true -> R w (set_trace (trace w ++ [ev]) w).
Hypothesis R_storage : forall w n, R w (set_storageCalls n w).

Lemma storage_frame (ctx : GoContext)
    (request : persistence.GetCurrentExecutionRequest) (w w' : World) r :
  executionManagerGetCurrentExecution E c ctx request w = (r, w') ->
  R w w'.
Proof.
  unfold executionManagerGetCurrentExecution, bind, yield.
  intros [= _ <-].
  eapply R_trans; [apply R_yield|].
  eapply R_trans;
    [apply (R_storage _ (S (storageCalls (envStep E c w))))|].
  exact (R_emit (set_storageCalls _ (envStep E c w))
           (EvGetCurrentExecution _ _) eq_refl).
Qed.

Lemma retryDo_frame {S : Type} (n : nat) (ctx : GoContext)
    (op : S -> M (S * option types.error)) :
  (forall s w r w', op s w = (r, w') -> R w w') ->
  forall s w r w', retryDo E n c ctx op s w = (r, w') -> R w w'.
Proof.
  intros Hop; induction n as [|n IH]; intros s w r w'; cbn [retryDo];
    unfold bind; destruct (op s w) as [[s1 err] w1] eqn:H1;
    apply Hop in H1.
  - destruct err as [e|]; [destruct (negb _)|]; unfold ret;
      intros [= _ <-]; exact H1.
  - destruct err as [e|]; [destruct (negb _)|]; unfold ret.
    + intros [= _ <-]; exact H1.
    + unfold timeNow, bind, yield.
      destruct (isDone ctx _).
      * intros [= _ <-]; eapply R_trans; [exact H1|apply R_yield].
      * intros H; apply IH in H.
        eapply R_trans; [exact H1|].
        eapply R_trans; [apply R_yield|exact H].
    + intros [= _ <-]; exact H1.
Qed.

Lemma getCurrentExecutionWithRetry_frame (ctx : GoContext)
    (request : persistence.GetCurrentExecutionRequest) (w w' : World) r :
  getCurrentExecutionWithRetry E c ctx request w = (r, w') -> R w w'.
Proof.
  cbv beta iota zeta delta
    [getCurrentExecutionWithRetry withTimer IncCounter bind emit ret].
  destruct (retryDo E _ c ctx _ None _) as [[response err] w1] eqn:Hr.
  apply retryDo_frame in Hr.
  - assert (H0 : R w w1).
    { eapply R_trans; [|exact Hr].
      eapply R_trans; [|apply R_emit; reflexivity].
      apply R_emit; reflexivity. }
    destruct err as [e|]; intros [= _ <-].
    + eapply R_trans; [exact H0|].
      eapply R_trans; [|apply R_emit; reflexivity].
      apply R_emit; reflexivity.
    + eapply R_trans; [exact H0|apply R_emit; reflexivity].
  - intros s w0 r0 w0'.
    destruct (executionManagerGetCurrentExecution _ _ _ _ _)
      as [a w2] eqn:Hs.
    apply storage_frame in Hs.
    destruct a; intros [= _ <-]; exact Hs.
Qed.

Lemma validate_frame (ctx : GoContext) (domainID : string)
    (execution : types.WorkflowExecution) (w w' : World) r :
  validateWorkflowExecutionInfo E c ctx domainID execution w = (r, w') ->
  R w w'.
Proof.
  unfold validateWorkflowExecutionInfo.
  destruct (String.eqb (types.WorkflowID execution) "");
    [intros [= _ <-]; apply R_refl|].
  destruct (String.eqb (types.RunID execution) "").
  - unfold bind.
    destruct (getCurrentExecutionWithRetry _ _ _ _ _)
      as [[response err] w1] eqn:Hg.
    apply getCurrentExecutionWithRetry_frame in Hg.
    destruct err; unfold ret; intros [= _ <-]; exact Hg.
  - destruct (negb _); intros [= _ <-]; apply R_refl.
Qed.

End Frame.

Lemma resolved_refl (E : Env) (w : World) : resolved E w w.
Proof.
  unfold resolved; split; [|split; [|split; [|split; [|split]]]]; auto.
  exists []; rewrite app_nil_r; auto.
Qed.

Lemma resolved_trans (E : Env) (w1 w2 w3 : World) :
  resolved E w1 w2 -> resolved E w2 w3 -> resolved E w1 w3.
Proof.
  intros ((t1 & Ht1 & Hr1) & Hc1 & Hl1 & Hi1 & Hh1 & Hq1)
         ((t2 & Ht2 & Hr2) & Hc2 & Hl2 & Hi2 & Hh2 & Hq2).
  unfold resolved; split; [|split; [|split; [|split; [|split]]]].
  - exists (t1 ++ t2); rewrite Ht2, Ht1, app_assoc, forallb_app, Hr1, Hr2.
    auto.
  - congruence.
  - congruence.
  - auto.
  - lia.
  - intros H; destruct (Hq1 H), (Hq2 H); split; congruence.
Qed.

Lemma resolved_yield (E : Env) (c : Cache) (w : World) :
  resolved E w (envStep E c w).
Proof.
  unfold resolved; split; [|split; [|split; [|split; [|split]]]].
  - exists []; rewrite app_nil_r, envStep_trace; auto.
  - apply envStep_cells.
  - apply envStep_lockCalls.
  - apply Inv_envStep.
  - apply envStep_heap_le.
  - apply envStep_quiet.
Qed.

Lemma resolved_emit (E : Env) (w : World) (ev : event) :
  isResolution ev = true -> resolved E w (set_trace (trace w ++ [ev]) w).
Proof.
  intros H; unfold resolved; split; [|split; [|split; [|split; [|split]]]];
    auto.
  exists [ev]; cbn; rewrite H; auto.
Qed.

Lemma resolved_storage (E : Env) (w : World) (n : nat) :
  resolved E w (set_storageCalls n w).
Proof.
  unfold resolved; split; [|split; [|split; [|split; [|split]]]]; auto.
  exists []; rewrite app_nil_r; auto.
Qed.

Lemma validate_resolved (E : Env) (c : Cache) (ctx : GoContext)
    (domainID : string) (execution : types.WorkflowExecution)
    (w w' : World) r :
  validateWorkflowExecutionInfo E c ctx domainID execution w = (r, w') ->
  resolved E w w'.
Proof.
  apply (validate_frame E c (resolved E)).
  - apply resolved_refl.
  - apply resolved_trans.
  - apply resolved_yield.
  - apply resolved_emit.
  - apply resolved_storage.
Qed.

Lemma resolution_not_In (t : list event) (ev : event) :
  forallb isResolution t = true -> isResolution ev = false -> ~ In ev t.
Proof.
  intros Ht Hev Hin.
  rewrite forallb_forall in Ht; rewrite (Ht _ Hin) in Hev; discriminate.
Qed.

(** ** [GetAndCreateWorkflowExecution] *)

Ltac trace_of Ht :=
  unfold newEvents; trace_norm; rewrite Ht; rewrite <- ?app_assoc;
  rewrite skipn_app, skipn_all, Nat.sub_diag; cbn [skipn app].

(** The four ways through [GetAndCreateWorkflowExecution]: validation
    fails; hit and lock failure; hit and lock; miss. *)
Ltac split_GetAndCreate Hres HG HL :=
  let Hv := fresh "Hv" in
  let Heq := fresh "Heq" in
  run_facade;
  destruct (validateWorkflowExecutionInfo _ _ _ _ _ _)
    as [[?ex' [?e|]] ?wv] eqn:Hv;
  apply validate_resolved in Hv; pose proof Hv as Hres; clear Hv;
  [|destruct (cache.Get _ _ _ _) as [?l1 [?x1|]] eqn:HG;
    [destruct (Lock _ _ _ _) as [?e|] eqn:HL|]];
  intros Heq; inversion Heq; subst; clear Heq.

Ltac in_events H :=
  cbn [In] in H; rewrite ?in_app_iff in H; cbn [In] in H;
  repeat match type of H with
         | _ \/ _ => destruct H as [H|H]
         | False => contradiction
         | @eq event _ _ => try discriminate H
         end.

(** C10. When [GetAndCreateWorkflowExecution] finds the key in the map and
    the lock of the cached [Context] fails, it calls the map's [Release] of
    the key right after the failed [Lock] and returns the lock's error with
    every other result at its zero value: no cached [Context], no fresh
    [Context] (none is constructed), no release function, [hit = false]. *)
Theorem C10_GetAndCreate_lock_failure (E : Env) (c : Cache)
    (ctx : GoContext) (domainID : string)
    (execution : types.WorkflowExecution) (w w' : World)
    (res : option Context * option Context * option ReleaseFunc * bool
           * option types.error)
    (x : Context) (err : types.error) :
  GetAndCreateWorkflowExecution E c ctx domainID execution w = (res, w') ->
  In (EvLock x (Some err)) (newEvents w w') ->
  res = (None, None, None, false, Some err)
  /\ (forall y d e, ~ In (EvNewContext y d e) (newEvents w w'))
  /\ exists pre k,
       forallb isResolution pre = true
       /\ newEvents w w'
          = pre
            ++ [EvGet k (Some x); EvLock x (Some err); EvRelease k;
                EvIncCounter metrics.HistoryCacheGetAndCreateScope
                  metrics.CacheFailures;
                EvIncCounter metrics.HistoryCacheGetAndCreateScope
                  metrics.AcquireLockFailedCounter;
                EvStopTimer metrics.HistoryCacheGetAndCreateScope None
                  metrics.CacheLatency].
Proof.
  split_GetAndCreate Hres HG HL.
  all: destruct Hres as ((t & Ht & Hr) & _); cbn in Ht.
  all: trace_of Ht; intros Hin.
  all: assert (Hnt : ~ In (EvLock x (Some err)) t)
    by (apply resolution_not_In; auto).
  all: in_events Hin; try contradiction.
  injection Hin as <- <-.
  split; [reflexivity|split].
  - intros y dy ey Hy.
    assert (Hny : ~ In (EvNewContext y dy ey) t)
      by (apply resolution_not_In; auto).
    in_events Hy; contradiction.
  - eexists (_ :: _ :: t), _; split; [|cbn [app]; reflexivity].
    cbn; exact Hr.
Qed.

Lemma C10_witness :
  In (EvLock 0 (Some (types.OtherError 7)))
    (newEvents sampleCachedWorld
       (snd (GetAndCreateWorkflowExecution cancelledEnv sampleCache
               Background "d1" sampleExecution sampleCachedWorld)))
  /\ fst (GetAndCreateWorkflowExecution cancelledEnv sampleCache Background
            "d1" sampleExecution sampleCachedWorld)
     = (None, None, None, false, Some (types.OtherError 7)).
Proof.
  assert (Hin : In (EvLock 0 (Some (types.OtherError 7)))
                  (newEvents sampleCachedWorld
                     (snd (GetAndCreateWorkflowExecution cancelledEnv
                             sampleCache Background "d1" sampleExecution
                             sampleCachedWorld)))).
  { vm_compute; tauto. }
  split; [exact Hin|].
  destruct (GetAndCreateWorkflowExecution cancelledEnv sampleCache
              Background "d1" sampleExecution sampleCachedWorld)
    as [res w'] eqn:Hrun.
  exact (proj1 (C10_GetAndCreate_lock_failure _ _ _ _ _ _ _ _ _ _ Hrun Hin)).
Defined.

(** ** The invariant across the facade's steps *)

Lemma Inv_Get (o : cache.Options) (now : Z)
    (k : definition.WorkflowIdentifier) (w : World) l r :
  cache.Get o now k (entries w) = (l, r) -> Inv w -> Inv (set_entries l w).
Proof.
  intros HG [Hnd Hv]; split; cbn.
  - change l with (fst (l, r)); rewrite <- HG.
    apply NoDup_keys_Get; exact Hnd.
  - change l with (fst (l, r)); rewrite <- HG.
    eapply Forall_incl; [apply values_Get|exact Hv].
Qed.

Lemma Inv_PutIfNotExist (o : cache.Options) (now : Z)
    (k : definition.WorkflowIdentifier) (v : Context) (w : World) l r :
  cache.PutIfNotExist o now k v (entries w) = (l, r) ->
  v < length (heap w) -> Inv w -> Inv (set_entries l w).
Proof.
  intros HP Hlt [Hnd Hv]; split; cbn.
  - change l with (fst (l, r)); rewrite <- HP.
    apply NoDup_keys_PutIfNotExist; exact Hnd.
  - change l with (fst (l, r)); rewrite <- HP.
    eapply Forall_incl; [apply values_PutIfNotExist|].
    constructor; assumption.
Qed.

Lemma Inv_Release (o : cache.Options) (now : Z)
    (k : definition.WorkflowIdentifier) (w : World) :
  Inv w -> Inv (set_entries (cache.Release o now k (entries w)) w).
Proof.
  intros [Hnd Hv]; split; cbn.
  - apply NoDup_keys_Release; exact Hnd.
  - eapply Forall_incl; [apply values_Release|exact Hv].
Qed.

Lemma Inv_alloc (w : World) (o : string * types.WorkflowExecution) :
  Inv w -> Inv (set_heap (heap w ++ [o]) w).
Proof.
  intros [Hnd Hv]; split; cbn; [exact Hnd|].
  rewrite length_app; cbn.
  eapply Forall_lt_le; [|exact Hv]; lia.
Qed.

Ltac heap_step E c w0 :=
  let H0 := fresh in
  let l := fresh "l" in
  pose proof (envStep_heap_le E c w0) as H0;
  cbn in H0; rewrite ?length_app in H0; cbn in H0;
  set (l := heap (envStep E c w0)) in *; clearbody l.

(** Bounds on the heap along a run: the heap never shrinks. *)
Ltac heap_bound :=
  cbn; rewrite ?length_app; cbn;
  repeat match goal with
         | |- context [heap (envStep ?E ?c ?w0)] => heap_step E c w0
         | H : context [heap (envStep ?E ?c ?w0)] |- _ => heap_step E c w0
         end;
  lia.

Ltac inv_step :=
  lazymatch goal with
  | |- Inv (set_trace _ ?w) => change (Inv w)
  | |- Inv (set_cells _ ?w) => change (Inv w)
  | |- Inv (set_lockCalls _ ?w) => change (Inv w)
  | |- Inv (set_storageCalls _ ?w) => change (Inv w)
  | |- Inv (set_yields _ ?w) => change (Inv w)
  | |- Inv (set_clock _ ?w) => change (Inv w)
  | |- Inv (envStep _ _ _) => apply Inv_envStep
  | |- Inv (set_heap (_ ++ [?o]) ?w) =>
      change (Inv (set_heap (heap w ++ [o]) w)); apply Inv_alloc
  | |- Inv (set_entries (cache.Release ?o ?t ?k _) ?w) =>
      change (Inv (set_entries (cache.Release o t k (entries w)) w));
      apply Inv_Release
  | |- Inv (set_entries _ _) =>
      first [ eapply Inv_Get; [eassumption|]
            | eapply Inv_PutIfNotExist; [eassumption|heap_bound|] ]
  end.

Lemma callReleaseFunc_Inv (E : Env) (c : Cache) (f : ReleaseFunc)
    (err : option types.error) (rec : option PanicValue) (w : World) :
  Inv w -> Inv (snd (callReleaseFunc E c f err rec w)).
Proof.
  intros Hw; destruct f as [|r]; [exact Hw|].
  unfold callReleaseFunc, CompareAndSwapInt32, bind at 1.
  destruct (nth_error (cells w) (r_status r)) as [v|]; [|exact Hw].
  destruct (v =? cacheNotReleased)%Z; [|exact Hw].
  run_release.
  destruct rec; [cbn; repeat inv_step; exact Hw|].
  destruct (isSome err || r_forceClearContext r);
    destruct (String.eqb (r_domainName r) "cadence-canary");
    [destruct (r_callerScope r)| |destruct (r_callerScope r)|];
    cbn; repeat inv_step; exact Hw.
Qed.

Lemma internal_Inv (E : Env) (c : Cache) (ctx : GoContext)
    (domainID : string) (execution : types.WorkflowExecution)
    (scope callerScope : metrics.scope) (force : bool) (w : World) :
  Inv w ->
  Inv (snd (getOrCreateWorkflowExecutionInternal E c ctx domainID execution
              scope force callerScope w)).
Proof.
  intros Hw; run_facade.
  destruct (disabled c); [cbn; repeat inv_step; exact Hw|].
  destruct (cache.Get _ _ _ _) as [l1 [x1|]] eqn:HG.
  - destruct (Lock _ _ _ _); cbn; repeat inv_step; exact Hw.
  - destruct (cache.PutIfNotExist _ _ _ _ _) as [l2 [x2|e2]] eqn:HP.
    + destruct (Lock _ _ _ _); cbn; repeat inv_step; exact Hw.
    + cbn; repeat inv_step; exact Hw.
Qed.

Lemma GetOrCreateCurrent_Inv (E : Env) (c : Cache) (ctx : GoContext)
    (domainID workflowID : string) (w : World) :
  Inv w ->
  Inv (snd (GetOrCreateCurrentWorkflowExecution E c ctx domainID workflowID
              w)).
Proof.
  intros Hw; rewrite GetOrCreateCurrent_internal; cbv zeta.
  match goal with
  | |- context [getOrCreateWorkflowExecutionInternal ?E ?c ?ctx ?d ?ex ?s ?f
                  ?cs ?w0] =>
      pose proof (internal_Inv E c ctx d ex s cs f w0 Hw) as Hi;
      destruct (getOrCreateWorkflowExecutionInternal E c ctx d ex s f cs w0)
  end.
  exact Hi.
Qed.

Lemma GetOrCreate_Inv (E : Env) (c : Cache) (ctx : GoContext)
    (domainID : string) (execution : types.WorkflowExecution)
    (callerScope : metrics.scope) (w : World) :
  Inv w ->
  Inv (snd (GetOrCreateWorkflowExecution E c ctx domainID execution
              callerScope w)).
Proof.
  intros Hw.
  cbv beta iota zeta delta
    [GetOrCreateWorkflowExecution bind ret IncCounter emit withTimer].
  destruct (validateWorkflowExecutionInfo _ _ _ _ _ _)
    as [[ex' [e|]] wv] eqn:Hv;
    apply validate_resolved in Hv;
    destruct Hv as (_ & _ & _ & Hinv & _); specialize (Hinv Hw).
  - exact Hinv.
  - match goal with
    | |- context [getOrCreateWorkflowExecutionInternal ?E ?c ?ctx ?d ?ex ?s
                    ?f ?cs ?w0] =>
        pose proof (internal_Inv E c ctx d ex s cs f w0 Hinv) as Hi;
        destruct (getOrCreateWorkflowExecutionInternal E c ctx d ex s f cs
                    w0)
    end.
    exact Hi.
Qed.

Lemma Inv_not_In (w : World) :
  Inv w -> ~ In (length (heap w)) (cache.values (entries w)).
Proof.
  intros [_ Hv] Hin; rewrite Forall_forall in Hv; apply Hv in Hin; lia.
Qed.

Lemma Inv_Get_lt (o : cache.Options) (now : Z)
    (k : definition.WorkflowIdentifier) (w : World) l x :
  cache.Get o now k (entries w) = (l, Some x) ->
  Inv w -> x < length (heap w).
Proof.
  intros HG [_ Hv]; rewrite Forall_forall in Hv; apply Hv.
  eapply Get_Some; rewrite HG; reflexivity.
Qed.

Lemma GetAndCreate_Inv (E : Env) (c : Cache) (ctx : GoContext)
    (domainID : string) (execution : types.WorkflowExecution) (w : World) :
  Inv w ->
  Inv (snd (GetAndCreateWorkflowExecution E c ctx domainID execution w)).
Proof.
  intros Hw.
  destruct (GetAndCreateWorkflowExecution E c ctx domainID execution w)
    as [res w'] eqn:Hrun.
  revert Hrun; split_GetAndCreate Hres HG HL.
  all: destruct Hres as (_ & _ & _ & Hinv & _); specialize (Hinv Hw).
  all: cbn; repeat inv_step; exact Hinv.
Qed.

(** C9. A successful [GetAndCreateWorkflowExecution] constructs, as its
    last step, a second [Context] for the same domain and execution (the key
    it looked up) and returns it; this [Context] is a new object, it is not a
    value of the map, it differs from the cached [Context], and the call
    inserts nothing into the map.  On a miss the cached result is nil,
    [hit] is false and the release function is the no-op; the fresh
    [Context] is returned all the same. *)
Theorem C9_GetAndCreate_fresh_context (E : Env) (c : Cache)
    (ctx : GoContext) (domainID : string)
    (execution : types.WorkflowExecution) (w w' : World)
    (cached fresh : option Context) (rel : option ReleaseFunc)
    (hit : bool) :
  Inv w ->
  GetAndCreateWorkflowExecution E c ctx domainID execution w
  = (cached, fresh, rel, hit, None, w') ->
  exists (y : Context) (execution' : types.WorkflowExecution),
    fresh = Some y
    /\ (exists pre,
          newEvents w w'
          = pre ++ [EvNewContext y domainID execution';
                    EvStopTimer metrics.HistoryCacheGetAndCreateScope None
                      metrics.CacheLatency]
          /\ In (EvGet (keyOf domainID execution') cached) pre
          /\ forall k v r, ~ In (EvPutIfNotExist k v r) pre)
    /\ nth_error (heap w') y = Some (domainID, execution')
    /\ ~ In y (cache.values (entries w'))
    /\ cached <> Some y
    /\ hit = isSome cached
    /\ (cached = None -> hit = false /\ rel = Some NoopReleaseFn).
Proof.
  intros Hw.
  split_GetAndCreate Hres HG HL.
  all: destruct Hres as ((t & Ht & Hr) & _ & _ & Hinv & _ & _); cbn in Ht.
  all: specialize (Hinv Hw).
  all: eexists _, _; split; [reflexivity|].
  all: split; [|split; [|split; [|split; [|split]]]].
  all: try (cbn; rewrite ?envStep_cells; cbn; apply nth_error_snoc).
  all: try (cbn;
            match goal with
            | |- ~ In (length (heap ?W)) _ => apply (Inv_not_In W)
            end;
            repeat inv_step; exact Hinv).
  all: try reflexivity.
  all: try discriminate.
  - trace_of Ht; eexists (_ :: _ :: t ++ [_; _]); split; [|split].
    + cbn [app]; rewrite <- app_assoc; reflexivity.
    + cbn [In]; right; right; apply in_or_app; right; left; reflexivity.
    + intros k v r Hin.
      assert (Hnt : ~ In (EvPutIfNotExist k v r) t)
        by (apply resolution_not_In; auto).
      in_events Hin; contradiction.
  - pose proof (Inv_Get_lt _ _ _ _ _ _ HG (Inv_envStep E c wv Hinv)) as Hx.
    intros [= Heq]; cbn in Heq; heap_bound.
  - trace_of Ht; eexists (_ :: _ :: t ++ [_; _]); split; [|split].
    + cbn [app]; rewrite <- app_assoc; reflexivity.
    + cbn [In]; right; right; apply in_or_app; right; left; reflexivity.
    + intros k v r Hin.
      assert (Hnt : ~ In (EvPutIfNotExist k v r) t)
        by (apply resolution_not_In; auto).
      in_events Hin; contradiction.
  - refine (Inv_not_In (set_entries l1 (envStep E c wv)) _).
    repeat inv_step; exact Hinv.
  - intros _; split; reflexivity.
Qed.

Lemma Inv_emptyWorld : Inv emptyWorld.
Proof. split; constructor. Qed.

Lemma Inv_sampleCachedWorld : Inv sampleCachedWorld.
Proof. apply GetOrCreate_Inv, Inv_emptyWorld. Qed.

Lemma C9_witness :
  Inv sampleCachedWorld
  /\ exists y execution',
       fst (GetAndCreateWorkflowExecution sampleEnv sampleCache Background
              "d1" sampleExecution sampleCachedWorld)
       = (Some 0, Some y,
          Some (releaseClosure
                  (mkReleaseEnv sampleKey 0 false
                     metrics.HistoryCacheGetAndCreateScope "" 1 35)),
          true, None)
       /\ nth_error
            (heap (snd (GetAndCreateWorkflowExecution sampleEnv sampleCache
                          Background "d1" sampleExecution
                          sampleCachedWorld))) y
          = Some ("d1", execution')
       /\ Some 0 <> Some y.
Proof.
  split; [exact Inv_sampleCachedWorld|].
  destruct (GetAndCreateWorkflowExecution sampleEnv sampleCache Background
              "d1" sampleExecution sampleCachedWorld)
    as [res w'] eqn:Hrun.
  assert (Hres : res
                 = (Some 0, Some 1,
                    Some (releaseClosure
                            (mkReleaseEnv sampleKey 0 false
                               metrics.HistoryCacheGetAndCreateScope "" 1
                               35)),
                    true, None)).
  { change res with (fst (res, w')); rewrite <- Hrun.
    vm_compute; reflexivity. }
  subst res.
  destruct (C9_GetAndCreate_fresh_context _ _ _ _ _ _ _ _ _ _ _
              Inv_sampleCachedWorld Hrun)
    as (y & execution' & Hy & _ & Hheap & _ & Hne & _).
  injection Hy as <-.
  exists 1, execution'; cbn [fst snd].
  split; [reflexivity|split; [exact Hheap|exact Hne]].
Defined.

(** ** A lock that fails: the pin is given back *)

Lemma envStep_entries (E : Env) (c : Cache) (w : World) :
  quiet E -> entries (envStep E c w) = entries w.
Proof. intros Hq; apply (envStep_quiet E c w Hq). Qed.

Ltac trace_of0 :=
  unfold newEvents; trace_norm;
  rewrite skipn_app, skipn_all, Nat.sub_diag; cbn [skipn app].

Ltac split_internal Hd HG HP HL :=
  let Heq := fresh "Heq" in
  run_facade;
  match goal with |- context [disabled ?c] => destruct (disabled c) eqn:Hd end;
  [|destruct (cache.Get _ _ _ _) as [?l1 [?x1|]] eqn:HG;
    [destruct (Lock _ _ _ _) as [?e|] eqn:HL
    |destruct (cache.PutIfNotExist _ _ _ _ _) as [?l2 [?x2|?e2]] eqn:HP;
     [destruct (Lock _ _ _ _) as [?e|] eqn:HL|]]];
  intros Heq; inversion Heq; subst; clear Heq.

Lemma internal_lock_failure (E : Env) (c : Cache) (ctx : GoContext)
    (domainID : string) (execution : types.WorkflowExecution)
    (scope callerScope : metrics.scope) (force : bool) (w w' : World)
    (res : option Context * option ReleaseFunc * option types.error)
    (x : Context) (err : types.error) :
  getOrCreateWorkflowExecutionInternal E c ctx domainID execution scope force
    callerScope w = (res, w') ->
  In (EvLock x (Some err)) (newEvents w w') ->
  res = (None, None, Some err)
  /\ (exists pre domainName,
        newEvents w w'
        = pre ++ [EvLock x (Some err); EvRelease (keyOf domainID execution);
                  EvIncCounter scope metrics.CacheFailures;
                  EvIncCounter scope metrics.AcquireLockFailedCounter;
                  EvStopTimer callerScope (Some domainName) metrics.LockWaitLatency])
  /\ (quiet E -> NoDup (cache.keys (entries w)) ->
      forall k, cache.pins k (entries w') = cache.pins k (entries w)).
Proof.
  split_internal Hd HG HP HL.
  all: trace_of0; intros Hin; in_events Hin.
  - injection Hin as <- <-.
    split; [reflexivity|split].
    + eexists [_; _; _], _; reflexivity.
    + intros Hq Hnd k. cbn. repeat (rewrite envStep_entries by exact Hq; cbn). cbn.
      rewrite ?envStep_entries in HG by exact Hq.
      eapply pins_Get_Release; eauto.
  - injection Hin as <- <-.
    split; [reflexivity|split].
    + eexists [_; _; _; _; _; _], _; reflexivity.
    + intros Hq Hnd k. cbn. repeat (rewrite envStep_entries by exact Hq; cbn). cbn. 
      repeat (rewrite envStep_entries by exact Hq; cbn).
      rewrite ?envStep_entries in HG by exact Hq.
      rewrite ?envStep_entries in HP by exact Hq. cbn in HP. 
      erewrite pins_PutIfNotExist_Release; [| |exact HP].
      * eapply pins_Get_miss; eauto.
      * change l1 with (fst (l1, @None Context)); rewrite <- HG. apply NoDup_keys_Get; auto.
Qed.

Lemma GetAndCreate_lock_failure (E : Env) (c : Cache) (ctx : GoContext)
    (domainID : string) (execution : types.WorkflowExecution) (w w' : World)
    (res : option Context * option Context * option ReleaseFunc * bool
           * option types.error)
    (x : Context) (err : types.error) :
  GetAndCreateWorkflowExecution E c ctx domainID execution w = (res, w') ->
  In (EvLock x (Some err)) (newEvents w w') ->
  res = (None, None, None, false, Some err)
  /\ (exists pre k,
        newEvents w w'
        = pre ++ [EvLock x (Some err); EvRelease k;
                  EvIncCounter metrics.HistoryCacheGetAndCreateScope
                    metrics.CacheFailures;
                  EvIncCounter metrics.HistoryCacheGetAndCreateScope
                    metrics.AcquireLockFailedCounter;
                  EvStopTimer metrics.HistoryCacheGetAndCreateScope None
                    metrics.CacheLatency])
  /\ (quiet E ->
      forall k, cache.pins k (entries w') = cache.pins k (entries w)).
Proof.
  split_GetAndCreate Hres HG HL.
  all: destruct Hres as ((t & Ht & Hr) & _ & _ & _ & _ & Hquiet);
    cbn in Ht, Hquiet.
  all: trace_of Ht; intros Hin.
  all: assert (Hnt : ~ In (EvLock x (Some err)) t)
    by (apply resolution_not_In; auto).
  all: in_events Hin; try contradiction.
  injection Hin as <- <-.
  split; [reflexivity|split].
  - eexists (_ :: _ :: t ++ [_]), _.
    cbn [app]; rewrite <- app_assoc; reflexivity.
  - intros Hq k; destruct (Hquiet Hq) as [He _].
    cbn; repeat (rewrite envStep_entries by exact Hq; cbn).
    rewrite ?envStep_entries in HG by exact Hq.
    rewrite <- He; eapply pins_Get_Release; eauto.
Qed.

(** C6. When the [Lock] of an acquisition fails (the caller's scope is
    cancelled before the lock is acquired), in
    [getOrCreateWorkflowExecutionInternal] as in the hit branch of
    [GetAndCreateWorkflowExecution], the facade calls the map's [Release] of
    the key right after the failed [Lock], and returns the lock's error with
    no [Context] and no release function.  When no other goroutine touches
    the map meanwhile, every pin count is what it was before the call. *)
Theorem C6_failed_lock_gives_pin_back (E : Env) (c : Cache) :
  (forall ctx domainID execution scope callerScope force w w' res x err,
      getOrCreateWorkflowExecutionInternal E c ctx domainID execution scope
        force callerScope w = (res, w') ->
      In (EvLock x (Some err)) (newEvents w w') ->
      res = (None, None, Some err)
      /\ (exists pre domainName,
            newEvents w w'
            = pre ++ [EvLock x (Some err);
                      EvRelease (keyOf domainID execution);
                      EvIncCounter scope metrics.CacheFailures;
                      EvIncCounter scope metrics.AcquireLockFailedCounter;
                      EvStopTimer callerScope (Some domainName)
                        metrics.LockWaitLatency])
      /\ (quiet E -> NoDup (cache.keys (entries w)) ->
          forall k, cache.pins k (entries w') = cache.pins k (entries w)))
  /\ (forall ctx domainID execution w w' res x err,
        GetAndCreateWorkflowExecution E c ctx domainID execution w
        = (res, w') ->
        In (EvLock x (Some err)) (newEvents w w') ->
        res = (None, None, None, false, Some err)
        /\ (exists pre k,
              newEvents w w'
              = pre ++ [EvLock x (Some err); EvRelease k;
                        EvIncCounter metrics.HistoryCacheGetAndCreateScope
                          metrics.CacheFailures;
                        EvIncCounter metrics.HistoryCacheGetAndCreateScope
                          metrics.AcquireLockFailedCounter;
                        EvStopTimer metrics.HistoryCacheGetAndCreateScope
                          None metrics.CacheLatency])
        /\ (quiet E ->
            forall k, cache.pins k (entries w') = cache.pins k (entries w))).
Proof.
  split.
  - intros; eapply internal_lock_failure; eauto.
  - intros; eapply GetAndCreate_lock_failure; eauto.
Qed.

Lemma quiet_cancelledEnv : quiet cancelledEnv.
Proof. intros n; reflexivity. Qed.

Lemma C6_witness :
  quiet cancelledEnv
  /\ NoDup (cache.keys (entries sampleCachedWorld))
  /\ In (EvLock 0 (Some (types.OtherError 7)))
       (newEvents sampleCachedWorld
          (snd (getOrCreateWorkflowExecutionInternal cancelledEnv
                  sampleCache Background "d1" sampleExecution
                  metrics.HistoryCacheGetOrCreateScope false
                  (metrics.OtherScope 3) sampleCachedWorld)))
  /\ fst (getOrCreateWorkflowExecutionInternal cancelledEnv sampleCache
            Background "d1" sampleExecution
            metrics.HistoryCacheGetOrCreateScope false
            (metrics.OtherScope 3) sampleCachedWorld)
     = (None, None, Some (types.OtherError 7))
  /\ cache.pins sampleKey
       (entries
          (snd (getOrCreateWorkflowExecutionInternal cancelledEnv
                  sampleCache Background "d1" sampleExecution
                  metrics.HistoryCacheGetOrCreateScope false
                  (metrics.OtherScope 3) sampleCachedWorld)))
     = cache.pins sampleKey (entries sampleCachedWorld).
Proof.
  assert (Hin : In (EvLock 0 (Some (types.OtherError 7)))
                  (newEvents sampleCachedWorld
                     (snd (getOrCreateWorkflowExecutionInternal cancelledEnv
                             sampleCache Background "d1" sampleExecution
                             metrics.HistoryCacheGetOrCreateScope false
                             (metrics.OtherScope 3) sampleCachedWorld)))).
  { vm_compute; tauto. }
  pose proof (proj1 Inv_sampleCachedWorld) as Hnd.
  split; [exact quiet_cancelledEnv|split; [exact Hnd|split; [exact Hin|]]].
  destruct (getOrCreateWorkflowExecutionInternal cancelledEnv sampleCache
              Background "d1" sampleExecution
              metrics.HistoryCacheGetOrCreateScope false
              (metrics.OtherScope 3) sampleCachedWorld)
    as [res w'] eqn:Hrun.
  destruct (proj1 (C6_failed_lock_gives_pin_back cancelledEnv sampleCache)
              _ _ _ _ _ _ _ _ _ _ _ Hrun Hin) as (Hres & _ & Hpins).
  split; [exact Hres|exact (Hpins quiet_cancelledEnv Hnd sampleKey)].
Defined.

(** ** One Context per key *)

Lemma NoDup_keys_unique (l : cache.lru) (e1 e2 : cache.entry) :
  NoDup (cache.keys l) ->
  In e1 l -> In e2 l -> cache.key e1 = cache.key e2 -> e1 = e2.
Proof.
  unfold cache.keys; induction l as [|e l IH]; cbn; [contradiction|].
  intros Hnd; inversion Hnd as [|? ? Hn Hl]; subst.
  intros [->|H1] [->|H2] Hk; auto.
  - exfalso; apply Hn; rewrite Hk; apply in_map; exact H2.
  - exfalso; apply Hn; rewrite <- Hk; apply in_map; exact H1.
Qed.

Lemma runCall_Inv (E : Env) (c : Cache) (cl : call) (w : World) :
  Inv w -> Inv (runCall E c w cl).
Proof.
  intros Hw; destruct cl; cbn [runCall].
  - apply GetOrCreateCurrent_Inv; exact Hw.
  - apply GetOrCreate_Inv; exact Hw.
  - apply GetAndCreate_Inv; exact Hw.
  - apply callReleaseFunc_Inv; exact Hw.
Qed.

Lemma runCalls_Inv (E : Env) (c : Cache) (cls : list call) (w : World) :
  Inv w -> Inv (runCalls E c cls w).
Proof.
  unfold runCalls; revert w; induction cls as [|cl cls IH]; cbn; auto.
  intros w Hw; apply IH, runCall_Inv, Hw.
Qed.

(** A successful acquisition that missed: the events of the miss. *)
Lemma internal_miss (E : Env) (c : Cache) (ctx : GoContext)
    (domainID : string) (execution : types.WorkflowExecution)
    (scope callerScope : metrics.scope) (force : bool) (w w' : World)
    (x : Context) (f : ReleaseFunc) :
  getOrCreateWorkflowExecutionInternal E c ctx domainID execution scope force
    callerScope w = (Some x, Some f, None, w') ->
  In (EvGet (keyOf domainID execution) None) (newEvents w w') ->
  exists fresh rest,
    newEvents w w'
    = [EvGet (keyOf domainID execution) None;
       EvIncCounter scope metrics.CacheMissCounter;
       EvNewContext fresh domainID execution;
       EvPutIfNotExist (keyOf domainID execution) fresh (inl x)] ++ rest
    /\ length (heap w) <= fresh.
Proof.
  split_internal Hd HG HP HL.
  all: trace_of0; intros Hin; in_events Hin.
  eexists _, _; split; [reflexivity|].
  heap_bound.
Qed.

Lemma racerRun_result :
  getOrCreateWorkflowExecutionInternal racerEnv sampleCache Background "d1"
    sampleExecution metrics.HistoryCacheGetOrCreateScope false
    (metrics.OtherScope 3) emptyWorld
  = (Some 1,
     Some (releaseClosure
             (mkReleaseEnv sampleKey 1 false (metrics.OtherScope 3) "d1-name"
                0 0)),
     None, snd racerRun).
Proof. vm_compute; reflexivity. Qed.

Lemma racerRun_miss :
  In (EvGet (keyOf "d1" sampleExecution) None)
    (newEvents emptyWorld (snd racerRun)).
Proof. vm_compute; tauto. Qed.

(** C3. Whatever sequence of facade calls runs from the empty cache, and
    whatever other goroutines do to the map meanwhile, the map holds at most
    one entry, hence one [Context], per key.  On a miss a successful
    acquisition constructs a new [Context], hands it to [PutIfNotExist] and
    returns the element [PutIfNotExist] answers; that element can be a
    [Context] a racer inserted in between, not the one just constructed. *)
Theorem C3_one_context_per_key :
  (forall E c cls,
      NoDup (cache.keys (entries (runCalls E c cls emptyWorld)))
      /\ forall e1 e2,
           In e1 (entries (runCalls E c cls emptyWorld)) ->
           In e2 (entries (runCalls E c cls emptyWorld)) ->
           cache.key e1 = cache.key e2 -> e1 = e2)
  /\ (forall E c ctx domainID execution scope callerScope force w w' x f,
        getOrCreateWorkflowExecutionInternal E c ctx domainID execution
          scope force callerScope w = (Some x, Some f, None, w') ->
        In (EvGet (keyOf domainID execution) None) (newEvents w w') ->
        exists fresh rest,
          newEvents w w'
          = [EvGet (keyOf domainID execution) None;
             EvIncCounter scope metrics.CacheMissCounter;
             EvNewContext fresh domainID execution;
             EvPutIfNotExist (keyOf domainID execution) fresh (inl x)]
            ++ rest
          /\ length (heap w) <= fresh)
  /\ (exists E c ctx domainID execution scope callerScope force w w' x f
        fresh rest,
        getOrCreateWorkflowExecutionInternal E c ctx domainID execution
          scope force callerScope w = (Some x, Some f, None, w')
        /\ newEvents w w'
           = [EvGet (keyOf domainID execution) None;
              EvIncCounter scope metrics.CacheMissCounter;
              EvNewContext fresh domainID execution;
              EvPutIfNotExist (keyOf domainID execution) fresh (inl x)]
             ++ rest
        /\ x <> fresh).
Proof.
  split; [|split].
  - intros E c cls.
    pose proof (runCalls_Inv E c cls emptyWorld Inv_emptyWorld) as [Hnd _].
    split; [exact Hnd|].
    intros e1 e2; apply NoDup_keys_unique; exact Hnd.
  - intros; eapply internal_miss; eauto.
  - exists racerEnv, sampleCache, Background, "d1", sampleExecution,
      metrics.HistoryCacheGetOrCreateScope, (metrics.OtherScope 3), false,
      emptyWorld, (snd racerRun), 1.
    eexists; exists 0, (skipn 4 (newEvents emptyWorld (snd racerRun))).
    split; [exact racerRun_result|split; [|discriminate]].
    vm_compute; reflexivity.
Qed.

Lemma C3_witness :
  In (EvGet (keyOf "d1" sampleExecution) None)
    (newEvents emptyWorld (snd racerRun))
  /\ exists fresh rest,
       newEvents emptyWorld (snd racerRun)
       = [EvGet (keyOf "d1" sampleExecution) None;
          EvIncCounter metrics.HistoryCacheGetOrCreateScope
            metrics.CacheMissCounter;
          EvNewContext fresh "d1" sampleExecution;
          EvPutIfNotExist (keyOf "d1" sampleExecution) fresh (inl 1)]
         ++ rest
       /\ length (heap emptyWorld) <= fresh.
Proof.
  split; [exact racerRun_miss|].
  exact (proj1 (proj2 C3_one_context_per_key) _ _ _ _ _ _ _ _ _ _ _ _
           racerRun_result racerRun_miss).
Defined.

(** ** Resolution of the current run *)

Lemma storageLog_app (t1 t2 : list event) :
  storageLog (t1 ++ t2) = storageLog t1 ++ storageLog t2.
Proof.
  induction t1 as [|ev t1 IH]; cbn; [reflexivity|].
  destruct ev; cbn; rewrite ?IH; reflexivity.
Qed.

Lemma mapKeys_app (t1 t2 : list event) :
  mapKeys (t1 ++ t2) = mapKeys t1 ++ mapKeys t2.
Proof.
  induction t1 as [|ev t1 IH]; cbn; [reflexivity|].
  destruct ev; cbn; rewrite ?IH; reflexivity.
Qed.

Lemma mapKeys_resolution (t : list event) :
  forallb isResolution t = true -> mapKeys t = [].
Proof.
  induction t as [|ev t IH]; cbn; [reflexivity|].
  intros H; apply andb_true_iff in H as [Hev Ht].
  destruct ev; try discriminate; auto.
Qed.

Lemma filter_resolution (t : list event) :
  forallb isResolution t = true -> filter isMapOrNew t = [].
Proof.
  induction t as [|ev t IH]; cbn; [reflexivity|].
  intros H; apply andb_true_iff in H as [Hev Ht].
  destruct ev; try discriminate; auto.
Qed.

Section Resolution.

Variable E : Env.
Variable c : Cache.
Variable ctx : GoContext.
Variable request : persistence.GetCurrentExecutionRequest.

Lemma storageOp_run s w r w' :
  storageOp E c ctx request s w = (r, w') ->
  exists final,
    r = outcome final
    /\ trace w' = trace w ++ [EvGetCurrentExecution request final].
Proof.
  unfold storageOp, executionManagerGetCurrentExecution, bind, yield.
  destruct (GetCurrentExecution E _ ctx request) as [response|err] eqn:Hg;
    unfold ret; intros [= <- <-];
    [exists (inl response)|exists (inr err)]; split; try reflexivity;
    cbn; rewrite envStep_trace; reflexivity.
Qed.

Lemma retryDo_log (n : nat) s w r w' :
  retryDo E n c ctx (storageOp E c ctx request) s w = (r, w') ->
  exists es final t,
    trace w' = trace w ++ t
    /\ forallb isResolution t = true
    /\ storageLog t = retryLog request es final
    /\ transient E es
    /\ length es <= n
    /\ r = outcome final.
Proof.
  revert s w; induction n as [|n IH]; intros s w; cbn [retryDo];
    unfold bind at 1;
    destruct (storageOp E c ctx request s w) as [[s1 err] w1] eqn:H1;
    apply storageOp_run in H1 as (final & Hout & Ht1).
  - assert (Hdone : (s1, err, w1) = (r, w') ->
                    exists es final t,
                      trace w' = trace w ++ t
                      /\ forallb isResolution t = true
                      /\ storageLog t = retryLog request es final
                      /\ transient E es /\ length es <= 0
                      /\ r = outcome final).
    { intros [= <- <-].
      exists [], final, [EvGetCurrentExecution request final].
      repeat split; eauto.
      constructor. }
    destruct err as [e|]; [destruct (negb _)|]; exact Hdone.
  - assert (Hdone : (s1, err, w1) = (r, w') ->
                    exists es final t,
                      trace w' = trace w ++ t
                      /\ forallb isResolution t = true
                      /\ storageLog t = retryLog request es final
                      /\ transient E es /\ length es <= S n
                      /\ r = outcome final).
    { intros [= <- <-].
      exists [], final, [EvGetCurrentExecution request final].
      repeat split; eauto.
      - constructor.
      - cbn; lia. }
    destruct err as [e|]; [|exact Hdone].
    destruct (negb (IsTransientError E e)) eqn:Htr; [exact Hdone|].
    apply negb_false_iff in Htr.
    unfold timeNow, bind, yield.
    destruct (isDone ctx _).
    + unfold ret; intros [= <- <-].
      exists [], final, [EvGetCurrentExecution request final].
      repeat split; eauto.
      * rewrite envStep_trace; exact Ht1.
      * constructor.
      * cbn; lia.
    + intros Hrec; apply IH in Hrec
        as (es & final' & t & Ht & Hres & Hlog & Htrans & Hlen & Hr).
      destruct final as [response|e0]; [discriminate|].
      injection Hout as -> <-.
      exists (e :: es), final', (EvGetCurrentExecution request (inr e) :: t).
      repeat split; auto.
      * rewrite Ht, envStep_trace, Ht1, <- app_assoc; reflexivity.
      * cbn [storageLog]; rewrite Hlog; reflexivity.
      * constructor; assumption.
      * cbn; lia.
Qed.

End Resolution.

Lemma getCurrentExecutionWithRetry_log (E : Env) (c : Cache)
    (ctx : GoContext) (request : persistence.GetCurrentExecutionRequest)
    (w w' : World) r :
  getCurrentExecutionWithRetry E c ctx request w = (r, w') ->
  exists es final t,
    trace w' = trace w ++ t
    /\ forallb isResolution t = true
    /\ storageLog t = retryLog request es final
    /\ transient E es
    /\ length es <= MaxRetries E
    /\ r = outcome final.
Proof.
  cbv beta iota zeta delta
    [getCurrentExecutionWithRetry withTimer IncCounter bind emit ret].
  destruct (retryDo E _ c ctx _ None _) as [[response err] w1] eqn:Hr.
  destruct (retryDo_log E c ctx request _ _ _ _ _ Hr)
    as (es & final & t & Ht & Hres & Hlog & Htr & Hlen & Hout).
  cbn [trace set_trace] in Ht.
  destruct final as [resp|e]; injection Hout as -> ->; intros [= <- <-].
  - exists es, (inl resp); eexists (_ :: _ :: t ++ [_]).
    split; [cbn [trace set_trace]; rewrite Ht, <- !app_assoc; reflexivity|].
    repeat split; auto.
    + cbn; rewrite forallb_app, Hres; reflexivity.
    + cbn [storageLog]; rewrite storageLog_app, Hlog; cbn.
      rewrite app_nil_r; reflexivity.
  - exists es, (inr e); eexists (_ :: _ :: t ++ [_; _]).
    split; [cbn [trace set_trace]; rewrite Ht, <- !app_assoc; reflexivity|].
    repeat split; auto.
    + cbn; rewrite forallb_app, Hres; reflexivity.
    + cbn [storageLog]; rewrite storageLog_app, Hlog; cbn.
      rewrite app_nil_r; reflexivity.
Qed.

(** The response is never nil where [validateWorkflowExecutionInfo] reads
    its run id. *)
Lemma getCurrentExecutionWithRetry_response (E : Env) (c : Cache)
    (ctx : GoContext) (request : persistence.GetCurrentExecutionRequest)
    (w w' : World) response :
  getCurrentExecutionWithRetry E c ctx request w = (response, None, w') ->
  response <> None.
Proof.
  intros H; apply getCurrentExecutionWithRetry_log in H
    as (es & final & t & _ & _ & _ & _ & _ & Hout).
  destruct final; injection Hout as -> ; discriminate.
Qed.

Lemma validate_log (E : Env) (c : Cache) (ctx : GoContext)
    (domainID : string) (execution : types.WorkflowExecution)
    (w w' : World) r :
  types.WorkflowID execution <> "" ->
  types.RunID execution = "" ->
  validateWorkflowExecutionInfo E c ctx domainID execution w = (r, w') ->
  exists es final t,
    trace w' = trace w ++ t
    /\ forallb isResolution t = true
    /\ storageLog t
       = retryLog
           (persistence.mkGetCurrentExecutionRequest domainID
              (types.WorkflowID execution)) es final
    /\ transient E es
    /\ length es <= MaxRetries E
    /\ r = resolvedExecution execution final.
Proof.
  intros Hw Hr; unfold validateWorkflowExecutionInfo.
  apply String.eqb_neq in Hw; rewrite Hw, Hr; cbn [String.eqb].
  unfold bind.
  destruct (getCurrentExecutionWithRetry _ _ _ _ _)
    as [[response err] w1] eqn:Hg.
  apply getCurrentExecutionWithRetry_log in Hg
    as (es & final & t & Ht & Hres & Hlog & Htr & Hlen & Hout).
  destruct final as [resp|e]; injection Hout as -> ->; unfold ret;
    intros [= <- <-]; exists es; eexists; exists t; repeat split; eauto.
Qed.

(** With a run id given, validation does not touch the world. *)
Lemma validate_given (E : Env) (c : Cache) (ctx : GoContext)
    (domainID : string) (execution execution' : types.WorkflowExecution)
    (w w' : World) :
  types.RunID execution <> "" ->
  validateWorkflowExecutionInfo E c ctx domainID execution w
  = (execution', None, w') ->
  execution' = execution /\ w' = w
  /\ uuid_Parse E (types.RunID execution) = true.
Proof.
  intros Hr; unfold validateWorkflowExecutionInfo.
  apply String.eqb_neq in Hr; rewrite Hr.
  destruct (String.eqb (types.WorkflowID execution) ""); [discriminate|].
  destruct (uuid_Parse E (types.RunID execution)); cbn; [|discriminate].
  intros [= <- <-]; auto.
Qed.

(** ** The key of an acquisition *)

Ltac acts_on :=
  unfold actsOn; cbn [mapKeys storageLog];
  split; [repeat constructor|split; [reflexivity|]];
  let y := fresh "y" in
  let d := fresh "d" in
  let e := fresh "e" in
  let Hin := fresh "Hin" in
  intros y d e Hin; in_events Hin;
  try (injection Hin as <- <- <-; split; reflexivity).

Lemma actsOn_app (domainID : string) (execution : types.WorkflowExecution)
    (t1 t2 : list event) :
  actsOn domainID execution t1 -> actsOn domainID execution t2 ->
  actsOn domainID execution (t1 ++ t2).
Proof.
  intros (H1 & H2 & H3) (H4 & H5 & H6); unfold actsOn.
  rewrite mapKeys_app, storageLog_app, H2, H5; split; [|split].
  - apply Forall_app; auto.
  - reflexivity.
  - intros y d e Hin; apply in_app_or in Hin as [Hin|Hin]; eauto.
Qed.

Lemma internal_actsOn (E : Env) (c : Cache) (ctx : GoContext)
    (domainID : string) (execution : types.WorkflowExecution)
    (scope callerScope : metrics.scope) (force : bool) (w w' : World) res :
  getOrCreateWorkflowExecutionInternal E c ctx domainID execution scope force
    callerScope w = (res, w') ->
  exists t,
    trace w' = trace w ++ t
    /\ actsOn domainID execution t
    /\ (disabled c = false -> mapKeys t <> []).
Proof.
  split_internal Hd HG HP HL.
  all: eexists; split; [trace_norm; reflexivity|]; (split; [acts_on|]).
  all: try discriminate.
  all: intros _; cbn; discriminate.
Qed.

Lemma internal_error (E : Env) (c : Cache) (ctx : GoContext)
    (domainID : string) (execution : types.WorkflowExecution)
    (scope callerScope : metrics.scope) (force : bool) (w w' : World)
    (x : option Context) (f : option ReleaseFunc) (e : types.error) :
  getOrCreateWorkflowExecutionInternal E c ctx domainID execution scope force
    callerScope w = (x, f, Some e, w') ->
  x = None /\ f = None.
Proof.
  split_internal Hd HG HP HL; auto.
Qed.

Lemma GetOrCreate_resolves (E : Env) (c : Cache) (ctx : GoContext)
    (domainID : string) (execution : types.WorkflowExecution)
    (callerScope : metrics.scope) (w w' : World)
    (x : option Context) (f : option ReleaseFunc)
    (err : option types.error) :
  types.WorkflowID execution <> "" ->
  types.RunID execution = "" ->
  GetOrCreateWorkflowExecution E c ctx domainID execution callerScope w
  = (x, f, err, w') ->
  resolvesThenActs E c domainID execution (newEvents w w') err
  /\ (err <> None -> x = None /\ f = None).
Proof.
  intros Hwid Hrid.
  cbv beta iota zeta delta
    [GetOrCreateWorkflowExecution bind ret IncCounter emit withTimer].
  destruct (validateWorkflowExecutionInfo _ _ _ _ _ _) as [r wv] eqn:Hv.
  destruct (validate_log _ _ _ _ _ _ _ _ Hwid Hrid Hv)
    as (es & final & t & Ht & Hres & Hlog & Htr & Hlen & ->).
  cbn [trace set_trace] in Ht.
  destruct final as [response|e]; cbn [resolvedExecution].
  - destruct (getOrCreateWorkflowExecutionInternal _ _ _ _ _ _ _ _ _)
      as [res wi] eqn:Hi.
    destruct (internal_actsOn _ _ _ _ _ _ _ _ _ _ _ Hi)
      as (t' & Ht' & Hacts & Hkeys).
    intros [= -> <-]; split.
    + exists es, (inl response),
        (EvIncCounter metrics.HistoryCacheGetOrCreateScope
           metrics.CacheRequests
         :: EvStartTimer metrics.HistoryCacheGetOrCreateScope None
              metrics.CacheLatency :: t),
        (t' ++ [EvStopTimer metrics.HistoryCacheGetOrCreateScope None
                  metrics.CacheLatency]).
      split; [|split; [exact Hres|split; [exact Hlog|split;
        [exact Htr|split; [exact Hlen|split]]]]].
      * apply newEvents_app; cbn [trace set_trace].
        rewrite Ht', Ht, <- !app_assoc; reflexivity.
      * apply actsOn_app; [exact Hacts|acts_on].
      * intros Hd; rewrite mapKeys_app; intros H.
        apply app_eq_nil in H as [H _]; exact (Hkeys Hd H).
    + destruct err as [e|]; [|congruence].
      intros _; eapply internal_error; exact Hi.
  - intros [= <- <- <- <-]; split; [|auto].
    exists es, (inr e),
      (EvIncCounter metrics.HistoryCacheGetOrCreateScope
         metrics.CacheRequests
       :: EvStartTimer metrics.HistoryCacheGetOrCreateScope None
            metrics.CacheLatency :: t),
      [EvIncCounter metrics.HistoryCacheGetOrCreateScope
         metrics.CacheFailures;
       EvStopTimer metrics.HistoryCacheGetOrCreateScope None
         metrics.CacheLatency].
    split; [|split; [exact Hres|split; [exact Hlog|split;
      [exact Htr|split; [exact Hlen|split; [reflexivity|]]]]]].
    + apply newEvents_app; cbn [trace set_trace].
      rewrite Ht, <- !app_assoc; reflexivity.
    + erewrite newEvents_app
        by (cbn [trace set_trace]; rewrite Ht, <- !app_assoc; reflexivity).
      cbn [app filter isMapOrNew]; rewrite filter_app.
      rewrite (filter_resolution t Hres); reflexivity.
Qed.

Lemma GetAndCreate_resolves (E : Env) (c : Cache) (ctx : GoContext)
    (domainID : string) (execution : types.WorkflowExecution)
    (w w' : World) (cached fresh : option Context)
    (f : option ReleaseFunc) (hit : bool) (err : option types.error) :
  types.WorkflowID execution <> "" ->
  types.RunID execution = "" ->
  GetAndCreateWorkflowExecution E c ctx domainID execution w
  = (cached, fresh, f, hit, err, w') ->
  resolvesThenActs E c domainID execution (newEvents w w') err
  /\ (err <> None -> cached = None /\ fresh = None /\ f = None).
Proof.
  intros Hwid Hrid; run_facade.
  destruct (validateWorkflowExecutionInfo _ _ _ _ _ _) as [r wv] eqn:Hv.
  destruct (validate_log _ _ _ _ _ _ _ _ Hwid Hrid Hv)
    as (es & final & t & Ht & Hres & Hlog & Htr & Hlen & ->).
  cbn [trace set_trace] in Ht.
  set (pre := EvIncCounter metrics.HistoryCacheGetAndCreateScope
                metrics.CacheRequests
              :: EvStartTimer metrics.HistoryCacheGetAndCreateScope None
                   metrics.CacheLatency :: t).
  assert (Hpre : forallb isResolution pre = true) by exact Hres.
  assert (Hplog : storageLog pre
                  = retryLog
                      (persistence.mkGetCurrentExecutionRequest domainID
                         (types.WorkflowID execution)) es final)
    by exact Hlog.
  assert (Htpre : trace wv = trace w ++ pre)
    by (rewrite Ht, <- !app_assoc; reflexivity).
  clearbody pre; clear Ht Hres Hlog Hv.
  destruct final as [response|e]; cbn [resolvedExecution types.WorkflowID
                                         types.RunID].
  - destruct (cache.Get _ _ _ _) as [l1 [x1|]];
      [destruct (Lock _ _ _ _) as [e|]|];
      intros [= <- <- <- <- <- <-].
    all: split; [|first [congruence|auto]].
    all: exists es, (inl response), pre; eexists.
    all: (split; [unfold newEvents; trace_norm; rewrite Htpre;
                  rewrite <- ?app_assoc;
                  rewrite skipn_app, skipn_all, Nat.sub_diag;
                  cbn [skipn app]; reflexivity|]).
    all: split; [exact Hpre|split; [exact Hplog|split;
           [exact Htr|split; [exact Hlen|split]]]].
    all: try (intros _; cbn; discriminate).
    all: acts_on.
  - intros [= <- <- <- <- <- <-]; split; [|auto].
    exists es, (inr e), pre; eexists.
    split; [unfold newEvents; trace_norm; rewrite Htpre;
            rewrite <- ?app_assoc;
            rewrite skipn_app, skipn_all, Nat.sub_diag;
            cbn [skipn app]; reflexivity|].
    split; [exact Hpre|split; [exact Hplog|split;
      [exact Htr|split; [exact Hlen|split; [reflexivity|]]]]].
    unfold newEvents; trace_norm; rewrite Htpre; rewrite <- ?app_assoc.
    rewrite skipn_app, skipn_all, Nat.sub_diag; cbn [skipn app].
    rewrite filter_app, (filter_resolution pre Hpre); reflexivity.
Qed.

(** C8. A call to [GetOrCreateWorkflowExecution] or
    [GetAndCreateWorkflowExecution] with an empty run id (and a workflow
    id, which is tested first) resolves the current run before anything
    else: [GetCurrentExecution] is called for the call's domain and workflow
    id through the retry executor, every answer but the last being an error
    the predicate classifies as transient.  On a response, every map
    operation and every [Context] constructed afterwards is for the
    execution carrying the response's run id.  On an error, the call returns
    that error and no [Context], and neither constructs a [Context] nor
    touches the map. *)
Theorem C8_current_run_resolved (E : Env) (c : Cache) (ctx : GoContext)
    (domainID : string) (execution : types.WorkflowExecution) :
  types.WorkflowID execution <> "" ->
  types.RunID execution = "" ->
  (forall callerScope w w' x f err,
      GetOrCreateWorkflowExecution E c ctx domainID execution callerScope w
      = (x, f, err, w') ->
      resolvesThenActs E c domainID execution (newEvents w w') err
      /\ (err <> None -> x = None /\ f = None))
  /\ (forall w w' cached fresh f hit err,
        GetAndCreateWorkflowExecution E c ctx domainID execution w
        = (cached, fresh, f, hit, err, w') ->
        resolvesThenActs E c domainID execution (newEvents w w') err
        /\ (err <> None -> cached = None /\ fresh = None /\ f = None)).
Proof.
  intros Hwid Hrid; split.
  - intros; eapply GetOrCreate_resolves; eauto.
  - intros; eapply GetAndCreate_resolves; eauto.
Qed.

Lemma sampleResolve_result :
  GetOrCreateWorkflowExecution sampleEnv sampleCache Background "d1"
    (types.mkWorkflowExecution "w1" "") (metrics.OtherScope 1) emptyWorld
  = (Some 0,
     Some (releaseClosure
             (mkReleaseEnv (definition.NewWorkflowIdentifier "d1" "w1" "r9")
                0 false (metrics.OtherScope 1) "d1-name" 0 45)),
     None, sampleResolvedWorld).
Proof. vm_compute; reflexivity. Qed.

Lemma C8_witness :
  "w1" <> "" /\ "" = ""
  /\ resolvesThenActs sampleEnv sampleCache "d1"
       (types.mkWorkflowExecution "w1" "")
       (newEvents emptyWorld sampleResolvedWorld) None.
Proof.
  assert (Hwid : types.WorkflowID (types.mkWorkflowExecution "w1" "") <> "")
    by discriminate.
  split; [exact Hwid|split; [reflexivity|]].
  exact (proj1 (proj1 (C8_current_run_resolved sampleEnv sampleCache
                         Background "d1" (types.mkWorkflowExecution "w1" "")
                         Hwid eq_refl)
                  _ _ _ _ _ _ sampleResolve_result)).
Defined.

(** ** C1: the keys the facade uses *)

Lemma actsOn_resolution (domainID : string)
    (execution : types.WorkflowExecution) (t : list event) :
  forallb isResolution t = true -> storageLog t = [] ->
  actsOn domainID execution t.
Proof.
  intros Hres Hlog; unfold actsOn.
  rewrite (mapKeys_resolution t Hres); split; [constructor|split; [auto|]].
  intros y d e Hin; exfalso.
  exact (resolution_not_In t (EvNewContext y d e) Hres eq_refl Hin).
Qed.

Lemma GetOrCreateCurrent_actsOn (E : Env) (c : Cache) (ctx : GoContext)
    (domainID workflowID : string) (w w' : World) res :
  GetOrCreateCurrentWorkflowExecution E c ctx domainID workflowID w
  = (res, w') ->
  actsOn domainID (types.mkWorkflowExecution workflowID "")
    (newEvents w w')
  /\ (disabled c = false -> mapKeys (newEvents w w') <> []).
Proof.
  rewrite GetOrCreateCurrent_internal; cbv zeta.
  destruct (getOrCreateWorkflowExecutionInternal _ _ _ _ _ _ _ _ _)
    as [res1 w1] eqn:Hi.
  destruct (internal_actsOn _ _ _ _ _ _ _ _ _ _ _ Hi)
    as (t & Ht & Hacts & Hkeys).
  cbn [trace set_trace] in Ht.
  intros [= _ <-].
  erewrite newEvents_app
    by (cbn [trace set_trace]; rewrite Ht, <- !app_assoc; reflexivity).
  split.
  - apply (actsOn_app _ _ [_; _]); [acts_on|].
    apply actsOn_app; [exact Hacts|acts_on].
  - intros Hd; cbn [app mapKeys]; rewrite mapKeys_app; intros H.
    apply app_eq_nil in H as [H _]; exact (Hkeys Hd H).
Qed.

Lemma validate_given_world (E : Env) (c : Cache) (ctx : GoContext)
    (domainID : string) (execution : types.WorkflowExecution)
    (w w' : World) r :
  types.RunID execution <> "" ->
  validateWorkflowExecutionInfo E c ctx domainID execution w = (r, w') ->
  w' = w.
Proof.
  intros Hr; unfold validateWorkflowExecutionInfo.
  apply String.eqb_neq in Hr; rewrite Hr.
  destruct (String.eqb (types.WorkflowID execution) "");
    [intros [= _ <-]; reflexivity|].
  destruct (negb _); intros [= _ <-]; reflexivity.
Qed.

Lemma GetOrCreate_given (E : Env) (c : Cache) (ctx : GoContext)
    (domainID : string) (execution : types.WorkflowExecution)
    (callerScope : metrics.scope) (w w' : World) res :
  types.RunID execution <> "" ->
  GetOrCreateWorkflowExecution E c ctx domainID execution callerScope w
  = (res, w') ->
  actsOn domainID execution (newEvents w w')
  /\ (mapKeys (newEvents w w') <> [] ->
      uuid_Parse E (types.RunID execution) = true).
Proof.
  intros Hrid.
  cbv beta iota zeta delta
    [GetOrCreateWorkflowExecution bind ret IncCounter emit withTimer].
  destruct (validateWorkflowExecutionInfo _ _ _ _ _ _)
    as [[ex' verr] wv] eqn:Hv.
  pose proof (validate_given_world _ _ _ _ _ _ _ _ Hrid Hv) as ->.
  destruct verr as [e|].
  - intros [= _ <-].
    erewrite newEvents_app
      by (cbn [trace set_trace]; rewrite <- !app_assoc; reflexivity).
    split; [acts_on|intros H; exfalso; apply H; reflexivity].
  - apply validate_given in Hv as (-> & _ & Hu); [|exact Hrid].
    destruct (getOrCreateWorkflowExecutionInternal _ _ _ _ _ _ _ _ _)
      as [res1 w1] eqn:Hi.
    destruct (internal_actsOn _ _ _ _ _ _ _ _ _ _ _ Hi)
      as (t & Ht & Hacts & _).
    cbn [trace set_trace] in Ht.
    intros [= _ <-]; split; [|intros _; exact Hu].
    erewrite newEvents_app
      by (cbn [trace set_trace]; rewrite Ht, <- !app_assoc; reflexivity).
    apply (actsOn_app _ _ [_; _]); [acts_on|].
    apply actsOn_app; [exact Hacts|acts_on].
Qed.

Lemma GetAndCreate_given (E : Env) (c : Cache) (ctx : GoContext)
    (domainID : string) (execution : types.WorkflowExecution)
    (w w' : World) res :
  types.RunID execution <> "" ->
  GetAndCreateWorkflowExecution E c ctx domainID execution w = (res, w') ->
  actsOn domainID execution (newEvents w w')
  /\ (mapKeys (newEvents w w') <> [] ->
      uuid_Parse E (types.RunID execution) = true).
Proof.
  intros Hrid; run_facade.
  destruct (validateWorkflowExecutionInfo _ _ _ _ _ _)
    as [[ex' verr] wv] eqn:Hv.
  pose proof (validate_given_world _ _ _ _ _ _ _ _ Hrid Hv) as ->.
  destruct verr as [e|].
  - intros [= _ <-]; trace_of0.
    split; [acts_on|intros H; exfalso; apply H; reflexivity].
  - apply validate_given in Hv as (-> & _ & Hu); [|exact Hrid].
    destruct (cache.Get _ _ _ _) as [l1 [x1|]];
      [destruct (Lock _ _ _ _) as [e|]|];
      intros [= _ <-]; trace_of0; (split; [acts_on|intros _; exact Hu]).
Qed.

Lemma sampleAcquire_result :
  GetOrCreateCurrentWorkflowExecution sampleEnv sampleCache Background "d1"
    "w1" emptyWorld
  = (Some 0, Some sampleHandle, None, sampleAcquiredWorld).
Proof. vm_compute; reflexivity. Qed.

(** C1, as stated, fails: [GetOrCreateCurrentWorkflowExecution] on the
    empty cache succeeds without any call to storage, and the key it stores
    in the map has the empty run id. *)
Lemma C1_counterexample :
  GetOrCreateCurrentWorkflowExecution sampleEnv sampleCache Background "d1"
    "w1" emptyWorld
  = (Some 0, Some sampleHandle, None, sampleAcquiredWorld)
  /\ storageLog (trace sampleAcquiredWorld) = []
  /\ cache.keys (entries sampleAcquiredWorld)
     = [definition.NewWorkflowIdentifier "d1" "w1" ""]
  /\ ~ Forall (fun k => definition.RunID k <> "")
         (cache.keys (entries sampleAcquiredWorld)).
Proof.
  split; [exact sampleAcquire_result|].
  split; [vm_compute; reflexivity|].
  assert (Hk : cache.keys (entries sampleAcquiredWorld)
               = [definition.NewWorkflowIdentifier "d1" "w1" ""])
    by (vm_compute; reflexivity).
  split; [exact Hk|].
  rewrite Hk; intros H; inversion H as [|? ? Hne _]; subst.
  apply Hne; reflexivity.
Qed.

(** C1, amended.  [GetOrCreateCurrentWorkflowExecution] resolves nothing:
    all its map operations are on the key with the empty run id, and the
    [Context] it constructs is for the execution with the empty run id.
    [GetOrCreateWorkflowExecution] and [GetAndCreateWorkflowExecution] use
    the key of the caller's execution when its run id is not empty (and
    reach the map only when [uuid.Parse] accepts it); when it is empty (and
    the workflow id is set) they resolve the current run first and use the
    key with the run id of the response. *)
Theorem C1_keys_of_the_facade (E : Env) (c : Cache) (ctx : GoContext)
    (domainID : string) :
  (forall workflowID w w' res,
      GetOrCreateCurrentWorkflowExecution E c ctx domainID workflowID w
      = (res, w') ->
      actsOn domainID (types.mkWorkflowExecution workflowID "")
        (newEvents w w')
      /\ (disabled c = false -> mapKeys (newEvents w w') <> []))
  /\ (forall execution,
        types.RunID execution <> "" ->
        (forall callerScope w w' res,
            GetOrCreateWorkflowExecution E c ctx domainID execution
              callerScope w = (res, w') ->
            actsOn domainID execution (newEvents w w')
            /\ (mapKeys (newEvents w w') <> [] ->
                uuid_Parse E (types.RunID execution) = true))
        /\ (forall w w' res,
              GetAndCreateWorkflowExecution E c ctx domainID execution w
              = (res, w') ->
              actsOn domainID execution (newEvents w w')
              /\ (mapKeys (newEvents w w') <> [] ->
                  uuid_Parse E (types.RunID execution) = true)))
  /\ (forall execution,
        types.WorkflowID execution <> "" ->
        types.RunID execution = "" ->
        (forall callerScope w w' x f err,
            GetOrCreateWorkflowExecution E c ctx domainID execution
              callerScope w = (x, f, err, w') ->
            resolvesThenActs E c domainID execution (newEvents w w') err)
        /\ (forall w w' cached fresh f hit err,
              GetAndCreateWorkflowExecution E c ctx domainID execution w
              = (cached, fresh, f, hit, err, w') ->
              resolvesThenActs E c domainID execution (newEvents w w')
                err)).
Proof.
  split; [|split].
  - intros; eapply GetOrCreateCurrent_actsOn; eauto.
  - intros execution Hrid; split; intros.
    + eapply GetOrCreate_given; eauto.
    + eapply GetAndCreate_given; eauto.
  - intros execution Hwid Hrid; split; intros.
    + eapply GetOrCreate_resolves; eauto.
    + eapply GetAndCreate_resolves; eauto.
Qed.

Lemma C1_witness :
  disabled sampleCache = false
  /\ actsOn "d1" (types.mkWorkflowExecution "w1" "")
       (newEvents emptyWorld sampleAcquiredWorld)
  /\ mapKeys (newEvents emptyWorld sampleAcquiredWorld) <> [].
Proof.
  split; [reflexivity|].
  destruct (proj1 (C1_keys_of_the_facade sampleEnv sampleCache Background
                     "d1") _ _ _ _ sampleAcquire_result) as [Hacts Hkeys].
  split; [exact Hacts|exact (Hkeys eq_refl)].
Defined.

(** ** The model at work on small inputs *)

(** A hit pins and touches; an expired unpinned entry is dropped on
    encounter; an expired pinned entry stays but is not a hit. *)
Example Get_hit :
  cache.Get twoEntries 50 keyA
    [cache.mkEntry keyB 1 0 10; cache.mkEntry keyA 0 0 20]
  = ([cache.mkEntry keyA 0 1 20; cache.mkEntry keyB 1 0 10], Some 0).
Proof. reflexivity. Qed.

Example Get_expired_unpinned :
  cache.Get twoEntries 121 keyA
    [cache.mkEntry keyB 1 0 100; cache.mkEntry keyA 0 0 20]
  = ([cache.mkEntry keyB 1 0 100], None).
Proof. reflexivity. Qed.

Example Get_expired_pinned :
  cache.Get twoEntries 121 keyA
    [cache.mkEntry keyB 1 0 100; cache.mkEntry keyA 0 2 20]
  = ([cache.mkEntry keyB 1 0 100; cache.mkEntry keyA 0 2 20], None).
Proof. reflexivity. Qed.

(** At capacity, inserting evicts the least recently used unpinned entry,
    and fails when every entry is pinned. *)
Example PutIfNotExist_evicts :
  cache.PutIfNotExist twoEntries 50 keyC 2
    [cache.mkEntry keyB 1 0 10; cache.mkEntry keyA 0 0 20]
  = ([cache.mkEntry keyC 2 1 50; cache.mkEntry keyB 1 0 10], inl 2).
Proof. reflexivity. Qed.

Example PutIfNotExist_full :
  cache.PutIfNotExist twoEntries 50 keyC 2
    [cache.mkEntry keyB 1 1 10; cache.mkEntry keyA 0 3 20]
  = ([cache.mkEntry keyB 1 1 10; cache.mkEntry keyA 0 3 20],
     inr types.CapacityExhausted).
Proof. reflexivity. Qed.

Example PutIfNotExist_existing :
  cache.PutIfNotExist twoEntries 50 keyA 2
    [cache.mkEntry keyB 1 0 10; cache.mkEntry keyA 0 1 20]
  = ([cache.mkEntry keyA 0 2 20; cache.mkEntry keyB 1 0 10], inl 0).
Proof. reflexivity. Qed.

(** The last release of an expired entry removes it. *)
Example Release_expired :
  cache.Release twoEntries 121 keyA
    [cache.mkEntry keyB 1 0 100; cache.mkEntry keyA 0 1 20]
  = [cache.mkEntry keyB 1 0 100].
Proof. reflexivity. Qed.

(** Cold acquire: on the empty cache one [Context] is constructed and
    pinned once; after a release without error one entry is resident with
    pin count 0 and [Clear] was never called. *)
Example cold_acquire :
  filter (fun ev => match ev with EvNewContext _ _ _ => true | _ => false end)
    (trace sampleCachedWorld)
  = [EvNewContext 0 "d1" sampleExecution]
  /\ cache.pins sampleKey (entries sampleCachedWorld) = 1
  /\ entries sampleReleasedWorld = [cache.mkEntry sampleKey 0 0 10]
  /\ protocol (trace sampleReleasedWorld)
     = [EvUnlock 0; EvRelease sampleKey].
Proof. vm_compute; auto. Qed.

(** Current run resolution happens in [GetOrCreateWorkflowExecution] with
    an empty run id: storage is asked three times and the entry is stored
    under the run id of the response. *)
Example current_run_resolution :
  cache.keys (entries sampleResolvedWorld)
  = [definition.NewWorkflowIdentifier "d1" "w1" "r9"]
  /\ storageLog (trace sampleResolvedWorld)
     = retryLog (persistence.mkGetCurrentExecutionRequest "d1" "w1")
         [types.OtherError 1; types.OtherError 1]
         (inl (persistence.mkGetCurrentExecutionResponse "r9")).
Proof. vm_compute; auto. Qed.

(** * Further properties of the facade *)

(** ** The paths of the internal acquisition *)

Lemma internal_run (E : Env) (c : Cache) (ctx : GoContext)
    (domainID : string) (execution : types.WorkflowExecution)
    (scope callerScope : metrics.scope) (force : bool) (w w' : World) res :
  getOrCreateWorkflowExecutionInternal E c ctx domainID execution scope force
    callerScope w = (res, w') ->
  exists t,
    trace w' = trace w ++ t
    /\ internalRun E c domainID execution scope force callerScope t res.
Proof.
  split_internal Hd HG HP HL.
  all: eexists; split; [trace_norm; reflexivity|].
  - apply RunBypass; exact Hd.
  - apply RunHitLockFailed; exact Hd.
  - apply RunHit; [exact Hd|repeat split].
  - apply RunMissLockFailed; exact Hd.
  - apply RunMiss; [exact Hd|repeat split].
  - apply RunRefused; exact Hd.
Qed.

(** ** The paths of validation *)

Section ResolutionEvents.

Variable E : Env.
Variable c : Cache.
Variable ctx : GoContext.
Variable request : persistence.GetCurrentExecutionRequest.

Lemma retryDo_events (n : nat) s w r w' :
  retryDo E n c ctx (storageOp E c ctx request) s w = (r, w') ->
  exists es final,
    trace w'
    = trace w ++ map (EvGetCurrentExecution request) (map inr es ++ [final])
    /\ transient E es
    /\ length es <= n
    /\ r = outcome final.
Proof.
  revert s w; induction n as [|n IH]; intros s w; cbn [retryDo];
    unfold bind at 1;
    destruct (storageOp E c ctx request s w) as [[s1 err] w1] eqn:H1;
    apply storageOp_run in H1 as (final & Hout & Ht1).
  - assert (Hdone : (s1, err, w1) = (r, w') ->
                    exists es final,
                      trace w'
                      = trace w
                        ++ map (EvGetCurrentExecution request)
                             (map inr es ++ [final])
                      /\ transient E es /\ length es <= 0
                      /\ r = outcome final).
    { intros [= <- <-]; exists [], final; repeat split; auto.
      constructor. }
    destruct err as [e|]; [destruct (negb _)|]; exact Hdone.
  - assert (Hdone : (s1, err, w1) = (r, w') ->
                    exists es final,
                      trace w'
                      = trace w
                        ++ map (EvGetCurrentExecution request)
                             (map inr es ++ [final])
                      /\ transient E es /\ length es <= S n
                      /\ r = outcome final).
    { intros [= <- <-]; exists [], final; repeat split; auto.
      - constructor.
      - cbn; lia. }
    destruct err as [e|]; [|exact Hdone].
    destruct (negb (IsTransientError E e)) eqn:Htr; [exact Hdone|].
    apply negb_false_iff in Htr.
    unfold timeNow, bind, yield.
    destruct (isDone ctx _).
    + unfold ret; intros [= <- <-].
      exists [], final; repeat split; auto.
      * rewrite envStep_trace; exact Ht1.
      * constructor.
      * cbn; lia.
    + intros Hrec; apply IH in Hrec
        as (es & final' & Ht & Htrans & Hlen & Hr).
      destruct final as [response|e0]; [discriminate|].
      injection Hout as -> <-.
      exists (e :: es), final'; repeat split; auto.
      * rewrite Ht, envStep_trace, Ht1, <- app_assoc; reflexivity.
      * constructor; assumption.
      * cbn; lia.
Qed.

Lemma getCurrentExecutionWithRetry_events (w w' : World) r :
  getCurrentExecutionWithRetry E c ctx request w = (r, w') ->
  exists es final,
    trace w' = trace w ++ currentExecutionEvents request es final
    /\ transient E es
    /\ length es <= MaxRetries E
    /\ r = outcome final.
Proof.
  cbv beta iota zeta delta
    [getCurrentExecutionWithRetry withTimer IncCounter bind emit ret].
  destruct (retryDo E _ c ctx _ None _) as [[response err] w1] eqn:Hr.
  destruct (retryDo_events _ _ _ _ _ Hr)
    as (es & final & Ht & Htr & Hlen & Hout).
  cbn [trace set_trace] in Ht.
  destruct final as [resp|e]; injection Hout as -> ->; intros [= <- <-].
  - exists es, (inl resp); repeat split; auto.
    cbn [trace set_trace]; rewrite Ht; unfold currentExecutionEvents.
    rewrite <- !app_assoc; reflexivity.
  - exists es, (inr e); repeat split; auto.
    cbn [trace set_trace]; rewrite Ht; unfold currentExecutionEvents.
    rewrite <- !app_assoc; reflexivity.
Qed.

End ResolutionEvents.

Lemma validate_run (E : Env) (c : Cache) (ctx : GoContext)
    (domainID : string) (execution : types.WorkflowExecution)
    (w w' : World) r :
  validateWorkflowExecutionInfo E c ctx domainID execution w = (r, w') ->
  exists tv,
    trace w' = trace w ++ tv
    /\ validationRun E domainID execution tv r
    /\ (types.RunID execution <> "" -> w' = w).
Proof.
  unfold validateWorkflowExecutionInfo.
  destruct (String.eqb (types.WorkflowID execution) "") eqn:Hw.
  - apply String.eqb_eq in Hw; intros [= <- <-].
    exists []; rewrite app_nil_r; repeat split; auto.
    apply ValidNoWorkflowID; exact Hw.
  - apply String.eqb_neq in Hw.
    destruct (String.eqb (types.RunID execution) "") eqn:Hr.
    + apply String.eqb_eq in Hr; unfold bind.
      destruct (getCurrentExecutionWithRetry _ _ _ _ _)
        as [[response err] w1] eqn:Hg.
      apply getCurrentExecutionWithRetry_events in Hg
        as (es & final & Ht & Htr & Hlen & Hout).
      destruct final as [resp|e]; injection Hout as -> ->; unfold ret;
        intros [= <- <-]; eexists; (split; [exact Ht|split]);
        try (intros Hne; congruence).
      * apply ValidResolved; assumption.
      * apply ValidUnresolved; assumption.
    + apply String.eqb_neq in Hr.
      destruct (uuid_Parse E (types.RunID execution)) eqn:Hu; cbn [negb];
        intros [= <- <-]; exists []; rewrite app_nil_r; repeat split; auto.
      * apply ValidGiven; assumption.
      * apply ValidBadRunID; assumption.
Qed.

Lemma currentExecutionEvents_scoped
    (request : persistence.GetCurrentExecutionRequest)
    (es : list types.error)
    (final : persistence.GetCurrentExecutionResponse + types.error) :
  forallb isCurrentExecutionEvent (currentExecutionEvents request es final)
  = true.
Proof.
  apply forallb_forall; intros ev Hin.
  unfold currentExecutionEvents in Hin; cbn [app] in Hin.
  destruct Hin as [<-|[<-|Hin]]; [reflexivity|reflexivity|].
  apply in_app_or in Hin as [Hin|Hin].
  - apply in_map_iff in Hin as (a & <- & _); reflexivity.
  - destruct final; cbn in Hin; intuition (subst; reflexivity).
Qed.

Lemma validationRun_scoped (E : Env) (domainID : string)
    (execution : types.WorkflowExecution) tv r :
  validationRun E domainID execution tv r ->
  forallb isCurrentExecutionEvent tv = true.
Proof.
  intros H; destruct H; try reflexivity;
    apply currentExecutionEvents_scoped.
Qed.

(** ** The paths of the entry points *)

Lemma GetOrCreateCurrent_run (E : Env) (c : Cache) (ctx : GoContext)
    (domainID workflowID : string) (w w' : World) res :
  GetOrCreateCurrentWorkflowExecution E c ctx domainID workflowID w
  = (res, w') ->
  exists ti,
    newEvents w w'
    = opening metrics.HistoryCacheGetOrCreateCurrentScope ++ ti
      ++ closing metrics.HistoryCacheGetOrCreateCurrentScope
    /\ internalRun E c domainID (types.mkWorkflowExecution workflowID "")
         metrics.HistoryCacheGetOrCreateCurrentScope true
         metrics.HistoryCacheGetOrCreateCurrentScope ti res.
Proof.
  rewrite GetOrCreateCurrent_internal; cbv zeta.
  destruct (getOrCreateWorkflowExecutionInternal _ _ _ _ _ _ _ _ _)
    as [res1 w1] eqn:Hi.
  apply internal_run in Hi as (ti & Ht & Hrun).
  cbn [trace set_trace] in Ht.
  intros [= <- <-]; exists ti; split; [|exact Hrun].
  apply newEvents_app; cbn [trace set_trace]; rewrite Ht.
  unfold opening, closing; rewrite <- !app_assoc; reflexivity.
Qed.

Lemma GetOrCreate_run (E : Env) (c : Cache) (ctx : GoContext)
    (domainID : string) (execution : types.WorkflowExecution)
    (callerScope : metrics.scope) (w w' : World) res :
  GetOrCreateWorkflowExecution E c ctx domainID execution callerScope w
  = (res, w') ->
  exists tv execution' verr tail,
    newEvents w w'
    = opening metrics.HistoryCacheGetOrCreateScope ++ tv ++ tail
      ++ closing metrics.HistoryCacheGetOrCreateScope
    /\ validationRun E domainID execution tv (execution', verr)
    /\ match verr with
       | Some e =>
           res = (None, None, Some e)
           /\ tail = [EvIncCounter metrics.HistoryCacheGetOrCreateScope
                        metrics.CacheFailures]
       | None =>
           internalRun E c domainID execution'
             metrics.HistoryCacheGetOrCreateScope false callerScope tail res
       end.
Proof.
  cbv beta iota zeta delta
    [GetOrCreateWorkflowExecution bind ret IncCounter emit withTimer].
  destruct (validateWorkflowExecutionInfo _ _ _ _ _ _)
    as [[ex' verr] wv] eqn:Hv.
  apply validate_run in Hv as (tv & Ht & Hval & _).
  cbn [trace set_trace] in Ht.
  destruct verr as [e|].
  - intros [= <- <-]; exists tv, ex', (Some e); eexists.
    split; [|split; [exact Hval|split; reflexivity]].
    apply newEvents_app; cbn [trace set_trace]; rewrite Ht.
    unfold opening, closing; rewrite <- !app_assoc; reflexivity.
  - destruct (getOrCreateWorkflowExecutionInternal _ _ _ _ _ _ _ _ _)
      as [res1 w1] eqn:Hi.
    apply internal_run in Hi as (ti & Hti & Hrun).
    intros [= <- <-]; exists tv, ex', None, ti.
    split; [|split; [exact Hval|exact Hrun]].
    apply newEvents_app; cbn [trace set_trace]; rewrite Hti, Ht.
    unfold opening, closing; rewrite <- !app_assoc; reflexivity.
Qed.

Lemma GetAndCreate_run (E : Env) (c : Cache) (ctx : GoContext)
    (domainID : string) (execution : types.WorkflowExecution)
    (w w' : World) res :
  GetAndCreateWorkflowExecution E c ctx domainID execution w = (res, w') ->
  exists tv execution' verr tail,
    newEvents w w'
    = opening metrics.HistoryCacheGetAndCreateScope ++ tv ++ tail
      ++ closing metrics.HistoryCacheGetAndCreateScope
    /\ validationRun E domainID execution tv (execution', verr)
    /\ match verr with
       | Some e =>
           res = (None, None, None, false, Some e)
           /\ tail = [EvIncCounter metrics.HistoryCacheGetAndCreateScope
                        metrics.CacheFailures]
       | None => getAndCreateRun domainID execution' tail res
       end.
Proof.
  run_facade.
  destruct (validateWorkflowExecutionInfo _ _ _ _ _ _)
    as [[ex' verr] wv] eqn:Hv.
  apply validate_run in Hv as (tv & Ht & Hval & _).
  cbn [trace set_trace] in Ht.
  destruct verr as [e|];
    [|destruct (cache.Get _ _ _ _) as [l1 [x1|]];
      [destruct (Lock _ _ _ _) as [e|]|]];
    intros [= <- <-]; trace_of Ht; exists tv, ex'.
  - exists (Some e),
      [EvIncCounter metrics.HistoryCacheGetAndCreateScope
         metrics.CacheFailures].
    split; [reflexivity|split; [exact Hval|split; reflexivity]].
  - exists None,
      [EvGet (keyOf domainID ex') (Some x1); EvLock x1 (Some e);
       EvRelease (keyOf domainID ex');
       EvIncCounter metrics.HistoryCacheGetAndCreateScope
         metrics.CacheFailures;
       EvIncCounter metrics.HistoryCacheGetAndCreateScope
         metrics.AcquireLockFailedCounter].
    split; [unfold opening, closing; cbn [app]; reflexivity|].
    split; [exact Hval|apply GetAndCreateLockFailed].
  - eexists None,
      [EvGet (keyOf domainID ex') (Some x1); EvLock x1 None;
       EvNewContext _ domainID ex'].
    split; [unfold opening, closing; cbn [app]; reflexivity|].
    split; [exact Hval|apply GetAndCreateHit; repeat split].
  - eexists None,
      [EvGet (keyOf domainID ex') None;
       EvIncCounter metrics.HistoryCacheGetAndCreateScope
         metrics.CacheMissCounter;
       EvNewContext _ domainID ex'].
    split; [unfold opening, closing; cbn [app]; reflexivity|].
    split; [exact Hval|apply GetAndCreateMiss].
Qed.

(** ** Counting and filtering events *)

Lemma countCounter_app (s : metrics.scope) (m : metrics.metric)
    (t1 t2 : list event) :
  countCounter s m (t1 ++ t2) = countCounter s m t1 + countCounter s m t2.
Proof. unfold countCounter; rewrite filter_app, length_app; reflexivity. Qed.

Lemma isCounter_same (s : metrics.scope) (m : metrics.metric) :
  isCounter s m (EvIncCounter s m) = true.
Proof.
  cbn; destruct (scope_eq_dec s s); [|congruence].
  destruct (metric_eq_dec m m); [reflexivity|congruence].
Qed.

Lemma isCounter_other (s s' : metrics.scope) (m m' : metrics.metric) :
  s <> s' \/ m <> m' -> isCounter s m (EvIncCounter s' m') = false.
Proof.
  intros H; cbn; destruct (scope_eq_dec s s'); [|reflexivity].
  destruct (metric_eq_dec m m'); [|reflexivity].
  destruct H; congruence.
Qed.

(** The events of resolution hold nothing a filter on other events
    keeps. *)
Lemma filter_scoped (p : event -> bool) (tv : list event) :
  (forall ev, isCurrentExecutionEvent ev = true -> p ev = false) ->
  forallb isCurrentExecutionEvent tv = true -> filter p tv = [].
Proof.
  intros Hp; induction tv as [|ev tv IH]; cbn; [reflexivity|].
  intros H; apply andb_true_iff in H as [Hev Htv].
  rewrite (Hp ev Hev); auto.
Qed.

Lemma countCounter_scoped (s : metrics.scope) (m : metrics.metric)
    (tv : list event) :
  s <> metrics.HistoryCacheGetCurrentExecutionScope ->
  forallb isCurrentExecutionEvent tv = true -> countCounter s m tv = 0.
Proof.
  intros Hs Htv; unfold countCounter; rewrite filter_scoped; auto.
  intros [] Hev; try reflexivity.
  apply isCounter_other; left; intros ->.
  destruct s0; try discriminate; congruence.
Qed.

Lemma isLock_scoped (ev : event) :
  isCurrentExecutionEvent ev = true -> isLock ev = false.
Proof. destruct ev; try reflexivity; discriminate. Qed.

Lemma isProtocol_scoped (ev : event) :
  isCurrentExecutionEvent ev = true -> isProtocol ev = false.
Proof. destruct ev; try reflexivity; discriminate. Qed.

Lemma isNewContext_scoped (ev : event) :
  isCurrentExecutionEvent ev = true -> isNewContext ev = false.
Proof. destruct ev; try reflexivity; discriminate. Qed.

Lemma isMapOrNew_scoped (ev : event) :
  isCurrentExecutionEvent ev = true -> isMapOrNew ev = false.
Proof. destruct ev; try reflexivity; discriminate. Qed.

(** Evaluate a count over the explicit events of a path. *)
Ltac count_events :=
  unfold countCounter, lockEvents, opening, closing;
  cbn [app filter];
  rewrite ?isCounter_same;
  repeat (rewrite isCounter_other
            by (first [right; discriminate | left; discriminate]));
  cbn [isCounter filter length app]; try reflexivity.

(** ** Results are well formed *)

Lemma internalRun_wellFormed (E : Env) (c : Cache) (domainID : string)
    (execution : types.WorkflowExecution) (scope callerScope : metrics.scope)
    (force : bool) t res :
  internalRun E c domainID execution scope force callerScope t res ->
  wellFormed res.
Proof.
  intros H; destruct H; unfold wellFormed; eauto.
Qed.

Lemma GetOrCreate_wellFormed (E : Env) (c : Cache) (ctx : GoContext)
    (domainID : string) (execution : types.WorkflowExecution)
    (callerScope : metrics.scope) (w : World) :
  wellFormed
    (fst (GetOrCreateWorkflowExecution E c ctx domainID execution
            callerScope w)).
Proof.
  destruct (GetOrCreateWorkflowExecution E c ctx domainID execution
              callerScope w) as [res w'] eqn:Hrun.
  apply GetOrCreate_run in Hrun as (tv & ex' & verr & tail & _ & _ & H).
  destruct verr as [e|]; cbn [fst].
  - destruct H as [-> _]; right; eauto.
  - eapply internalRun_wellFormed; eauto.
Qed.

(** X1. Every entry point returns either a [Context] together with a
    release function and a nil error, or an error alone with a nil
    [Context] and a nil release function.  [GetAndCreateWorkflowExecution]
    returns, with a nil error, a fresh [Context], a release function and
    [hit] telling whether the cached [Context] is there; with an error,
    nothing else. *)
Theorem X1_results_well_formed (E : Env) (c : Cache) (ctx : GoContext)
    (domainID : string) (execution : types.WorkflowExecution)
    (w : World) :
  (forall scope callerScope force,
      wellFormed
        (fst (getOrCreateWorkflowExecutionInternal E c ctx domainID
                execution scope force callerScope w)))
  /\ (forall workflowID,
        wellFormed
          (fst (GetOrCreateCurrentWorkflowExecution E c ctx domainID
                  workflowID w)))
  /\ (forall callerScope,
        wellFormed
          (fst (GetOrCreateWorkflowExecution E c ctx domainID execution
                  callerScope w)))
  /\ wellFormed
       (fst (GetOrCreateWorkflowExecutionForBackground E c domainID
               execution w))
  /\ (forall timeout callerScope,
        wellFormed
          (fst (GetOrCreateWorkflowExecutionWithTimeout E c domainID
                  execution timeout callerScope w)))
  /\ ((exists cached y f,
         fst (GetAndCreateWorkflowExecution E c ctx domainID execution w)
         = (cached, Some y, Some f, isSome cached, None))
      \/ (exists e,
            fst (GetAndCreateWorkflowExecution E c ctx domainID execution w)
            = (None, None, None, false, Some e))).
Proof.
  split; [|split; [|split; [|split; [|split]]]].
  - intros scope callerScope force.
    destruct (getOrCreateWorkflowExecutionInternal _ _ _ _ _ _ _ _ _)
      as [res w'] eqn:Hrun.
    apply internal_run in Hrun as (t & _ & H).
    eapply internalRun_wellFormed; eauto.
  - intros workflowID.
    destruct (GetOrCreateCurrentWorkflowExecution _ _ _ _ _ _)
      as [res w'] eqn:Hrun.
    apply GetOrCreateCurrent_run in Hrun as (t & _ & H).
    eapply internalRun_wellFormed; eauto.
  - intros; apply GetOrCreate_wellFormed.
  - apply GetOrCreate_wellFormed.
  - intros timeout callerScope.
    unfold GetOrCreateWorkflowExecutionWithTimeout, timeNow, bind, yield.
    apply GetOrCreate_wellFormed.
  - destruct (GetAndCreateWorkflowExecution _ _ _ _ _ _)
      as [res w'] eqn:Hrun.
    apply GetAndCreate_run in Hrun as (tv & ex' & verr & tail & _ & _ & H).
    destruct verr as [e|]; cbn [fst].
    + destruct H as [-> _]; right; eauto.
    + destruct H.
      * left; exists (Some x), y, (releaseClosure r); reflexivity.
      * right; eauto.
      * left; exists None, y, NoopReleaseFn; reflexivity.
Qed.

(** ** Metrics on every path *)

Lemma internalRun_failures (E : Env) (c : Cache) (domainID : string)
    (execution : types.WorkflowExecution) (scope callerScope : metrics.scope)
    (force : bool) t res :
  internalRun E c domainID execution scope force callerScope t res ->
  countCounter scope metrics.CacheFailures t
  = (if isSome (snd res) then 1 else 0)
  /\ countCounter scope metrics.CacheRequests t = 0.
Proof.
  intros H; destruct H; split; count_events.
Qed.

Lemma getAndCreateRun_failures (domainID : string)
    (execution : types.WorkflowExecution) t res :
  getAndCreateRun domainID execution t res ->
  countCounter metrics.HistoryCacheGetAndCreateScope metrics.CacheFailures t
  = (if isSome (snd res) then 1 else 0)
  /\ countCounter metrics.HistoryCacheGetAndCreateScope
       metrics.CacheRequests t = 0.
Proof.
  intros H; destruct H; split; count_events.
Qed.

(** X2. On every path of [GetOrCreateCurrentWorkflowExecution],
    [GetOrCreateWorkflowExecution] and [GetAndCreateWorkflowExecution], the
    failure counter of the entry point's own scope is incremented exactly
    once when the call returns an error and never when it succeeds. *)
Theorem X2_failure_counter_iff_error (E : Env) (c : Cache)
    (ctx : GoContext) (domainID : string) (w : World) :
  (forall workflowID,
      countCounter metrics.HistoryCacheGetOrCreateCurrentScope
        metrics.CacheFailures
        (newEvents w
           (snd (GetOrCreateCurrentWorkflowExecution E c ctx domainID
                   workflowID w)))
      = if isSome
             (snd (fst (GetOrCreateCurrentWorkflowExecution E c ctx domainID
                          workflowID w)))
        then 1 else 0)
  /\ (forall execution callerScope,
        countCounter metrics.HistoryCacheGetOrCreateScope
          metrics.CacheFailures
          (newEvents w
             (snd (GetOrCreateWorkflowExecution E c ctx domainID execution
                     callerScope w)))
        = if isSome
               (snd (fst (GetOrCreateWorkflowExecution E c ctx domainID
                            execution callerScope w)))
          then 1 else 0)
  /\ (forall execution,
        countCounter metrics.HistoryCacheGetAndCreateScope
          metrics.CacheFailures
          (newEvents w
             (snd (GetAndCreateWorkflowExecution E c ctx domainID execution
                     w)))
        = if isSome
               (snd (fst (GetAndCreateWorkflowExecution E c ctx domainID
                            execution w)))
          then 1 else 0).
Proof.
  split; [|split].
  - intros workflowID.
    destruct (GetOrCreateCurrentWorkflowExecution _ _ _ _ _ _)
      as [res w'] eqn:Hrun; cbn [fst snd].
    apply GetOrCreateCurrent_run in Hrun as (t & -> & H).
    apply internalRun_failures in H as [H _].
    cbn [fst snd]; rewrite !countCounter_app, H; count_events.
    destruct (snd res); reflexivity.
  - intros execution callerScope.
    destruct (GetOrCreateWorkflowExecution _ _ _ _ _ _ _)
      as [res w'] eqn:Hrun; cbn [fst snd].
    apply GetOrCreate_run in Hrun
      as (tv & ex' & verr & tail & -> & Hval & H).
    apply validationRun_scoped in Hval.
    cbn [fst snd]; rewrite !countCounter_app.
    rewrite (countCounter_scoped _ _ tv) by (auto; discriminate).
    destruct verr as [e|].
    + destruct H as [-> ->]; count_events.
    + apply internalRun_failures in H as [H _]; rewrite H; count_events.
      destruct (snd res); reflexivity.
  - intros execution.
    destruct (GetAndCreateWorkflowExecution _ _ _ _ _ _)
      as [res w'] eqn:Hrun; cbn [fst snd].
    apply GetAndCreate_run in Hrun
      as (tv & ex' & verr & tail & -> & Hval & H).
    apply validationRun_scoped in Hval.
    cbn [fst snd]; rewrite !countCounter_app.
    rewrite (countCounter_scoped _ _ tv) by (auto; discriminate).
    destruct verr as [e|].
    + destruct H as [-> ->]; count_events.
    + apply getAndCreateRun_failures in H as [H _]; rewrite H; count_events.
      destruct (snd res); reflexivity.
Qed.

(** X3. Every call of an entry point, on every path, first increments the
    request counter of its scope, exactly once, and starts the latency
    timer of that scope; the stop of that timer is the last thing the call
    does. *)
Theorem X3_requests_and_latency (E : Env) (c : Cache) (ctx : GoContext)
    (domainID : string) (w : World) :
  (forall workflowID,
      exists body,
        newEvents w
          (snd (GetOrCreateCurrentWorkflowExecution E c ctx domainID
                  workflowID w))
        = opening metrics.HistoryCacheGetOrCreateCurrentScope ++ body
          ++ closing metrics.HistoryCacheGetOrCreateCurrentScope
        /\ countCounter metrics.HistoryCacheGetOrCreateCurrentScope
             metrics.CacheRequests body = 0)
  /\ (forall execution callerScope,
        exists body,
          newEvents w
            (snd (GetOrCreateWorkflowExecution E c ctx domainID execution
                    callerScope w))
          = opening metrics.HistoryCacheGetOrCreateScope ++ body
            ++ closing metrics.HistoryCacheGetOrCreateScope
          /\ countCounter metrics.HistoryCacheGetOrCreateScope
               metrics.CacheRequests body = 0)
  /\ (forall execution,
        exists body,
          newEvents w
            (snd (GetAndCreateWorkflowExecution E c ctx domainID execution
                    w))
          = opening metrics.HistoryCacheGetAndCreateScope ++ body
            ++ closing metrics.HistoryCacheGetAndCreateScope
          /\ countCounter metrics.HistoryCacheGetAndCreateScope
               metrics.CacheRequests body = 0).
Proof.
  split; [|split].
  - intros workflowID.
    destruct (GetOrCreateCurrentWorkflowExecution _ _ _ _ _ _)
      as [res w'] eqn:Hrun; cbn [fst snd].
    apply GetOrCreateCurrent_run in Hrun as (t & -> & H).
    apply internalRun_failures in H as [_ H].
    exists t; split; [reflexivity|exact H].
  - intros execution callerScope.
    destruct (GetOrCreateWorkflowExecution _ _ _ _ _ _ _)
      as [res w'] eqn:Hrun; cbn [fst snd].
    apply GetOrCreate_run in Hrun
      as (tv & ex' & verr & tail & -> & Hval & H).
    apply validationRun_scoped in Hval.
    exists (tv ++ tail); split; [cbn [snd]; rewrite <- app_assoc;
                                 reflexivity|].
    rewrite countCounter_app.
    rewrite (countCounter_scoped _ _ tv) by (auto; discriminate).
    destruct verr as [e|].
    + destruct H as [_ ->]; count_events.
    + apply internalRun_failures in H as [_ H]; rewrite H; reflexivity.
  - intros execution.
    destruct (GetAndCreateWorkflowExecution _ _ _ _ _ _)
      as [res w'] eqn:Hrun; cbn [fst snd].
    apply GetAndCreate_run in Hrun
      as (tv & ex' & verr & tail & -> & Hval & H).
    apply validationRun_scoped in Hval.
    exists (tv ++ tail); split; [cbn [snd]; rewrite <- app_assoc;
                                 reflexivity|].
    rewrite countCounter_app.
    rewrite (countCounter_scoped _ _ tv) by (auto; discriminate).
    destruct verr as [e|].
    + destruct H as [_ ->]; count_events.
    + apply getAndCreateRun_failures in H as [_ H]; rewrite H; reflexivity.
Qed.

(** ** Lock discipline *)

Lemma disciplined_frame (a t b : list event) (err : option types.error) :
  filter isLock a = [] -> protocol a = [] ->
  filter isLock b = [] -> protocol b = [] ->
  disciplined t err -> disciplined (a ++ t ++ b) err.
Proof.
  unfold disciplined, protocol; intros Hla Hpa Hlb Hpb [Hl Hp].
  rewrite !filter_app, Hla, Hpa, Hlb, Hpb, !app_nil_r; cbn [app].
  split; [exact Hl|].
  destruct err as [e|]; [|exact Hp].
  destruct Hp as [Hp|(x & k & Hp & HL & Ho)]; [left; exact Hp|right].
  exists x, k; split; [exact Hp|split].
  - apply in_or_app; right; apply in_or_app; left; exact HL.
  - destruct Ho as [Ho|[y Ho]]; [left|right; exists y];
      apply in_or_app; right; apply in_or_app; left; exact Ho.
Qed.

Lemma internalRun_disciplined (E : Env) (c : Cache) (domainID : string)
    (execution : types.WorkflowExecution) (scope callerScope : metrics.scope)
    (force : bool) t res :
  internalRun E c domainID execution scope force callerScope t res ->
  disciplined t (snd res).
Proof.
  intros H; destruct H; unfold disciplined, lockEvents, protocol, obtained;
    cbn [snd app filter isLock isProtocol length];
    (split; [lia|]); try reflexivity.
  - right; exists x, (keyOf domainID execution); cbn; auto 10.
  - right; exists x, (keyOf domainID execution); cbn.
    split; [reflexivity|split; [auto 10|right; exists y; auto 10]].
  - left; reflexivity.
Qed.

Lemma getAndCreateRun_disciplined (domainID : string)
    (execution : types.WorkflowExecution) t res :
  getAndCreateRun domainID execution t res -> disciplined t (snd res).
Proof.
  intros H; destruct H; unfold disciplined, protocol, obtained;
    cbn [snd app filter isLock isProtocol length];
    (split; [lia|]); try reflexivity.
  right; exists x, (keyOf domainID execution); cbn; auto 10.
Qed.

Lemma validationRun_quiet (E : Env) (domainID : string)
    (execution : types.WorkflowExecution) (s : metrics.scope) tv r :
  validationRun E domainID execution tv r ->
  filter isLock (opening s ++ tv) = []
  /\ protocol (opening s ++ tv) = [].
Proof.
  intros H; apply validationRun_scoped in H.
  unfold protocol; rewrite !filter_app.
  rewrite (filter_scoped isLock tv isLock_scoped H).
  rewrite (filter_scoped isProtocol tv isProtocol_scoped H).
  split; reflexivity.
Qed.

(** X4. A call of an entry point locks at most once and never unlocks or
    clears a [Context].  When it succeeds it releases no pin; when it fails
    it releases at most one, and then the [Lock] of a [Context] it obtained
    from the map under that key failed with the error it returns. *)
Theorem X4_lock_discipline (E : Env) (c : Cache) (ctx : GoContext)
    (domainID : string) (w : World) :
  (forall workflowID,
      let run :=
        GetOrCreateCurrentWorkflowExecution E c ctx domainID workflowID w in
      disciplined (newEvents w (snd run)) (snd (fst run)))
  /\ (forall execution callerScope,
        let run :=
          GetOrCreateWorkflowExecution E c ctx domainID execution
            callerScope w in
        disciplined (newEvents w (snd run)) (snd (fst run)))
  /\ (forall execution,
        let run :=
          GetAndCreateWorkflowExecution E c ctx domainID execution w in
        disciplined (newEvents w (snd run)) (snd (fst run))).
Proof.
  split; [|split].
  - intros workflowID run; subst run.
    destruct (GetOrCreateCurrentWorkflowExecution _ _ _ _ _ _)
      as [res w'] eqn:Hrun; cbn [fst snd].
    apply GetOrCreateCurrent_run in Hrun as (t & -> & H).
    apply disciplined_frame; try reflexivity.
    eapply internalRun_disciplined; exact H.
  - intros execution callerScope run; subst run.
    destruct (GetOrCreateWorkflowExecution _ _ _ _ _ _ _)
      as [res w'] eqn:Hrun; cbn [fst snd].
    apply GetOrCreate_run in Hrun
      as (tv & ex' & verr & tail & -> & Hval & H).
    destruct (validationRun_quiet _ _ _ metrics.HistoryCacheGetOrCreateScope
                _ _ Hval) as [Hl Hp].
    rewrite (app_assoc (opening _) tv).
    apply disciplined_frame; try assumption; try reflexivity.
    destruct verr as [e|].
    + destruct H as [-> ->]; split; [cbn; lia|left; reflexivity].
    + eapply internalRun_disciplined; exact H.
  - intros execution run; subst run.
    destruct (GetAndCreateWorkflowExecution _ _ _ _ _ _)
      as [res w'] eqn:Hrun; cbn [fst snd].
    apply GetAndCreate_run in Hrun
      as (tv & ex' & verr & tail & -> & Hval & H).
    destruct (validationRun_quiet _ _ _ metrics.HistoryCacheGetAndCreateScope
                _ _ Hval) as [Hl Hp].
    rewrite (app_assoc (opening _) tv).
    apply disciplined_frame; try assumption; try reflexivity.
    destruct verr as [e|].
    + destruct H as [-> ->]; split; [cbn; lia|left; reflexivity].
    + eapply getAndCreateRun_disciplined; exact H.
Qed.

(** ** The paths of a miss, of a hit and of the bypass *)

Lemma In_scoped (tv : list event) (ev : event) :
  forallb isCurrentExecutionEvent tv = true -> In ev tv ->
  isCurrentExecutionEvent ev = true.
Proof. intros H Hin; exact (proj1 (forallb_forall _ _) H ev Hin). Qed.

(** An operation on the map or a [Context] among the events of an entry
    point is in the part after validation. *)
Lemma In_tail (s : metrics.scope) (tv tail : list event) (ev : event) :
  forallb isCurrentExecutionEvent tv = true ->
  isMapOrNew ev || isLock ev = true ->
  In ev (opening s ++ tv ++ tail ++ closing s) -> In ev tail.
Proof.
  intros Htv Hev Hin.
  apply in_app_or in Hin as [Hin|Hin].
  { cbn in Hin; destruct Hin as [<-|[<-|[]]]; discriminate. }
  apply in_app_or in Hin as [Hin|Hin].
  { apply (In_scoped _ _ Htv) in Hin.
    rewrite (isMapOrNew_scoped _ Hin), (isLock_scoped _ Hin) in Hev.
    discriminate. }
  apply in_app_or in Hin as [Hin|Hin]; [exact Hin|].
  cbn in Hin; destruct Hin as [<-|[]]; discriminate.
Qed.

Lemma isLockPhase_scoped (ev : event) :
  isCurrentExecutionEvent ev = true -> isLockPhase ev = false.
Proof.
  destruct ev as [| | | | | | | | |s m|s [d|] m|s [d|] m| |];
    try reflexivity; try discriminate;
    destruct s; try discriminate; destruct m; reflexivity.
Qed.

Lemma internalRun_refused (E : Env) (c : Cache) (domainID : string)
    (execution : types.WorkflowExecution) (scope callerScope : metrics.scope)
    (force : bool) t res k y err :
  internalRun E c domainID execution scope force callerScope t res ->
  In (EvPutIfNotExist k y (inr err)) t ->
  res = (None, None, Some err)
  /\ filter isMapOrNew t
     = [EvGet k None; EvNewContext y domainID execution;
        EvPutIfNotExist k y (inr err)]
  /\ filter isLockPhase t = []
  /\ protocol t = [].
Proof.
  intros H Hin; destruct H; unfold lockEvents in Hin; cbn in Hin;
    repeat (destruct Hin as [Hin|Hin]; try discriminate Hin);
    try contradiction.
  injection Hin as <- <- <-; repeat split.
Qed.

(** X5. When the map refuses the insertion of a new entry, the call hands
    the map's error to its caller after a [Get] that missed, the
    construction of the [Context] and the refused [PutIfNotExist], and
    nothing more on the map: the domain name is not looked up, no
    lock-wait timer is started, nothing is locked and no pin is
    released. *)
Theorem X5_refused_insertion (E : Env) (c : Cache) (ctx : GoContext)
    (domainID : string) (w w' : World)
    (res : option Context * option ReleaseFunc * option types.error)
    (k : definition.WorkflowIdentifier) (y : Context) (err : types.error) :
  In (EvPutIfNotExist k y (inr err)) (newEvents w w') ->
  ((exists workflowID,
       GetOrCreateCurrentWorkflowExecution E c ctx domainID workflowID w
       = (res, w'))
   \/ (exists execution callerScope,
         GetOrCreateWorkflowExecution E c ctx domainID execution callerScope
           w = (res, w'))) ->
  res = (None, None, Some err)
  /\ (exists execution,
        filter isMapOrNew (newEvents w w')
        = [EvGet k None; EvNewContext y domainID execution;
           EvPutIfNotExist k y (inr err)])
  /\ filter isLockPhase (newEvents w w') = []
  /\ protocol (newEvents w w') = [].
Proof.
  intros Hin [[workflowID Hrun]|(execution & callerScope & Hrun)].
  - apply GetOrCreateCurrent_run in Hrun as (t & Ht & H).
    rewrite Ht in Hin |- *.
    apply (In_tail _ [] t) in Hin; [|reflexivity|reflexivity].
    destruct (internalRun_refused _ _ _ _ _ _ _ _ _ _ _ _ H Hin)
      as (-> & Hm & Hl & Hp).
    unfold protocol in *; rewrite !filter_app, Hm, Hl, Hp.
    repeat split; eexists; reflexivity.
  - apply GetOrCreate_run in Hrun
      as (tv & ex' & verr & tail & Ht & Hval & H).
    apply validationRun_scoped in Hval.
    rewrite Ht in Hin |- *.
    apply In_tail in Hin; [|exact Hval|reflexivity].
    destruct verr as [e|].
    { destruct H as [_ ->]; cbn in Hin; destruct Hin as [Hin|[]];
        discriminate. }
    destruct (internalRun_refused _ _ _ _ _ _ _ _ _ _ _ _ H Hin)
      as (-> & Hm & Hl & Hp).
    unfold protocol in *; rewrite !filter_app, Hm, Hl, Hp.
    rewrite (filter_scoped isMapOrNew tv isMapOrNew_scoped Hval).
    rewrite (filter_scoped isLockPhase tv isLockPhase_scoped Hval).
    rewrite (filter_scoped isProtocol tv isProtocol_scoped Hval).
    repeat split; eexists; reflexivity.
Qed.

Lemma sampleRefused_result :
  GetOrCreateCurrentWorkflowExecution sampleEnv sampleCache Background "d1"
    "w3" sampleFullWorld
  = (None, None, Some types.CapacityExhausted, sampleRefusedWorld).
Proof. vm_compute; reflexivity. Qed.

Lemma X5_witness :
  In (EvPutIfNotExist (definition.NewWorkflowIdentifier "d1" "w3" "") 2
        (inr types.CapacityExhausted))
    (newEvents sampleFullWorld sampleRefusedWorld)
  /\ filter isLockPhase (newEvents sampleFullWorld sampleRefusedWorld) = []
  /\ protocol (newEvents sampleFullWorld sampleRefusedWorld) = [].
Proof.
  assert (Hin : In (EvPutIfNotExist
                      (definition.NewWorkflowIdentifier "d1" "w3" "") 2
                      (inr types.CapacityExhausted))
                  (newEvents sampleFullWorld sampleRefusedWorld))
    by (vm_compute; auto 10).
  split; [exact Hin|].
  exact (proj2 (proj2 (X5_refused_insertion sampleEnv sampleCache Background
                         "d1" _ _ _ _ _ _ Hin
                         (or_introl (ex_intro _ "w3" sampleRefused_result))))).
Defined.

Lemma internalRun_hit (E : Env) (c : Cache) (domainID : string)
    (execution : types.WorkflowExecution) (scope callerScope : metrics.scope)
    (force : bool) t res k x :
  internalRun E c domainID execution scope force callerScope t res ->
  In (EvGet k (Some x)) t ->
  countCounter scope metrics.CacheMissCounter t = 0
  /\ ((exists r,
         res = (Some x, Some (releaseClosure r), None)
         /\ captures r k x force callerScope (domainLabel E domainID)
         /\ filter isMapOrNew t = [EvGet k (Some x)])
      \/ (exists e,
            res = (None, None, Some e)
            /\ In (EvLock x (Some e)) t
            /\ filter isMapOrNew t = [EvGet k (Some x); EvRelease k])).
Proof.
  intros H Hin; destruct H; unfold lockEvents in Hin; cbn in Hin;
    repeat (destruct Hin as [Hin|Hin]; try discriminate Hin);
    try contradiction; injection Hin as <- <-;
    (split; [count_events|]).
  - left; exists r; split; [reflexivity|split; [assumption|reflexivity]].
  - right; exists err; repeat split; cbn; auto 10.
Qed.

(** X6. A hit constructs nothing: when the [Get] of a call finds a
    [Context], the call neither constructs one nor inserts into the map,
    and counts no miss.  It returns the [Context] it found, with a handle
    on that [Context] and key; or, when [Lock] fails, the error of [Lock]
    after giving the pin of that key back. *)
Theorem X6_hit_constructs_nothing (E : Env) (c : Cache) (ctx : GoContext)
    (domainID : string) (w w' : World)
    (res : option Context * option ReleaseFunc * option types.error)
    (k : definition.WorkflowIdentifier) (x : Context) :
  In (EvGet k (Some x)) (newEvents w w') ->
  ((exists workflowID,
       GetOrCreateCurrentWorkflowExecution E c ctx domainID workflowID w
       = (res, w'))
   \/ (exists execution callerScope,
         GetOrCreateWorkflowExecution E c ctx domainID execution callerScope
           w = (res, w'))) ->
  countCounter metrics.HistoryCacheGetOrCreateCurrentScope
    metrics.CacheMissCounter (newEvents w w') = 0
  /\ countCounter metrics.HistoryCacheGetOrCreateScope
       metrics.CacheMissCounter (newEvents w w') = 0
  /\ ((exists r,
         res = (Some x, Some (releaseClosure r), None)
         /\ r_key r = k /\ r_context r = x
         /\ filter isMapOrNew (newEvents w w') = [EvGet k (Some x)])
      \/ (exists e,
            res = (None, None, Some e)
            /\ In (EvLock x (Some e)) (newEvents w w')
            /\ filter isMapOrNew (newEvents w w')
               = [EvGet k (Some x); EvRelease k])).
Proof.
  intros Hin [[workflowID Hrun]|(execution & callerScope & Hrun)].
  - apply GetOrCreateCurrent_run in Hrun as (t & Ht & H).
    rewrite Ht in Hin |- *.
    apply (In_tail _ [] t) in Hin; [|reflexivity|reflexivity].
    assert (Hother : countCounter metrics.HistoryCacheGetOrCreateScope
                       metrics.CacheMissCounter t = 0).
    { clear Hin; destruct H; count_events. }
    destruct (internalRun_hit _ _ _ _ _ _ _ _ _ _ _ H Hin) as [Hc Hres].
    rewrite !countCounter_app, Hc, Hother, !filter_app.
    split; [count_events|split; [count_events|]].
    destruct Hres as [(r & -> & (Hk & Hx & _) & Hm)|(e & -> & HL & Hm)];
      [left; exists r|right; exists e]; rewrite Hm; repeat split; auto.
    apply in_or_app; right; apply in_or_app; left; exact HL.
  - apply GetOrCreate_run in Hrun
      as (tv & ex' & verr & tail & Ht & Hval & H).
    apply validationRun_scoped in Hval.
    rewrite Ht in Hin |- *.
    apply In_tail in Hin; [|exact Hval|reflexivity].
    destruct verr as [e|].
    { destruct H as [_ ->]; cbn in Hin; destruct Hin as [Hin|[]];
        discriminate. }
    assert (Hother : countCounter metrics.HistoryCacheGetOrCreateCurrentScope
                       metrics.CacheMissCounter tail = 0).
    { clear Hin; destruct H; count_events. }
    destruct (internalRun_hit _ _ _ _ _ _ _ _ _ _ _ H Hin) as [Hc Hres].
    rewrite !countCounter_app, Hc, Hother, !filter_app.
    rewrite !(countCounter_scoped _ _ tv) by (auto; discriminate).
    rewrite (filter_scoped isMapOrNew tv isMapOrNew_scoped Hval).
    split; [count_events|split; [count_events|]].
    destruct Hres as [(r & -> & (Hk & Hx & _) & Hm)|(e0 & -> & HL & Hm)];
      [left; exists r|right; exists e0]; rewrite Hm; repeat split; auto.
    apply in_or_app; right; apply in_or_app; right; apply in_or_app; left;
      exact HL.
Qed.

Lemma sampleHit_result :
  GetOrCreateWorkflowExecution sampleEnv sampleCache Background "d1"
    sampleExecution (metrics.OtherScope 1) sampleCachedWorld
  = (Some 0, Some (releaseClosure sampleSecondHandle), None,
     sampleHitWorld).
Proof. vm_compute; reflexivity. Qed.

Lemma X6_witness :
  In (EvGet sampleKey (Some 0)) (newEvents sampleCachedWorld sampleHitWorld)
  /\ countCounter metrics.HistoryCacheGetOrCreateScope
       metrics.CacheMissCounter (newEvents sampleCachedWorld sampleHitWorld)
     = 0.
Proof.
  assert (Hin : In (EvGet sampleKey (Some 0))
                  (newEvents sampleCachedWorld sampleHitWorld))
    by (vm_compute; auto 10).
  split; [exact Hin|].
  exact (proj1 (proj2 (X6_hit_constructs_nothing sampleEnv sampleCache
                         Background "d1" _ _ _ _ _ Hin
                         (or_intror
                            (ex_intro _ sampleExecution
                               (ex_intro _ (metrics.OtherScope 1)
                                  sampleHit_result)))))).
Defined.

(** ** The test hook *)

Lemma internalRun_bypass (E : Env) (c : Cache) (domainID : string)
    (execution : types.WorkflowExecution) (scope callerScope : metrics.scope)
    (force : bool) t res :
  disabled c = true ->
  internalRun E c domainID execution scope force callerScope t res ->
  exists y,
    res = (Some y, Some NoopReleaseFn, None)
    /\ t = [EvNewContext y domainID execution].
Proof.
  intros Hd H; destruct H; try congruence.
  exists y; split; reflexivity.
Qed.

(** The functions below the entry points read the options of the cache
    and not its test hook. *)
Lemma retryDo_hook (E : Env) (o : cache.Options) (d d' : bool)
    (ctx : GoContext) {S : Type} (n : nat)
    (op : S -> M (S * option types.error)) (s : S) (w : World) :
  retryDo E n (mkCache o d) ctx op s w
  = retryDo E n (mkCache o d') ctx op s w.
Proof.
  revert s w; induction n as [|n IH]; intros s w; cbn [retryDo];
    unfold bind; destruct (op s w) as [[s' err] w1];
    destruct err as [e|]; try reflexivity;
    destruct (negb (IsTransientError E e)); try reflexivity.
  cbv beta iota zeta delta [timeNow yield bind].
  change (envStep E (mkCache o d') w1) with (envStep E (mkCache o d) w1).
  destruct (isDone ctx (clock (envStep E (mkCache o d) w1)));
    [reflexivity|apply IH].
Qed.

Lemma getCurrentExecutionWithRetry_hook (E : Env) (o : cache.Options)
    (d d' : bool) (ctx : GoContext)
    (request : persistence.GetCurrentExecutionRequest) (w : World) :
  getCurrentExecutionWithRetry E (mkCache o d) ctx request w
  = getCurrentExecutionWithRetry E (mkCache o d') ctx request w.
Proof.
  cbv beta iota zeta delta
    [getCurrentExecutionWithRetry withTimer IncCounter bind emit].
  rewrite (retryDo_hook E o d d'); reflexivity.
Qed.

Lemma validate_hook (E : Env) (o : cache.Options) (d d' : bool)
    (ctx : GoContext) (domainID : string)
    (execution : types.WorkflowExecution) (w : World) :
  validateWorkflowExecutionInfo E (mkCache o d) ctx domainID execution w
  = validateWorkflowExecutionInfo E (mkCache o d') ctx domainID execution w.
Proof.
  unfold validateWorkflowExecutionInfo.
  destruct (String.eqb (types.WorkflowID execution) ""); [reflexivity|].
  destruct (String.eqb (types.RunID execution) ""); [|reflexivity].
  unfold bind; rewrite (getCurrentExecutionWithRetry_hook E o d d');
    reflexivity.
Qed.

Lemma GetAndCreate_hook (E : Env) (o : cache.Options) (d : bool)
    (ctx : GoContext) (domainID : string)
    (execution : types.WorkflowExecution) (w : World) :
  GetAndCreateWorkflowExecution E (mkCache o d) ctx domainID execution w
  = GetAndCreateWorkflowExecution E
      (mkCache (opts (mkCache o d)) false) ctx domainID execution w.
Proof.
  cbv beta iota zeta delta
    [GetAndCreateWorkflowExecution withTimer IncCounter bind emit opts].
  rewrite (validate_hook E o d false); reflexivity.
Qed.

(** X7. With the test hook [disabled] set,
    [GetOrCreateCurrentWorkflowExecution] and
    [GetOrCreateWorkflowExecution] never touch the map and never lock:
    once validation has passed they construct a [Context] and return it
    with the no-op release function, and a call of that function changes
    nothing.  [GetAndCreateWorkflowExecution] does not consult the hook:
    it behaves the same whether it is set or not. *)
Theorem X7_bypass (E : Env) (c : Cache) (ctx : GoContext)
    (domainID : string) (w : World) :
  disabled c = true ->
  (forall workflowID w' res,
      GetOrCreateCurrentWorkflowExecution E c ctx domainID workflowID w
      = (res, w') ->
      exists y,
        res = (Some y, Some NoopReleaseFn, None)
        /\ newEvents w w'
           = opening metrics.HistoryCacheGetOrCreateCurrentScope
             ++ [EvNewContext y domainID
                   (types.mkWorkflowExecution workflowID "")]
             ++ closing metrics.HistoryCacheGetOrCreateCurrentScope)
  /\ (forall execution callerScope w' res,
        GetOrCreateWorkflowExecution E c ctx domainID execution callerScope
          w = (res, w') ->
        mapKeys (newEvents w w') = []
        /\ filter isLockPhase (newEvents w w') = []
        /\ protocol (newEvents w w') = []
        /\ ((exists y execution',
               res = (Some y, Some NoopReleaseFn, None)
               /\ filter isMapOrNew (newEvents w w')
                  = [EvNewContext y domainID execution'])
            \/ (exists e,
                  res = (None, None, Some e)
                  /\ filter isMapOrNew (newEvents w w') = [])))
  /\ (forall err rec w2,
        callReleaseFunc E c NoopReleaseFn err rec w2 = (rec, w2))
  /\ (forall execution,
        GetAndCreateWorkflowExecution E c ctx domainID execution w
        = GetAndCreateWorkflowExecution E (mkCache (opts c) false) ctx
            domainID execution w).
Proof.
  intros Hd; split; [|split; [|split]].
  - intros workflowID w' res Hrun.
    apply GetOrCreateCurrent_run in Hrun as (t & Ht & H).
    destruct (internalRun_bypass _ _ _ _ _ _ _ _ _ Hd H) as (y & -> & ->).
    exists y; split; [reflexivity|exact Ht].
  - intros execution callerScope w' res Hrun.
    apply GetOrCreate_run in Hrun
      as (tv & ex' & verr & tail & Ht & Hval & H).
    apply validationRun_scoped in Hval.
    assert (Hkeys : mapKeys tv = []).
    { clear Ht; induction tv as [|ev tv IH]; [reflexivity|].
      cbn in Hval; apply andb_true_iff in Hval as [Hev Htv].
      destruct ev; try discriminate; cbn; auto. }
    rewrite Ht; unfold protocol.
    rewrite !mapKeys_app, !filter_app, Hkeys.
    rewrite (filter_scoped isMapOrNew tv isMapOrNew_scoped Hval).
    rewrite (filter_scoped isLockPhase tv isLockPhase_scoped Hval).
    rewrite (filter_scoped isProtocol tv isProtocol_scoped Hval).
    destruct verr as [e|].
    + destruct H as [-> ->]; repeat split; right; exists e; split;
        reflexivity.
    + destruct (internalRun_bypass _ _ _ _ _ _ _ _ _ Hd H) as (y & -> & ->).
      repeat split; left; exists y, ex'; split; reflexivity.
  - reflexivity.
  - intros execution; destruct c as [o d]; apply GetAndCreate_hook.
Qed.

Lemma sampleBypass_result :
  GetOrCreateWorkflowExecution sampleEnv disabledCache Background "d1"
    sampleExecution (metrics.OtherScope 1) emptyWorld
  = (Some 0, Some NoopReleaseFn, None, sampleBypassWorld).
Proof. vm_compute; reflexivity. Qed.

Lemma X7_witness :
  disabled disabledCache = true
  /\ mapKeys (newEvents emptyWorld sampleBypassWorld) = []
  /\ filter isLockPhase (newEvents emptyWorld sampleBypassWorld) = [].
Proof.
  split; [reflexivity|].
  destruct (proj1 (proj2 (X7_bypass sampleEnv disabledCache Background "d1"
                            emptyWorld eq_refl))
              _ _ _ _ sampleBypass_result) as (Hk & Hl & _).
  split; [exact Hk|exact Hl].
Defined.

(** ** Release handles: sleeps and hold time *)

Lemma newEvents_refl (w : World) : newEvents w w = [].
Proof. unfold newEvents; apply skipn_all. Qed.

Lemma envStep_clock_le (E : Env) (c : Cache) (w : World) :
  (clock w <= clock (envStep E c w))%Z.
Proof.
  apply (envStep_ind E c (fun w' => (clock w <= clock w')%Z)).
  - intros w' n H; exact H.
  - intros w' [] H; cbn; try exact H; lia.
  - lia.
Qed.

Lemma canarySleeps_cases (d : string) (s : metrics.scope) :
  canarySleeps d s = [] \/ exists n, canarySleeps d s = [EvSleep n].
Proof.
  unfold canarySleeps; destruct (String.eqb d "cadence-canary");
    [|left; reflexivity].
  destruct s; eauto.
Qed.

Lemma In_canarySleeps_iff (d : string) (s : metrics.scope) (n : Z) :
  In (EvSleep n) (canarySleeps d s)
  <-> d = canaryDomain
      /\ ((s = metrics.HistoryRespondDecisionTaskCompletedScope
           /\ n = (18 * Millisecond)%Z)
          \/ (s = metrics.PersistenceUpdateWorkflowExecutionScope
              /\ n = (14 * Millisecond)%Z)
          \/ (s = metrics.TimerActiveTaskActivityTimeoutScope
              /\ n = (5 * Millisecond)%Z)).
Proof.
  unfold canarySleeps, canaryDomain.
  destruct (String.eqb_spec d "cadence-canary") as [->|Hne].
  - destruct s; cbn; split;
      try (intros []; fail);
      try (intros [_ [[H _]|[[H _]|[H _]]]]; discriminate H);
      try (intros [H|[]]; injection H as <-; split; [reflexivity|]; tauto).
    + intros [_ [[_ ->]|[[H _]|[H _]]]]; try discriminate H; auto.
    + intros [_ [[H _]|[[_ ->]|[H _]]]]; try discriminate H; auto.
    + intros [_ [[H _]|[[H _]|[_ ->]]]]; try discriminate H; auto.
  - cbn; split; [intros []|intros [H _]; contradiction].
Qed.

(** What a call of a handle adds to the trace, whatever its state: nothing
    when it has run before, else the events of a release. *)
Lemma callReleaseFunc_events (E : Env) (c : Cache) (r : releaseEnv)
    (err : option types.error) (rec : option PanicValue) (w : World) :
  let t :=
    newEvents w (snd (callReleaseFunc E c (releaseClosure r) err rec w)) in
  t = []
  \/ exists held,
       t = match rec with
           | None =>
               clearIf (isSome err || r_forceClearContext r) (r_context r)
               ++ canarySleeps (r_domainName r) (r_callerScope r)
           | Some _ => [EvClear (r_context r)]
           end
           ++ [EvUnlock (r_context r);
               EvRecordTimer (r_callerScope r) (Some (r_domainName r))
                 metrics.LockHoldLatency held;
               EvRelease (r_key r)].
Proof.
  intros t; subst t.
  destruct (nth_error (cells w) (r_status r)) as [v|] eqn:Hn.
  - destruct (Z.eqb_spec v cacheNotReleased) as [->|Hne].
    + right.
      destruct (callReleaseFunc E c (releaseClosure r) err rec w)
        as [p w'] eqn:Hcall; cbn [snd].
      destruct rec as [v|].
      * destruct (callReleaseFunc_panic _ _ _ _ _ _ _ _ Hn Hcall)
          as [_ [held Ht]].
        exists held; apply newEvents_app; exact Ht.
      * destruct (callReleaseFunc_first _ _ _ _ _ _ _ Hn Hcall)
          as [_ [held Ht]].
        exists held; apply newEvents_app; rewrite Ht, <- app_assoc.
        reflexivity.
    + left; unfold callReleaseFunc, CompareAndSwapInt32, bind.
      rewrite Hn; apply Z.eqb_neq in Hne; rewrite Hne.
      apply newEvents_refl.
  - left; unfold callReleaseFunc, CompareAndSwapInt32, bind.
    rewrite Hn; apply newEvents_refl.
Qed.

(** X8. The first call of a handle, with or without a panic in flight in
    its caller, sleeps exactly when the domain is the canary and the
    caller's scope is one of three: 18 ms for the completion of a decision
    task, 14 ms for the update of a workflow execution, 5 ms for an
    activity timeout.  It sleeps at most once, with the lock still held:
    the sleep comes immediately before [Unlock], after the [Clear] if
    there is one.  The call leaves the panic in flight as it is. *)
Theorem X8_canary_sleep (E : Env) (c : Cache) (r : releaseEnv)
    (err : option types.error) (panicking : option PanicValue)
    (w w' : World) (p : option PanicValue) :
  notReleased w r ->
  invokeReleaseFunc E c (releaseClosure r) err panicking w = (p, w') ->
  p = panicking
  /\ (forall n,
        In (EvSleep n) (newEvents w w')
        <-> r_domainName r = canaryDomain
            /\ ((r_callerScope r
                 = metrics.HistoryRespondDecisionTaskCompletedScope
                 /\ n = (18 * Millisecond)%Z)
                \/ (r_callerScope r
                    = metrics.PersistenceUpdateWorkflowExecutionScope
                    /\ n = (14 * Millisecond)%Z)
                \/ (r_callerScope r
                    = metrics.TimerActiveTaskActivityTimeoutScope
                    /\ n = (5 * Millisecond)%Z)))
  /\ length (filter isSleep (newEvents w w')) <= 1
  /\ (forall n,
        In (EvSleep n) (newEvents w w') ->
        exists t1 t2,
          newEvents w w'
          = t1 ++ EvSleep n :: EvUnlock (r_context r) :: t2
          /\ filter isProtocol t1
             = clearIf (isSome err || r_forceClearContext r) (r_context r)).
Proof.
  intros Hn; rewrite invokeReleaseFunc_eq.
  destruct (callReleaseFunc E c (releaseClosure r) err None w)
    as [raised w1] eqn:Hcall; cbn [snd].
  intros [= <- <-]; split; [reflexivity|].
  destruct (callReleaseFunc_first _ _ _ _ _ _ _ Hn Hcall)
    as [_ [held Ht]].
  apply newEvents_app in Ht; rewrite Ht.
  assert (Hin : forall n,
             In (EvSleep n)
               (clearIf (isSome err || r_forceClearContext r)
                  (r_context r)
                ++ canarySleeps (r_domainName r) (r_callerScope r)
                ++ [EvUnlock (r_context r);
                    EvRecordTimer (r_callerScope r)
                      (Some (r_domainName r)) metrics.LockHoldLatency
                      held;
                    EvRelease (r_key r)])
             <-> In (EvSleep n)
                   (canarySleeps (r_domainName r) (r_callerScope r))).
  { intros n; rewrite !in_app_iff; split; [|tauto].
    intros [H|[H|H]]; [|exact H|].
    - unfold clearIf in H; destruct (isSome err || _); cbn in H;
        exfalso; intuition discriminate.
    - cbn in H; exfalso; intuition discriminate. }
  split; [|split].
  - intros n; rewrite Hin; apply In_canarySleeps_iff.
  - rewrite !filter_app.
    assert (Hc : filter isSleep
                   (clearIf (isSome err || r_forceClearContext r)
                      (r_context r)) = []).
    { unfold clearIf; destruct (isSome err || _); reflexivity. }
    rewrite Hc; cbn [app filter isSleep].
    destruct (canarySleeps_cases (r_domainName r) (r_callerScope r))
      as [->|[n ->]]; cbn; lia.
  - intros n H; apply Hin in H.
    destruct (canarySleeps_cases (r_domainName r) (r_callerScope r))
      as [Hs|[n' Hs]]; rewrite Hs in H |- *; cbn in H;
      [contradiction|].
    destruct H as [H|[]]; injection H as ->.
    exists (clearIf (isSome err || r_forceClearContext r) (r_context r)),
      [EvRecordTimer (r_callerScope r) (Some (r_domainName r))
         metrics.LockHoldLatency held;
       EvRelease (r_key r)].
    split; [reflexivity|].
    unfold clearIf; destruct (isSome err || _); reflexivity.
Qed.

Lemma notReleased_canaryHandle : notReleased sampleCachedWorld canaryHandle.
Proof. reflexivity. Qed.

Lemma canaryRelease_result :
  callReleaseFunc sampleEnv sampleCache (releaseClosure canaryHandle) None
    None sampleCachedWorld
  = (None, canaryReleasedWorld).
Proof. vm_compute; reflexivity. Qed.

Lemma canaryPanic_result :
  invokeReleaseFunc sampleEnv sampleCache (releaseClosure canaryHandle) None
    (Some "boom") sampleCachedWorld
  = (Some "boom", canaryReleasedWorld).
Proof. vm_compute; reflexivity. Qed.

Lemma X8_witness :
  notReleased sampleCachedWorld canaryHandle
  /\ In (EvSleep (18 * Millisecond))
       (newEvents sampleCachedWorld canaryReleasedWorld).
Proof.
  split; [exact notReleased_canaryHandle|].
  apply (proj1 (proj2 (X8_canary_sleep sampleEnv sampleCache canaryHandle
                         None (Some "boom") _ _ _ notReleased_canaryHandle
                         canaryPanic_result))).
  split; [reflexivity|left; split; reflexivity].
Defined.

Lemma sleepTime_canarySleeps (d : string) (s : metrics.scope) :
  (0 <= sleepTime (canarySleeps d s))%Z.
Proof.
  unfold canarySleeps, Millisecond;
    destruct (String.eqb d "cadence-canary"); [|cbn; lia].
  destruct s; cbn; lia.
Qed.

Lemma sleepTime_app (t1 t2 : list event) :
  sleepTime (t1 ++ t2) = (sleepTime t1 + sleepTime t2)%Z.
Proof.
  induction t1 as [|ev t1 IH]; [reflexivity|].
  destruct ev; cbn; rewrite ?IH; lia.
Qed.

Lemma sleepTime_clearIf (b : bool) (x : Context) :
  sleepTime (clearIf b x) = 0%Z.
Proof. destruct b; reflexivity. Qed.

(** The hold time a first call records, against the clock. *)
Lemma callReleaseFunc_held (E : Env) (c : Cache) (r : releaseEnv)
    (err : option types.error) (rec : option PanicValue) (w w' : World)
    (p : option PanicValue) :
  notReleased w r ->
  callReleaseFunc E c (releaseClosure r) err rec w = (p, w') ->
  exists held,
    newEvents w w'
    = match rec with
      | None =>
          clearIf (isSome err || r_forceClearContext r) (r_context r)
          ++ canarySleeps (r_domainName r) (r_callerScope r)
      | Some _ => [EvClear (r_context r)]
      end
      ++ [EvUnlock (r_context r);
          EvRecordTimer (r_callerScope r) (Some (r_domainName r))
            metrics.LockHoldLatency held;
          EvRelease (r_key r)]
    /\ (clock w - r_start r
        + match rec with
          | None => sleepTime (canarySleeps (r_domainName r)
                                 (r_callerScope r))
          | Some _ => 0
          end <= held)%Z.
Proof.
  intros H; unfold notReleased in H.
  unfold callReleaseFunc, CompareAndSwapInt32, bind at 1.
  rewrite H; cbn [cacheNotReleased Z.eqb].
  run_release; unfold clearIf, canarySleeps.
  destruct rec as [v|];
    [|destruct (isSome err || r_forceClearContext r);
      destruct (String.eqb (r_domainName r) "cadence-canary");
      [destruct (r_callerScope r)| |destruct (r_callerScope r)|]];
    cbn; intros Heq; injection Heq as <- <-; eexists;
    (split; [trace_of0; reflexivity|]);
    match goal with
    | |- context [clock (envStep E c ?W)] =>
        pose proof (envStep_clock_le E c W) as Hle
    end;
    cbn in Hle |- *; lia.
Qed.

(** X9. The first call of a handle records the lock-hold latency once,
    between [Unlock] and the map's [Release], under the scope and domain
    tag the handle was made with.  The time recorded covers the time
    passed since the handle was made and the canary sleep of the call; it
    is not negative when the handle was made in the past. *)
Theorem X9_hold_time (E : Env) (c : Cache) (r : releaseEnv)
    (err : option types.error) (rec : option PanicValue) (w w' : World)
    (p : option PanicValue) :
  notReleased w r ->
  callReleaseFunc E c (releaseClosure r) err rec w = (p, w') ->
  exists t1 held,
    newEvents w w'
    = t1 ++ [EvUnlock (r_context r);
             EvRecordTimer (r_callerScope r) (Some (r_domainName r))
               metrics.LockHoldLatency held;
             EvRelease (r_key r)]
    /\ (forall s tag m h, ~ In (EvRecordTimer s tag m h) t1)
    /\ (clock w - r_start r + sleepTime (newEvents w w') <= held)%Z
    /\ ((r_start r <= clock w)%Z -> (0 <= held)%Z).
Proof.
  intros Hn Hcall.
  destruct (callReleaseFunc_held _ _ _ _ _ _ _ _ Hn Hcall)
    as (held & Ht & Hle).
  pose proof (sleepTime_canarySleeps (r_domainName r) (r_callerScope r))
    as Hpos.
  eexists; exists held; split; [exact Ht|split].
  - intros s tag m h Hin; destruct rec as [v|].
    + cbn in Hin; intuition discriminate.
    + apply in_app_or in Hin as [Hin|Hin].
      * unfold clearIf in Hin; destruct (isSome err || _); cbn in Hin;
          intuition discriminate.
      * destruct (canarySleeps_cases (r_domainName r) (r_callerScope r))
          as [Hcs|[n Hcs]]; rewrite Hcs in Hin; cbn in Hin;
          intuition discriminate.
  - rewrite Ht, sleepTime_app; cbn [sleepTime].
    destruct rec as [v|]; [cbn [sleepTime]; split; lia|].
    rewrite sleepTime_app, sleepTime_clearIf; split; lia.
Qed.

Lemma X9_witness :
  notReleased sampleCachedWorld canaryHandle
  /\ exists t1 held,
       newEvents sampleCachedWorld canaryReleasedWorld
       = t1 ++ [EvUnlock 0;
                EvRecordTimer
                  metrics.HistoryRespondDecisionTaskCompletedScope
                  (Some canaryDomain) metrics.LockHoldLatency held;
                EvRelease sampleKey]
       /\ (18 * Millisecond <= held)%Z.
Proof.
  split; [exact notReleased_canaryHandle|].
  destruct (X9_hold_time sampleEnv sampleCache canaryHandle None None _ _ _
              notReleased_canaryHandle canaryRelease_result)
    as (t1 & held & Ht & _ & Hle & _).
  exists t1, held; split; [exact Ht|].
  assert (Hs : sleepTime (newEvents sampleCachedWorld canaryReleasedWorld)
               = (18 * Millisecond)%Z) by (vm_compute; reflexivity).
  assert (Hc : (clock sampleCachedWorld - r_start canaryHandle = 0)%Z)
    by (vm_compute; reflexivity).
  lia.
Defined.

(** ** Handles and their status cells *)

Lemma internal_cells (E : Env) (c : Cache) (ctx : GoContext)
    (domainID : string) (execution : types.WorkflowExecution)
    (scope callerScope : metrics.scope) (force : bool) (w w' : World) res :
  getOrCreateWorkflowExecutionInternal E c ctx domainID execution scope force
    callerScope w = (res, w') ->
  extends w w' (snd (fst res)).
Proof.
  split_internal Hd HG HP HL; unfold extends;
    repeat (cbn; rewrite ?envStep_cells); auto.
Qed.

Lemma GetOrCreateCurrent_cells (E : Env) (c : Cache) (ctx : GoContext)
    (domainID workflowID : string) (w w' : World) res :
  GetOrCreateCurrentWorkflowExecution E c ctx domainID workflowID w
  = (res, w') ->
  extends w w' (snd (fst res)).
Proof.
  rewrite GetOrCreateCurrent_internal; cbv zeta.
  destruct (getOrCreateWorkflowExecutionInternal _ _ _ _ _ _ _ _ _)
    as [res1 w1] eqn:Hi.
  apply internal_cells in Hi; intros [= <- <-].
  unfold extends in *; destruct (snd (fst res1)) as [[|r]|]; exact Hi.
Qed.

Lemma GetOrCreate_cells (E : Env) (c : Cache) (ctx : GoContext)
    (domainID : string) (execution : types.WorkflowExecution)
    (callerScope : metrics.scope) (w w' : World) res :
  GetOrCreateWorkflowExecution E c ctx domainID execution callerScope w
  = (res, w') ->
  extends w w' (snd (fst res)).
Proof.
  cbv beta iota zeta delta
    [GetOrCreateWorkflowExecution bind ret IncCounter emit withTimer].
  destruct (validateWorkflowExecutionInfo _ _ _ _ _ _)
    as [[ex' verr] wv] eqn:Hv.
  apply validate_resolved in Hv as (_ & Hc & _).
  cbn [cells set_trace] in Hc.
  destruct verr as [e|].
  - intros [= <- <-]; exact Hc.
  - destruct (getOrCreateWorkflowExecutionInternal _ _ _ _ _ _ _ _ _)
      as [res1 w1] eqn:Hi.
    apply internal_cells in Hi; intros [= <- <-].
    unfold extends in *; cbn [cells set_trace] in *.
    rewrite Hc in Hi; destruct (snd (fst res1)) as [[|r]|]; exact Hi.
Qed.

Lemma GetAndCreate_cells (E : Env) (c : Cache) (ctx : GoContext)
    (domainID : string) (execution : types.WorkflowExecution)
    (w w' : World) res :
  GetAndCreateWorkflowExecution E c ctx domainID execution w = (res, w') ->
  extends w w' (snd (fst (fst res))).
Proof.
  split_GetAndCreate Hres HG HL; destruct Hres as (_ & Hc & _);
    cbn [cells set_trace] in Hc; unfold extends;
    repeat (cbn; rewrite ?envStep_cells); rewrite ?Hc; auto.
Qed.

Lemma store_other (a b : nat) (v : Z) (s : list Z) :
  a <> b -> nth_error (store a v s) b = nth_error s b.
Proof.
  revert a b; induction s as [|x s IH]; intros [|a] [|b] H; cbn; auto;
    congruence.
Qed.

(** A call of one handle leaves the status of every other handle as it
    is. *)
Lemma callReleaseFunc_other (E : Env) (c : Cache) (r1 r2 : releaseEnv)
    (err : option types.error) (rec : option PanicValue) (w : World) :
  r_status r1 <> r_status r2 -> notReleased w r2 ->
  notReleased (snd (callReleaseFunc E c (releaseClosure r1) err rec w)) r2.
Proof.
  unfold notReleased; intros Hne H2; rewrite callReleaseFunc_cells.
  destruct (nth_error (cells w) (r_status r1)) as [v|]; [|exact H2].
  destruct (v =? cacheNotReleased)%Z; [|exact H2].
  rewrite store_other; assumption.
Qed.

Lemma extends_notReleased (w w' : World) (r r' : releaseEnv) :
  extends w w' (Some (releaseClosure r')) -> notReleased w r ->
  r_status r' <> r_status r /\ notReleased w' r /\ notReleased w' r'.
Proof.
  unfold extends, notReleased; intros [Hs Hc] Hn.
  assert (Hlt : r_status r < length (cells w))
    by (apply nth_error_Some; congruence).
  rewrite Hc, Hs; split; [lia|split].
  - rewrite nth_error_app1; assumption.
  - apply nth_error_snoc.
Qed.

(** X10. Handles are independent.  A call that returns a handle leaves
    every handle made before it un-released, and gives the new one a
    status of its own: calling either handle, with any argument and
    whether or not a panic is in flight, leaves the other one still to be
    run. *)
Theorem X10_handles_are_independent (E : Env) (c : Cache) (ctx : GoContext)
    (domainID : string) (w w' : World) (r r' : releaseEnv) :
  notReleased w r ->
  ((exists workflowID x,
       GetOrCreateCurrentWorkflowExecution E c ctx domainID workflowID w
       = (Some x, Some (releaseClosure r'), None, w'))
   \/ (exists execution callerScope x,
         GetOrCreateWorkflowExecution E c ctx domainID execution callerScope
           w = (Some x, Some (releaseClosure r'), None, w'))
   \/ (exists execution cached fresh hit,
         GetAndCreateWorkflowExecution E c ctx domainID execution w
         = (cached, fresh, Some (releaseClosure r'), hit, None, w'))) ->
  r_status r' <> r_status r
  /\ notReleased w' r
  /\ notReleased w' r'
  /\ (forall err rec,
        notReleased
          (snd (callReleaseFunc E c (releaseClosure r') err rec w')) r)
  /\ (forall err rec,
        notReleased
          (snd (callReleaseFunc E c (releaseClosure r) err rec w')) r').
Proof.
  intros Hn Hrun.
  assert (Hext : extends w w' (Some (releaseClosure r'))).
  { destruct Hrun as [(workflowID & x & Hrun)
                     |[(execution & callerScope & x & Hrun)
                      |(execution & cached & fresh & hit & Hrun)]].
    - exact (GetOrCreateCurrent_cells _ _ _ _ _ _ _ _ Hrun).
    - exact (GetOrCreate_cells _ _ _ _ _ _ _ _ _ Hrun).
    - exact (GetAndCreate_cells _ _ _ _ _ _ _ _ Hrun). }
  destruct (extends_notReleased _ _ _ _ Hext Hn) as (Hne & H1 & H2).
  split; [exact Hne|split; [exact H1|split; [exact H2|split]]].
  - intros err rec; apply callReleaseFunc_other; assumption.
  - intros err rec; apply callReleaseFunc_other; auto.
Qed.

Lemma notReleased_sampleFirstHandle :
  notReleased sampleCachedWorld sampleFirstHandle.
Proof. reflexivity. Qed.

Lemma X10_witness :
  notReleased sampleCachedWorld sampleFirstHandle
  /\ notReleased
       (snd (callReleaseFunc sampleEnv sampleCache
               (releaseClosure sampleSecondHandle) None None
               sampleHitWorld))
       sampleFirstHandle.
Proof.
  split; [exact notReleased_sampleFirstHandle|].
  exact (proj1 (proj2 (proj2 (proj2
           (X10_handles_are_independent sampleEnv sampleCache Background
              "d1" _ _ _ _ notReleased_sampleFirstHandle
              (or_intror
                 (or_introl
                    (ex_intro _ sampleExecution
                       (ex_intro _ (metrics.OtherScope 1)
                          (ex_intro _ 0 sampleHit_result)))))))))
           None None).
Defined.

(** ** Handles and the metrics they report *)

Lemma closure_never_sleeps (E : Env) (c : Cache) (r : releaseEnv)
    (err : option types.error) (rec : option PanicValue) (w : World) :
  canarySleeps (r_domainName r) (r_callerScope r) = [] ->
  filter isSleep
    (newEvents w (snd (callReleaseFunc E c (releaseClosure r) err rec w)))
  = [].
Proof.
  intros Hs.
  pose proof (callReleaseFunc_events E c r err rec w) as H; cbv zeta in H.
  destruct H as [->|[held ->]]; [reflexivity|].
  destruct rec as [v|]; [reflexivity|].
  rewrite Hs, app_nil_r, filter_app.
  unfold clearIf; destruct (isSome err || _); reflexivity.
Qed.

(** X11. The handles returned by [GetOrCreateCurrentWorkflowExecution],
    by [GetOrCreateWorkflowExecutionForBackground] and by
    [GetAndCreateWorkflowExecution] never sleep, whatever the domain: the
    first two are made for a caller scope that has no delay, the third
    with an empty domain name. *)
Theorem X11_handles_that_never_sleep (E : Env) (c : Cache)
    (ctx : GoContext) (domainID : string) (w w' : World)
    (f : ReleaseFunc) :
  ((exists workflowID x,
       GetOrCreateCurrentWorkflowExecution E c ctx domainID workflowID w
       = (Some x, Some f, None, w'))
   \/ (exists execution x,
         GetOrCreateWorkflowExecutionForBackground E c domainID execution w
         = (Some x, Some f, None, w'))
   \/ (exists execution cached fresh hit,
         GetAndCreateWorkflowExecution E c ctx domainID execution w
         = (cached, fresh, Some f, hit, None, w'))) ->
  forall err rec w2,
    filter isSleep (newEvents w2 (snd (callReleaseFunc E c f err rec w2)))
    = [].
Proof.
  intros Hrun err rec w2.
  destruct f as [|r]; [cbn; rewrite newEvents_refl; reflexivity|].
  apply closure_never_sleeps.
  destruct Hrun as [(workflowID & x & Hrun)
                   |[(execution & x & Hrun)
                    |(execution & cached & fresh & hit & Hrun)]].
  - apply GetOrCreateCurrent_run in Hrun as (t & _ & H).
    inversion H as [| ? ? _ Hc| | ? ? ? _ Hc| |]; subst;
      destruct Hc as (_ & _ & _ & -> & _); unfold canarySleeps;
      destruct (String.eqb _ _); reflexivity.
  - unfold GetOrCreateWorkflowExecutionForBackground in Hrun.
    apply GetOrCreate_run in Hrun as (tv & ex' & verr & tail & _ & _ & H).
    destruct verr as [e|]; [destruct H as [H _]; discriminate H|].
    inversion H as [| ? ? _ Hc| | ? ? ? _ Hc| |]; subst;
      destruct Hc as (_ & _ & _ & -> & _); unfold canarySleeps;
      destruct (String.eqb _ _); reflexivity.
  - apply GetAndCreate_run in Hrun as (tv & ex' & verr & tail & _ & _ & H).
    destruct verr as [e|]; [destruct H as [H _]; discriminate H|].
    inversion H as [? ? ? Hc| |]; subst.
    destruct Hc as (_ & _ & _ & _ & ->); reflexivity.
Qed.

Lemma X11_witness :
  filter isSleep
    (newEvents sampleAcquiredWorld
       (snd (callReleaseFunc sampleEnv sampleCache sampleHandle None None
               sampleAcquiredWorld)))
  = [].
Proof.
  exact (X11_handles_that_never_sleep sampleEnv sampleCache Background "d1"
           _ _ _
           (or_introl
              (ex_intro _ "w1" (ex_intro _ 0 sampleAcquire_result)))
           None None sampleAcquiredWorld).
Defined.

(** X12. The lock-wait timer of an acquisition and the lock-hold time its
    handle records are reported under the same scope and the same domain
    tag: the caller's scope (for [GetOrCreateCurrentWorkflowExecution] its
    own scope) and the name of the domain, or the empty string when the
    domain cache does not know the domain. *)
Theorem X12_latency_labels (E : Env) (c : Cache) (ctx : GoContext)
    (domainID : string) (callerScope : metrics.scope) (w w' : World)
    (x : Context) (r : releaseEnv) :
  ((exists workflowID,
       callerScope = metrics.HistoryCacheGetOrCreateCurrentScope
       /\ GetOrCreateCurrentWorkflowExecution E c ctx domainID workflowID w
          = (Some x, Some (releaseClosure r), None, w'))
   \/ (exists execution,
         GetOrCreateWorkflowExecution E c ctx domainID execution callerScope
           w = (Some x, Some (releaseClosure r), None, w'))) ->
  In (EvStartTimer callerScope (Some (domainLabel E domainID))
        metrics.LockWaitLatency) (newEvents w w')
  /\ In (EvStopTimer callerScope (Some (domainLabel E domainID))
           metrics.LockWaitLatency) (newEvents w w')
  /\ (forall err rec w2 s tag m held,
        In (EvRecordTimer s tag m held)
          (newEvents w2
             (snd (callReleaseFunc E c (releaseClosure r) err rec w2))) ->
        s = callerScope
        /\ tag = Some (domainLabel E domainID)
        /\ m = metrics.LockHoldLatency).
Proof.
  intros Hrun.
  assert (H : exists execution scope force t pre post,
             newEvents w w' = pre ++ t ++ post
             /\ internalRun E c domainID execution scope force callerScope
                  t (Some x, Some (releaseClosure r), None)).
  { destruct Hrun as [(workflowID & -> & Hrun)|(execution & Hrun)].
    - apply GetOrCreateCurrent_run in Hrun as (t & Ht & H).
      do 6 eexists; split; [exact Ht|exact H].
    - apply GetOrCreate_run in Hrun as (tv & ex' & verr & tail & Ht & _ & H).
      destruct verr as [e|]; [destruct H as [H _]; discriminate H|].
      exists ex', metrics.HistoryCacheGetOrCreateScope, false, tail,
        (opening metrics.HistoryCacheGetOrCreateScope ++ tv),
        (closing metrics.HistoryCacheGetOrCreateScope).
      split; [rewrite Ht, <- app_assoc; reflexivity|exact H]. }
  destruct H as (execution & scope & force & t & pre & post & Ht & H).
  assert (Hc : captures r (keyOf domainID execution) x force callerScope
                 (domainLabel E domainID)
               /\ In (EvStartTimer callerScope
                        (Some (domainLabel E domainID))
                        metrics.LockWaitLatency) t
               /\ In (EvStopTimer callerScope
                        (Some (domainLabel E domainID))
                        metrics.LockWaitLatency) t).
  { inversion H as [| ? ? _ Hc| | ? ? ? _ Hc| |]; subst;
      (split; [exact Hc|]); unfold lockEvents; cbn; auto 10. }
  destruct Hc as ((_ & _ & _ & Hs & Hd) & Hstart & Hstop).
  rewrite Ht; split; [|split].
  - apply in_or_app; right; apply in_or_app; left; exact Hstart.
  - apply in_or_app; right; apply in_or_app; left; exact Hstop.
  - intros err rec w2 s tag m held Hin.
    pose proof (callReleaseFunc_events E c r err rec w2) as Hev.
    cbv zeta in Hev; destruct Hev as [Hev|[held' Hev]];
      rewrite Hev in Hin; [contradiction|].
    rewrite Hs, Hd in Hin.
    apply in_app_or in Hin as [Hin|Hin].
    + exfalso; destruct rec as [v|].
      * cbn in Hin; intuition discriminate.
      * apply in_app_or in Hin as [Hin|Hin].
        -- unfold clearIf in Hin; destruct (isSome err || _); cbn in Hin;
             intuition discriminate.
        -- destruct (canarySleeps_cases (domainLabel E domainID) callerScope)
             as [Hcs|[n Hcs]]; rewrite Hcs in Hin; cbn in Hin;
             intuition discriminate.
    + cbn in Hin; destruct Hin as [Hin|[Hin|[Hin|[]]]]; try discriminate.
      injection Hin as <- <- <- _; repeat split.
Qed.

Lemma X12_witness :
  In (EvStartTimer (metrics.OtherScope 1) (Some "d1-name")
        metrics.LockWaitLatency)
    (newEvents sampleCachedWorld sampleHitWorld).
Proof.
  exact (proj1 (X12_latency_labels sampleEnv sampleCache Background "d1"
                  (metrics.OtherScope 1) _ _ _ _
                  (or_intror (ex_intro _ sampleExecution sampleHit_result)))).
Defined.

(** ** Validation and the resolution of the current run *)

Lemma storageLog_In (t : list event)
    (request : persistence.GetCurrentExecutionRequest)
    (a : persistence.GetCurrentExecutionResponse + types.error) :
  In (EvGetCurrentExecution request a) t -> storageLog t <> [].
Proof.
  induction t as [|ev t IH]; [intros []|].
  intros [->|Hin]; [discriminate|].
  destruct ev; cbn; auto; discriminate.
Qed.

Lemma currentExecutionEvents_storage
    (request : persistence.GetCurrentExecutionRequest)
    (es : list types.error)
    (final : persistence.GetCurrentExecutionResponse + types.error) :
  storageLog (currentExecutionEvents request es final) <> [].
Proof.
  apply (storageLog_In _ request final).
  unfold currentExecutionEvents.
  apply in_or_app; right; apply in_or_app; left.
  apply in_map, in_or_app; right; left; reflexivity.
Qed.

(** X13. Validation writes the run id through its pointer only when it
    succeeds: on failure the caller's execution is as it was.  On success
    the workflow id is the caller's, and not empty; a run id the caller gave
    is kept, and is a valid UUID.  Validation leaves the world untouched
    unless it has a current run to resolve, and then it calls storage. *)
Theorem X13_validation_outcome (E : Env) (c : Cache) (ctx : GoContext)
    (domainID : string) (execution : types.WorkflowExecution) (w : World) :
  let run := validateWorkflowExecutionInfo E c ctx domainID execution w in
  match snd (fst run) with
  | Some _ => fst (fst run) = execution
  | None =>
      types.WorkflowID (fst (fst run)) = types.WorkflowID execution
      /\ types.WorkflowID execution <> ""
      /\ (types.RunID execution = ""
          \/ (fst (fst run) = execution
              /\ uuid_Parse E (types.RunID execution) = true))
  end
  /\ (snd run = w
      \/ (unresolved execution
          /\ storageLog (newEvents w (snd run)) <> [])).
Proof.
  intros run; subst run.
  destruct (validateWorkflowExecutionInfo E c ctx domainID execution w)
    as [[ex' verr] w'] eqn:Hv; cbn [fst snd].
  pose proof Hv as Hw.
  apply validate_run in Hv as (tv & Ht & Hval & Hgiven).
  apply newEvents_app in Ht; rewrite Ht.
  remember (ex', verr) as r eqn:Hr.
  destruct Hval as [Hwid|es response Hwid Hrid _ _|es e Hwid Hrid _ _
                   |Hwid Hrid Hu|Hwid Hrid Hu];
    injection Hr as <- <-.
  - split; [reflexivity|left].
    unfold validateWorkflowExecutionInfo in Hw.
    rewrite Hwid in Hw; cbn in Hw; unfold ret in Hw.
    injection Hw as <-; reflexivity.
  - split; [cbn; auto|right].
    split; [split; assumption|apply currentExecutionEvents_storage].
  - split; [reflexivity|right].
    split; [split; assumption|apply currentExecutionEvents_storage].
  - split; [reflexivity|left; auto].
  - split; [auto|left; auto].
Qed.

(** X14. [getCurrentExecutionWithRetry] returns a response or an error,
    never both and never neither.  Each call counts one request in its own
    scope, and one failure exactly when it returns an error. *)
Theorem X14_current_execution_result (E : Env) (c : Cache)
    (ctx : GoContext) (request : persistence.GetCurrentExecutionRequest)
    (w : World) :
  let run := getCurrentExecutionWithRetry E c ctx request w in
  isSome (fst (fst run)) = negb (isSome (snd (fst run)))
  /\ countCounter currentExecutionScope metrics.CacheRequests
       (newEvents w (snd run)) = 1
  /\ countCounter currentExecutionScope metrics.CacheFailures
       (newEvents w (snd run))
     = (if isSome (snd (fst run)) then 1 else 0)
  /\ storageLog (newEvents w (snd run)) <> [].
Proof.
  intros run; subst run.
  destruct (getCurrentExecutionWithRetry E c ctx request w) as [r w'] eqn:Hg.
  cbn [fst snd].
  apply getCurrentExecutionWithRetry_events in Hg
    as (es & final & Ht & _ & _ & ->).
  apply newEvents_app in Ht; rewrite Ht.
  assert (Hm : forall m,
             countCounter currentExecutionScope m
               (map (EvGetCurrentExecution request) (map inr es ++ [final]))
             = 0).
  { intros m; unfold countCounter.
    induction (map inr es ++ [final]) as [|a l IH]; [reflexivity|exact IH]. }
  split; [destruct final; reflexivity|].
  split; [|split; [|apply currentExecutionEvents_storage]].
  - unfold currentExecutionEvents; rewrite !countCounter_app, Hm.
    unfold currentExecutionScope; destruct final; count_events.
  - unfold currentExecutionEvents; rewrite !countCounter_app, Hm.
    unfold currentExecutionScope; destruct final; count_events.
Qed.

(** ** The convenience entry points *)

(** X15. [GetOrCreateWorkflowExecutionForBackground] and
    [GetOrCreateWorkflowExecutionWithTimeout] add nothing of their own to
    [GetOrCreateWorkflowExecution]: the first calls it with the background
    context and its own scope as the caller's, the second with a context
    that ends [timeout] after an instant not before the call began.  Their
    results are well formed, they keep the lock discipline, and they count
    a failure exactly when they return an error. *)
Theorem X15_convenience_entry_points (E : Env) (c : Cache)
    (domainID : string) (execution : types.WorkflowExecution) (w : World) :
  GetOrCreateWorkflowExecutionForBackground E c domainID execution w
  = GetOrCreateWorkflowExecution E c Background domainID execution
      metrics.HistoryCacheGetOrCreateScope w
  /\ forall timeout callerScope,
       let run :=
         GetOrCreateWorkflowExecutionWithTimeout E c domainID execution
           timeout callerScope w in
       (exists now w0,
          (clock w <= now)%Z
          /\ trace w0 = trace w
          /\ run
             = GetOrCreateWorkflowExecution E c
                 (mkGoContext (Some (now + timeout)%Z)) domainID execution
                 callerScope w0)
       /\ wellFormed (fst run)
       /\ disciplined (newEvents w (snd run)) (snd (fst run))
       /\ countCounter metrics.HistoryCacheGetOrCreateScope
            metrics.CacheFailures (newEvents w (snd run))
          = (if isSome (snd (fst run)) then 1 else 0).
Proof.
  split; [reflexivity|].
  intros timeout callerScope run.
  assert (Hrun : run
                 = GetOrCreateWorkflowExecution E c
                     (mkGoContext
                        (Some (clock (envStep E c w) + timeout)%Z))
                     domainID execution callerScope (envStep E c w))
    by reflexivity.
  pose proof (envStep_trace E c w) as Ht.
  assert (Hev : newEvents w (snd run) = newEvents (envStep E c w) (snd run))
    by (unfold newEvents; rewrite Ht; reflexivity).
  split.
  { exists (clock (envStep E c w)), (envStep E c w).
    split; [apply envStep_clock_le|split; [exact Ht|exact Hrun]]. }
  rewrite Hev, Hrun; clear Hev Hrun run.
  split; [apply GetOrCreate_wellFormed|].
  destruct (GetOrCreateWorkflowExecution _ _ _ _ _ _ _)
    as [res w'] eqn:Hrun; cbn [fst snd].
  apply GetOrCreate_run in Hrun
    as (tv & ex' & verr & tail & -> & Hval & H).
  destruct (validationRun_quiet _ _ _ metrics.HistoryCacheGetOrCreateScope
              _ _ Hval) as [Hl Hp].
  apply validationRun_scoped in Hval.
  split.
  - rewrite (app_assoc (opening _) tv).
    apply disciplined_frame; try assumption; try reflexivity.
    destruct verr as [e|].
    + destruct H as [-> ->]; split; [cbn; lia|left; reflexivity].
    + eapply internalRun_disciplined; exact H.
  - rewrite !countCounter_app.
    rewrite (countCounter_scoped _ _ tv) by (auto; discriminate).
    destruct verr as [e|].
    + destruct H as [-> ->]; count_events.
    + apply internalRun_failures in H as [H _]; rewrite H; count_events.
      destruct (snd res); reflexivity.
Qed.

(** ** Pins across an acquisition and its release *)

Section PinsHeld.

Import cache.

Lemma pins_Get_hit o t1 k k' l l1 x :
  Get o t1 k l = (l1, Some x) ->
  pins k' l1 = pins k' l + (if definition.eqb k' k then 1 else 0).
Proof.
  unfold Get; destruct (find k l) as [e|] eqn:Hf; [|discriminate].
  destruct (expired o t1 e); [discriminate|].
  intros [= <- _]; pose proof (find_Some _ _ _ Hf) as [_ Hk].
  rewrite pins_cons, pins_remove; cbn [pin key refCount]; rewrite Hk.
  destruct (definition.eqb k' k) eqn:Hk'; [|lia].
  apply definition_eqb_eq in Hk'; subst k'.
  unfold pins; rewrite Hf; lia.
Qed.

Lemma pins_PutIfNotExist_ok o t1 k k' v l l1 x :
  NoDup (keys l) ->
  PutIfNotExist o t1 k v l = (l1, inl x) ->
  pins k' l1 = pins k' l + (if definition.eqb k' k then 1 else 0).
Proof.
  intros Hnd; unfold PutIfNotExist.
  destruct (find k l) as [e|] eqn:Hf.
  - intros [= <- _]; pose proof (find_Some _ _ _ Hf) as [_ Hk].
    rewrite pins_cons, pins_remove; cbn [pin key refCount]; rewrite Hk.
    destruct (definition.eqb k' k) eqn:Hk'; [|lia].
    apply definition_eqb_eq in Hk'; subst k'.
    unfold pins; rewrite Hf; lia.
  - assert (H0 : pins k l = 0) by (unfold pins; rewrite Hf; reflexivity).
    destruct (Nat.ltb (length l) (MaxCount o)).
    + intros [= <- _]; rewrite pins_cons; cbn [key refCount].
      destruct (definition.eqb k' k) eqn:Hk'; [|lia].
      apply definition_eqb_eq in Hk'; subst k'; lia.
    + destruct (evict l) as [l'|] eqn:He; [|discriminate].
      intros [= <- _]; rewrite pins_cons; cbn [key refCount].
      rewrite (pins_evict k' l l' Hnd He).
      destruct (definition.eqb k' k) eqn:Hk'; [|lia].
      apply definition_eqb_eq in Hk'; subst k'; lia.
Qed.

End PinsHeld.

(** How a successful internal acquisition changed the map, when no other
    goroutine touches it: by a [Get] that hit, or by a [Get] that missed
    and a [PutIfNotExist]. *)
Lemma internal_entries (E : Env) (c : Cache) (ctx : GoContext)
    (domainID : string) (execution : types.WorkflowExecution)
    (scope callerScope : metrics.scope) (force : bool) (w w' : World)
    (x : Context) (f : ReleaseFunc) :
  quiet E -> disabled c = false ->
  getOrCreateWorkflowExecutionInternal E c ctx domainID execution scope force
    callerScope w = (Some x, Some f, None, w') ->
  (exists t1,
      cache.Get (opts c) t1 (keyOf domainID execution) (entries w)
      = (entries w', Some x))
  \/ (exists t1 t2 l1 y,
        cache.Get (opts c) t1 (keyOf domainID execution) (entries w)
        = (l1, None)
        /\ cache.PutIfNotExist (opts c) t2 (keyOf domainID execution) y l1
           = (entries w', inl x)).
Proof.
  intros Hq Hd0; split_internal Hd HG HP HL; [congruence| |].
  - left; rewrite envStep_entries in HG by exact Hq.
    repeat (cbn; rewrite ?envStep_entries by exact Hq).
    eexists; exact HG.
  - right; rewrite envStep_entries in HG by exact Hq.
    repeat (cbn in HP; rewrite ?envStep_entries in HP by exact Hq).
    repeat (cbn; rewrite ?envStep_entries by exact Hq).
    do 4 eexists; split; [exact HG|exact HP].
Qed.

(** The first call of a handle changes the map by the [Release] of its
    key. *)
Lemma callReleaseFunc_entries (E : Env) (c : Cache) (r : releaseEnv)
    (err : option types.error) (rec : option PanicValue) (w : World) :
  quiet E -> notReleased w r ->
  exists t2,
    entries (snd (callReleaseFunc E c (releaseClosure r) err rec w))
    = cache.Release (opts c) t2 (r_key r) (entries w).
Proof.
  intros Hq H; unfold notReleased in H.
  unfold callReleaseFunc, CompareAndSwapInt32, bind at 1.
  rewrite H; cbn [cacheNotReleased Z.eqb].
  run_release.
  destruct rec as [v|];
    [|destruct (isSome err || r_forceClearContext r);
      destruct (String.eqb (r_domainName r) "cadence-canary");
      [destruct (r_callerScope r)| |destruct (r_callerScope r)|]];
    repeat (cbn; rewrite ?envStep_entries by exact Hq);
    eexists; reflexivity.
Qed.

Lemma internal_pins (E : Env) (c : Cache) (ctx : GoContext)
    (domainID : string) (execution : types.WorkflowExecution)
    (scope callerScope : metrics.scope) (force : bool) (w w' : World)
    (x : Context) (r : releaseEnv) :
  quiet E -> NoDup (cache.keys (entries w)) -> disabled c = false ->
  getOrCreateWorkflowExecutionInternal E c ctx domainID execution scope force
    callerScope w = (Some x, Some (releaseClosure r), None, w') ->
  (forall k,
      cache.pins k (entries w')
      = cache.pins k (entries w)
        + (if definition.eqb k (r_key r) then 1 else 0))
  /\ (forall w2 err rec k,
        entries w2 = entries w' -> cells w2 = cells w' ->
        cache.pins k
          (entries (snd (callReleaseFunc E c (releaseClosure r) err rec w2)))
        = cache.pins k (entries w)).
Proof.
  intros Hq Hnd Hd Hrun.
  destruct (internal_acquired _ _ _ _ _ _ _ _ _ _ _ _ Hd Hrun)
    as (r0 & [= <-] & _ & Hk & _ & Hn).
  rewrite Hk.
  assert (Hrel : forall w2 err rec,
             entries w2 = entries w' -> cells w2 = cells w' ->
             exists t3,
               entries (snd (callReleaseFunc E c (releaseClosure r) err rec
                               w2))
               = cache.Release (opts c) t3 (keyOf domainID execution)
                   (entries w')).
  { intros w2 err rec He Hc.
    assert (Hn2 : notReleased w2 r) by (unfold notReleased; rewrite Hc; auto).
    destruct (callReleaseFunc_entries E c r err rec w2 Hq Hn2) as [t3 Ht3].
    exists t3; rewrite Ht3, Hk, He; reflexivity. }
  destruct (internal_entries _ _ _ _ _ _ _ _ _ _ _ _ Hq Hd Hrun)
    as [[t1 HG]|(t1 & t2 & l1 & y & HG & HP)].
  - split; [intros k; eapply pins_Get_hit; exact HG|].
    intros w2 err rec k He Hc.
    destruct (Hrel w2 err rec He Hc) as [t3 ->].
    eapply pins_Get_Release; exact HG.
  - assert (Hnd1 : NoDup (cache.keys l1)).
    { change l1 with (fst (l1, @None Context)); rewrite <- HG.
      apply NoDup_keys_Get; exact Hnd. }
    split.
    + intros k; rewrite (pins_PutIfNotExist_ok _ _ _ k _ _ _ _ Hnd1 HP).
      rewrite (pins_Get_miss _ _ _ k _ _ HG); reflexivity.
    + intros w2 err rec k He Hc.
      destruct (Hrel w2 err rec He Hc) as [t3 ->].
      rewrite (pins_PutIfNotExist_Release _ _ t3 _ k _ _ _ _ Hnd1 HP).
      eapply pins_Get_miss; exact HG.
Qed.

(** X16. With the map as its package describes it and no other goroutine at
    work on it, a successful acquisition adds one pin to the key of its
    handle and changes no other pin count; the call of the handle, with any
    argument and whether or not a panic is in flight, gives that pin back:
    every pin count is then what it was before the acquisition. *)
Theorem X16_pin_round_trip (E : Env) (c : Cache) (ctx : GoContext)
    (domainID : string) (w w1 : World) (x : Context) (r : releaseEnv) :
  quiet E -> NoDup (cache.keys (entries w)) -> disabled c = false ->
  ((exists workflowID,
       GetOrCreateCurrentWorkflowExecution E c ctx domainID workflowID w
       = (Some x, Some (releaseClosure r), None, w1))
   \/ (exists execution callerScope,
         GetOrCreateWorkflowExecution E c ctx domainID execution callerScope
           w = (Some x, Some (releaseClosure r), None, w1))) ->
  (forall k,
      cache.pins k (entries w1)
      = cache.pins k (entries w)
        + (if definition.eqb k (r_key r) then 1 else 0))
  /\ (forall err rec k,
        cache.pins k
          (entries (snd (callReleaseFunc E c (releaseClosure r) err rec w1)))
        = cache.pins k (entries w)).
Proof.
  intros Hq Hnd Hd [[workflowID Hrun]|(execution & callerScope & Hrun)].
  - rewrite GetOrCreateCurrent_internal in Hrun; cbv zeta in Hrun.
    destruct (getOrCreateWorkflowExecutionInternal _ _ _ _ _ _ _ _ _)
      as [res w2] eqn:Hi.
    injection Hrun as -> <-.
    apply internal_pins in Hi; [|exact Hq|exact Hnd|exact Hd].
    destruct Hi as [H1 H2]; split; [exact H1|].
    intros err rec k; apply H2; reflexivity.
  - revert Hrun.
    cbv beta iota zeta delta
      [GetOrCreateWorkflowExecution bind ret IncCounter emit withTimer].
    destruct (validateWorkflowExecutionInfo _ _ _ _ _ _)
      as [[ex' verr] wv] eqn:Hv.
    apply validate_resolved in Hv as (_ & _ & _ & _ & _ & He).
    destruct (He Hq) as [He' _]; cbn [entries set_trace] in He'.
    destruct verr as [e|]; [discriminate|].
    destruct (getOrCreateWorkflowExecutionInternal _ _ _ _ _ _ _ _ _)
      as [res w2] eqn:Hi.
    intros [= -> <-].
    apply internal_pins in Hi;
      [|exact Hq|cbn [entries set_trace]; rewrite He'; exact Hnd|exact Hd].
    cbn [entries set_trace] in Hi; rewrite He' in Hi.
    destruct Hi as [H1 H2]; split; [exact H1|].
    intros err rec k; apply H2; reflexivity.
Qed.

Lemma X16_witness :
  quiet sampleEnv
  /\ NoDup (cache.keys (entries sampleCachedWorld))
  /\ disabled sampleCache = false
  /\ forall k,
       cache.pins k
         (entries
            (snd (callReleaseFunc sampleEnv sampleCache
                    (releaseClosure sampleSecondHandle) None None
                    sampleHitWorld)))
       = cache.pins k (entries sampleCachedWorld).
Proof.
  assert (Hq : quiet sampleEnv) by (intros n; reflexivity).
  assert (Hnd : NoDup (cache.keys (entries sampleCachedWorld)))
    by (vm_compute; repeat constructor; intros []).
  split; [exact Hq|split; [exact Hnd|split; [reflexivity|]]].
  exact (proj2 (X16_pin_round_trip sampleEnv sampleCache Background "d1"
                  _ _ _ _ Hq Hnd eq_refl
                  (or_intror
                     (ex_intro _ sampleExecution
                        (ex_intro _ (metrics.OtherScope 1)
                           sampleHit_result))))
           None None).
Defined.

(** ** Caches built by [NewCache] *)

Lemma internalRun_locked (E : Env) (c : Cache) (domainID : string)
    (execution : types.WorkflowExecution) (scope callerScope : metrics.scope)
    (force : bool) t x f :
  disabled c = false ->
  internalRun E c domainID execution scope force callerScope t
    (Some x, Some f, None) ->
  exists r,
    f = releaseClosure r
    /\ captures r (keyOf domainID execution) x force callerScope
         (domainLabel E domainID)
    /\ In (EvLock x None) t
    /\ obtained t (keyOf domainID execution) x.
Proof.
  intros Hd H.
  inversion H as [? Hb| ? r _ Hc| | y ? r _ Hc| |]; subst; [congruence| |];
    exists r; (split; [reflexivity|split; [exact Hc|]]);
    unfold lockEvents, obtained; cbn; split; auto 10.
  right; exists y; auto 10.
Qed.

(** X17. [NewCache] builds a pinned map with the sizes and TTL of the
    shard's configuration, and leaves the test hook unset.  So a [Context]
    returned through such a cache was obtained from the map under the key
    of its handle and has been locked by the call, and its handle is a
    closure that is still to run. *)
Theorem X17_NewCache_acquisitions (E : Env) (config : Config)
    (ctx : GoContext) (domainID : string) (w w' : World) (x : Context)
    (f : ReleaseFunc) :
  ((exists workflowID,
       GetOrCreateCurrentWorkflowExecution E (NewCache config) ctx domainID
         workflowID w = (Some x, Some f, None, w'))
   \/ (exists execution callerScope,
         GetOrCreateWorkflowExecution E (NewCache config) ctx domainID
           execution callerScope w = (Some x, Some f, None, w'))) ->
  opts (NewCache config)
  = cache.mkOptions (HistoryCacheInitialSize config)
      (HistoryCacheTTL config) true (HistoryCacheMaxSize config)
  /\ disabled (NewCache config) = false
  /\ exists r,
       f = releaseClosure r
       /\ r_context r = x
       /\ notReleased w' r
       /\ In (EvLock x None) (newEvents w w')
       /\ obtained (newEvents w w') (r_key r) x.
Proof.
  intros Hrun; split; [reflexivity|split; [reflexivity|]].
  assert (Hd : disabled (NewCache config) = false) by reflexivity.
  assert (Ha : exists k force, acquired w' f x k force).
  { destruct Hrun as [[workflowID Hrun]|(execution & callerScope & Hrun)].
    - rewrite GetOrCreateCurrent_internal in Hrun; cbv zeta in Hrun.
      destruct (getOrCreateWorkflowExecutionInternal _ _ _ _ _ _ _ _ _)
        as [res w1] eqn:Hi.
      injection Hrun as -> <-.
      apply internal_acquired in Hi; [|exact Hd].
      do 2 eexists; exact Hi.
    - destruct (GetOrCreate_acquired _ _ _ _ _ _ _ _ _ _ Hd Hrun) as [k Hk].
      exists k, false; exact Hk. }
  destruct Ha as (k & force & r & -> & Hx & _ & _ & Hn).
  exists r; split; [reflexivity|split; [exact Hx|split; [exact Hn|]]].
  destruct Hrun as [[workflowID Hrun]|(execution & callerScope & Hrun)].
  - apply GetOrCreateCurrent_run in Hrun as (t & -> & H).
    destruct (internalRun_locked _ _ _ _ _ _ _ _ _ _ Hd H)
      as (r0 & [= <-] & (-> & _) & HL & Ho).
    split; [apply in_or_app; right; apply in_or_app; left; exact HL|].
    destruct Ho as [Ho|[y Ho]]; [left|right; exists y];
      apply in_or_app; right; apply in_or_app; left; exact Ho.
  - apply GetOrCreate_run in Hrun as (tv & ex' & verr & tail & -> & _ & H).
    destruct verr as [e|]; [destruct H as [H _]; discriminate H|].
    destruct (internalRun_locked _ _ _ _ _ _ _ _ _ _ Hd H)
      as (r0 & [= <-] & (-> & _) & HL & Ho).
    split; [apply in_or_app; right; apply in_or_app; right;
            apply in_or_app; left; exact HL|].
    destruct Ho as [Ho|[y Ho]]; [left|right; exists y];
      apply in_or_app; right; apply in_or_app; right; apply in_or_app;
      left; exact Ho.
Qed.

Lemma X17_witness :
  exists r,
    r_context r = 0
    /\ notReleased sampleHitWorld r
    /\ In (EvLock 0 None) (newEvents sampleCachedWorld sampleHitWorld).
Proof.
  destruct (X17_NewCache_acquisitions sampleEnv (mkConfig 16 1000%Z 2)
              Background "d1" _ _ _ _
              (or_intror
                 (ex_intro _ sampleExecution
                    (ex_intro _ (metrics.OtherScope 1) sampleHit_result))))
    as (_ & _ & r & _ & Hx & Hn & HL & _).
  exists r; split; [exact Hx|split; [exact Hn|exact HL]].
Defined.

(** ** The counters of misses and of lock failures *)

Lemma isGetMiss_scoped (ev : event) :
  isCurrentExecutionEvent ev = true -> isGetMiss ev = false.
Proof. destruct ev; try reflexivity; discriminate. Qed.

Lemma isLockFailure_scoped (ev : event) :
  isCurrentExecutionEvent ev = true -> isLockFailure ev = false.
Proof. destruct ev; try reflexivity; discriminate. Qed.

Lemma accurate_frame (s : metrics.scope) (tv t : list event) :
  s <> metrics.HistoryCacheGetCurrentExecutionScope ->
  forallb isCurrentExecutionEvent tv = true ->
  accurate s t -> accurate s (opening s ++ tv ++ t ++ closing s).
Proof.
  unfold accurate; intros Hs Htv (Hm & Hl & Hn).
  rewrite !countCounter_app, !filter_app, !length_app.
  rewrite !(countCounter_scoped s _ tv Hs Htv).
  rewrite (filter_scoped isGetMiss tv isGetMiss_scoped Htv).
  rewrite (filter_scoped isLockFailure tv isLockFailure_scoped Htv).
  rewrite (filter_scoped isNewContext tv isNewContext_scoped Htv).
  rewrite Hm, Hl; repeat split; try (count_events; cbn; lia).
Qed.

Lemma internalRun_accurate (E : Env) (c : Cache) (domainID : string)
    (execution : types.WorkflowExecution) (scope callerScope : metrics.scope)
    (force : bool) t res :
  internalRun E c domainID execution scope force callerScope t res ->
  accurate scope t.
Proof.
  intros H; destruct H; unfold accurate; repeat split;
    try (count_events; fail);
    unfold lockEvents; cbn; lia.
Qed.

Lemma getAndCreateRun_accurate (domainID : string)
    (execution : types.WorkflowExecution) t res :
  getAndCreateRun domainID execution t res ->
  accurate metrics.HistoryCacheGetAndCreateScope t.
Proof.
  intros H; destruct H; unfold accurate; repeat split;
    try (count_events; fail); cbn; lia.
Qed.

Lemma accurate_failed (s : metrics.scope) :
  accurate s [EvIncCounter s metrics.CacheFailures].
Proof. unfold accurate; repeat split; try (count_events; fail); cbn; lia. Qed.

(** X18. The miss and lock-failure counters are accurate: in every call of
    an entry point the miss counter of its scope is incremented once for
    each [Get] that found nothing and the lock-failure counter once for
    each [Lock] that failed, and never otherwise.  A call constructs at
    most one [Context]. *)
Theorem X18_counters_are_accurate (E : Env) (c : Cache) (ctx : GoContext)
    (domainID : string) (w : World) :
  (forall workflowID,
      accurate metrics.HistoryCacheGetOrCreateCurrentScope
        (newEvents w
           (snd (GetOrCreateCurrentWorkflowExecution E c ctx domainID
                   workflowID w))))
  /\ (forall execution callerScope,
        accurate metrics.HistoryCacheGetOrCreateScope
          (newEvents w
             (snd (GetOrCreateWorkflowExecution E c ctx domainID execution
                     callerScope w))))
  /\ (forall execution,
        accurate metrics.HistoryCacheGetAndCreateScope
          (newEvents w
             (snd (GetAndCreateWorkflowExecution E c ctx domainID execution
                     w)))).
Proof.
  split; [|split].
  - intros workflowID.
    destruct (GetOrCreateCurrentWorkflowExecution _ _ _ _ _ _)
      as [res w'] eqn:Hrun; cbn [fst snd].
    apply GetOrCreateCurrent_run in Hrun as (t & -> & H).
    apply (accurate_frame _ [] t); [discriminate|reflexivity|].
    eapply internalRun_accurate; exact H.
  - intros execution callerScope.
    destruct (GetOrCreateWorkflowExecution _ _ _ _ _ _ _)
      as [res w'] eqn:Hrun; cbn [fst snd].
    apply GetOrCreate_run in Hrun
      as (tv & ex' & verr & tail & -> & Hval & H).
    apply validationRun_scoped in Hval.
    apply accurate_frame; [discriminate|exact Hval|].
    destruct verr as [e|].
    + destruct H as [_ ->]; apply accurate_failed.
    + eapply internalRun_accurate; exact H.
  - intros execution.
    destruct (GetAndCreateWorkflowExecution _ _ _ _ _ _)
      as [res w'] eqn:Hrun; cbn [fst snd].
    apply GetAndCreate_run in Hrun
      as (tv & ex' & verr & tail & -> & Hval & H).
    apply validationRun_scoped in Hval.
    apply accurate_frame; [discriminate|exact Hval|].
    destruct verr as [e|].
    + destruct H as [_ ->]; apply accurate_failed.
    + eapply getAndCreateRun_accurate; exact H.
Qed.

(** ** No pin is lost when a call fails *)

Lemma PutIfNotExist_refused (o : cache.Options) (now : Z)
    (k : definition.WorkflowIdentifier) (v : Context) (l l' : cache.lru)
    (e : types.error) :
  cache.PutIfNotExist o now k v l = (l', inr e) -> l' = l.
Proof.
  unfold cache.PutIfNotExist.
  destruct (cache.find k l); [discriminate|].
  destruct (Nat.ltb _ _); [discriminate|].
  destruct (cache.evict l); [discriminate|].
  intros [= <- _]; reflexivity.
Qed.

Lemma internal_error_pins (E : Env) (c : Cache) (ctx : GoContext)
    (domainID : string) (execution : types.WorkflowExecution)
    (scope callerScope : metrics.scope) (force : bool) (w w' : World)
    (e : types.error) :
  quiet E -> NoDup (cache.keys (entries w)) ->
  getOrCreateWorkflowExecutionInternal E c ctx domainID execution scope force
    callerScope w = (None, None, Some e, w') ->
  forall k, cache.pins k (entries w') = cache.pins k (entries w).
Proof.
  intros Hq Hnd; split_internal Hd HG HP HL; intros k.
  - cbn; repeat (rewrite envStep_entries by exact Hq; cbn).
    rewrite ?envStep_entries in HG by exact Hq.
    eapply pins_Get_Release; eauto.
  - cbn; repeat (rewrite envStep_entries by exact Hq; cbn).
    rewrite ?envStep_entries in HG by exact Hq.
    repeat (cbn in HP; rewrite ?envStep_entries in HP by exact Hq).
    erewrite pins_PutIfNotExist_Release; [| |exact HP].
    + eapply pins_Get_miss; eauto.
    + change l1 with (fst (l1, @None Context)); rewrite <- HG.
      apply NoDup_keys_Get; auto.
  - cbn; repeat (rewrite envStep_entries by exact Hq; cbn).
    rewrite ?envStep_entries in HG by exact Hq.
    repeat (cbn in HP; rewrite ?envStep_entries in HP by exact Hq).
    pose proof (PutIfNotExist_refused _ _ _ _ _ _ _ HP) as Hl2; subst l2.
    eapply pins_Get_miss; eauto.
Qed.

(** X19. With the pinned map behaving as its package describes it and no
    other goroutine at work, a call of an entry point that returns an error
    leaves every pin count as it was: whatever the reason of the failure
    (validation, a refused insertion, a failed lock), no pin is lost. *)
Theorem X19_failure_loses_no_pin (E : Env) (c : Cache) (ctx : GoContext)
    (domainID : string) (w w' : World) (e : types.error) :
  quiet E -> NoDup (cache.keys (entries w)) ->
  ((exists workflowID,
       GetOrCreateCurrentWorkflowExecution E c ctx domainID workflowID w
       = (None, None, Some e, w'))
   \/ (exists execution callerScope,
         GetOrCreateWorkflowExecution E c ctx domainID execution callerScope
           w = (None, None, Some e, w'))
   \/ (exists execution,
         GetAndCreateWorkflowExecution E c ctx domainID execution w
         = (None, None, None, false, Some e, w'))) ->
  forall k, cache.pins k (entries w') = cache.pins k (entries w).
Proof.
  intros Hq Hnd [[workflowID Hrun]|[(execution & callerScope & Hrun)
                                   |[execution Hrun]]].
  - rewrite GetOrCreateCurrent_internal in Hrun; cbv zeta in Hrun.
    destruct (getOrCreateWorkflowExecutionInternal _ _ _ _ _ _ _ _ _)
      as [res w2] eqn:Hi.
    injection Hrun as -> <-.
    intros k.
    exact (internal_error_pins _ _ _ _ _ _ _ _ _ _ _ Hq
             (Hnd : NoDup (cache.keys (entries (set_trace _ w)))) Hi k).
  - revert Hrun.
    cbv beta iota zeta delta
      [GetOrCreateWorkflowExecution bind ret IncCounter emit withTimer].
    destruct (validateWorkflowExecutionInfo _ _ _ _ _ _)
      as [[ex' verr] wv] eqn:Hv.
    apply validate_resolved in Hv as (_ & _ & _ & _ & _ & He).
    destruct (He Hq) as [He' _]; cbn [entries set_trace] in He'.
    destruct verr as [e0|].
    + intros [= _ <-] k; cbn [entries set_trace]; rewrite He'; reflexivity.
    + destruct (getOrCreateWorkflowExecutionInternal _ _ _ _ _ _ _ _ _)
        as [res w2] eqn:Hi.
      intros [= -> <-] k.
      apply internal_error_pins with (k := k) in Hi;
        [|exact Hq|cbn [entries set_trace]; rewrite He'; exact Hnd].
      cbn [entries set_trace] in Hi |- *; rewrite He' in Hi; exact Hi.
  - revert Hrun; split_GetAndCreate Hres HG HL; intros k;
      destruct Hres as (_ & _ & _ & _ & _ & Hquiet);
      destruct (Hquiet Hq) as [He _]; cbn [entries set_trace] in He.
    + cbn; rewrite He; reflexivity.
    + cbn; repeat (rewrite envStep_entries by exact Hq; cbn).
      rewrite ?envStep_entries in HG by exact Hq.
      cbn in HG; rewrite He in HG.
      eapply pins_Get_Release; eauto.
Qed.

Lemma X19_witness :
  quiet sampleEnv
  /\ NoDup (cache.keys (entries sampleFullWorld))
  /\ forall k,
       cache.pins k (entries sampleRefusedWorld)
       = cache.pins k (entries sampleFullWorld).
Proof.
  assert (Hq : quiet sampleEnv) by (intros n; reflexivity).
  assert (Hnd : NoDup (cache.keys (entries sampleFullWorld))).
  { vm_compute; repeat constructor; cbn; intuition discriminate. }
  split; [exact Hq|split; [exact Hnd|]].
  exact (X19_failure_loses_no_pin sampleEnv sampleCache Background "d1" _ _
           _ Hq Hnd (or_introl (ex_intro _ "w3" sampleRefused_result))).
Defined.
